(** * Workload certificates and cluster trust bundles

    A shallow embedding of the certificate subsystem of the repository:
    the admission plugins, the registry strategies, the signing controller,
    the kubelet-side managers and the trust-bundle normalizer, followed by
    the properties established about them.

    Conventions.
    - A Go [string] is a Rocq [string] (a sequence of bytes); [[]byte] and
      [string] are identified.
    - [int64] fields (generations) are [Z]; no arithmetic is performed on
      them, only comparisons.
    - [time.Time] is a [Z]: nanoseconds elapsed since Go's zero [Time], so
      that the zero value of a struct field is [0]. [time.Duration] is a
      [Z] number of nanoseconds.
    - A function returning [(T, error)] returns [Result T]; wrapped errors
      keep the wrapping as a string prefix.
    - Logging calls are dropped. *)

From Stdlib Require Import ZArith String Ascii List Lia Bool.
From stdpp Require Import base tactics option list gmap sets strings sorting pretty.

Local Open Scope string_scope.
Local Open Scope Z_scope.

(** ** Errors *)

Inductive Result (A : Type) : Type :=
| Ok (a : A)
| Err (e : string).
Arguments Ok {A} a.
Arguments Err {A} e.

Definition bindR {A B} (r : Result A) (k : A -> Result B) : Result B :=
  match r with
  | Ok a => k a
  | Err e => Err e
  end.

(** [fmt.Errorf("<prefix>: %w", err)] *)
Definition wrap (prefix e : string) : string := prefix +:+ ": " +:+ e.

(** ** Time *)

Module time.
Definition Time := Z.
Definition Duration := Z.
Definition zero : Time := 0.
Definition Nanosecond : Duration := 1.
Definition Second : Duration := 1000000000 * Nanosecond.
Definition Minute : Duration := 60 * Second.
Definition Hour : Duration := 60 * Minute.
Definition Add (t : Time) (d : Duration) : Time := t + d.
(** [t.After(u)] *)
Definition After (t u : Time) : bool := u <? t.
End time.

(** ** Object model (k8s.io/api/certificates/v1alpha1/types.go) *)

Module metav1.
(** The fields of [metav1.ObjectMeta] the subsystem reads or writes. A nil
    annotation map reads like an empty one. *)
Record ObjectMeta := {
  Name : string;
  Namespace : string;
  Generation : Z;
  Annotations : gmap string string;
}.
End metav1.

Module certs.
Import metav1.

Definition DefaultWorkloadCertificateSignerName : string :=
  "kubernetes.io/default-workload-certificate".
(** [certsv1.KubeAPIServerClientSignerName] *)
Definition KubeAPIServerClientSignerName : string :=
  "kubernetes.io/kube-apiserver-client".

Record ClusterTrustBundleSpec := {
  ctbSignerName : string;
  TrustBundle : string;
}.

Record ClusterTrustBundle := {
  ctbObjectMeta : ObjectMeta;
  ctbSpec : ClusterTrustBundleSpec;
}.

(** The internal API type (pkg/apis/certificates) names the field
    [PEMTrustAnchors]. *)
Definition PEMTrustAnchors (spec : ClusterTrustBundleSpec) : string := TrustBundle spec.

Record WorkloadCertificateSpec := {
  SignerName : string;
  ServiceAccount : string;
  Pod : string;
  PodUID : string;
  Node : string;
  Requester : string;
  PublicKey : string;
}.

(** [WorkloadCertificateConditionType] and [corev1.ConditionStatus] are
    string types. *)
Definition WorkloadCertificateFailed : string := "Failed".
Definition WorkloadCertificatePending : string := "Pending".
Definition ConditionTrue : string := "True".
Definition ConditionFalse : string := "False".
Definition ConditionUnknown : string := "Unknown".

Record WorkloadCertificateCondition := {
  Type_ : string;
  Status_ : string;
  Reason : string;
  Message : string;
  ObservedGeneration : Z;
  LastUpdateTime : time.Time;
  LastTransitionTime : time.Time;
}.

Record WorkloadCertificateStatus := {
  Conditions : list WorkloadCertificateCondition;
  Certificate : string;
  CertificateObservedGeneration : Z;
  NotBefore : time.Time;
  NotAfter : time.Time;
  BeginRefreshAt : time.Time;
}.

Record WorkloadCertificate := {
  ObjectMeta_ : ObjectMeta;
  Spec : WorkloadCertificateSpec;
  Status : WorkloadCertificateStatus;
}.

Definition withStatus (wc : WorkloadCertificate) (st : WorkloadCertificateStatus) :=
  {| ObjectMeta_ := ObjectMeta_ wc; Spec := Spec wc; Status := st |}.

Definition withSpec (wc : WorkloadCertificate) (sp : WorkloadCertificateSpec) :=
  {| ObjectMeta_ := ObjectMeta_ wc; Spec := sp; Status := Status wc |}.

(** The answer of [wcLister.WorkloadCertificates(namespace).Get(name)]. *)
Inductive GetResult :=
| Found (wc : WorkloadCertificate)
| NotFound
| GetError (e : string).

Definition withConditions (st : WorkloadCertificateStatus)
    (cs : list WorkloadCertificateCondition) :=
  {| Conditions := cs;
     Certificate := Certificate st;
     CertificateObservedGeneration := CertificateObservedGeneration st;
     NotBefore := NotBefore st;
     NotAfter := NotAfter st;
     BeginRefreshAt := BeginRefreshAt st |}.
End certs.

(** ** The signing controller (package workloadcertificatesigner) *)

Module x509.
(** [x509.KeyUsage] is a bit mask, [1 << iota]. *)
Definition KeyUsageDigitalSignature : Z := Z.shiftl 1 0.
Definition KeyUsageContentCommitment : Z := Z.shiftl 1 1.
Definition KeyUsageKeyEncipherment : Z := Z.shiftl 1 2.
Definition KeyUsageDataEncipherment : Z := Z.shiftl 1 3.
Definition KeyUsageKeyAgreement : Z := Z.shiftl 1 4.

Inductive ExtKeyUsage :=
| ExtKeyUsageAny
| ExtKeyUsageServerAuth
| ExtKeyUsageClientAuth
| ExtKeyUsageCodeSigning.

(** The fields of [x509.Certificate] a template sets; [pkix.Name] is
    reduced to its common name. Fields a composite literal leaves out
    hold their zero value. *)
Record Certificate := {
  SerialNumber : Z;
  SubjectCommonName : string;
  KeyUsage : Z;
  ExtKeyUsage_ : list ExtKeyUsage;
  BasicConstraintsValid : bool;
  NotBefore : time.Time;
  NotAfter : time.Time;
}.
End x509.

Module workloadcertificatesigner.
Import metav1 certs.

Definition serialNumberLimit : Z := Z.shiftl 1 128.

(** What the controller consumes from its collaborators: the informer
    cache, the dynamic CA material, the PEM and X.509 routines of the
    standard library and of client-go, the random source, the clock and
    the API client. *)
Record Env := {
  caCertificate : Type;
  privateKey : Type;
  publicKey : Type;
  SplitMetaNamespaceKey : string -> Result (string * string);
  wcLister : string -> string -> GetResult;
  kubeAPIServerClientKeyPair : string * string;
  defaultWorkloadCertificateKeyPair : string * string;
  ParseCertsPEM : string -> Result (list caCertificate);
  ParsePrivateKeyPEM : string -> Result privateKey;
  (** Go returns the slice and the error side by side. *)
  ParsePublicKeysPEM : string -> list publicKey * option string;
  (** [rand.Int(rand.Reader, serialNumberLimit)] *)
  randInt : Z -> Result Z;
  CreateCertificate :
    x509.Certificate -> caCertificate -> publicKey -> privateKey -> Result string;
  (** [pem.EncodeToMemory(&pem.Block{Type: "CERTIFICATE", Bytes: der})] *)
  encodeCertificatePEM : string -> string;
  Now : time.Time;
  (** [UpdateStatus] of the API client: [None] when the write succeeded. *)
  UpdateStatus : WorkloadCertificate -> option string;
}.

(** The effect of one call: the objects handed to [UpdateStatus], in
    order, and the returned error ([None] for nil). *)
Record Outcome := {
  submitted : list WorkloadCertificate;
  ret : option string;
}.

Definition succeed : Outcome := {| submitted := []; ret := None |}.
Definition failWith (e : string) : Outcome := {| submitted := []; ret := Some e |}.
Definition wrapOutcome (prefix : string) (o : Outcome) : Outcome :=
  {| submitted := submitted o; ret := wrap prefix <$> ret o |}.

(** The loop shared by [setWCFailed] and [setWCIssued]:
    "Clear Failed and Pending conditions". *)
Fixpoint clearFailedAndPending (conds : list WorkloadCertificateCondition)
    : list WorkloadCertificateCondition :=
  match conds with
  | [] => []
  | cond :: rest =>
      if String.eqb (Type_ cond) WorkloadCertificateFailed then clearFailedAndPending rest
      else if String.eqb (Type_ cond) WorkloadCertificatePending then clearFailedAndPending rest
      else cond :: clearFailedAndPending rest
  end.

(** The object [setWCFailed] builds before it calls the API; [message]
    is [fmt.Sprintf(format, args...)]. *)
Definition markFailed (wc : WorkloadCertificate) (reason message : string)
    : WorkloadCertificate :=
  let newConditions := clearFailedAndPending (Conditions (Status wc)) in
  withStatus wc
    (withConditions (Status wc)
       (newConditions ++
        [ {| Type_ := WorkloadCertificateFailed;
             Status_ := ConditionTrue;
             ObservedGeneration := Generation (ObjectMeta_ wc);
             Reason := reason;
             Message := message;
             LastUpdateTime := time.zero;
             LastTransitionTime := time.zero |} ])).

Definition setWCFailed (env : Env) (wc : WorkloadCertificate)
    (reason message : string) : Outcome :=
  let wc' := markFailed wc reason message in
  {| submitted := [wc'];
     ret := wrap "while updating status" <$> UpdateStatus env wc' |}.

(** The object [setWCIssued] builds before it calls the API. *)
Definition markIssued (wc : WorkloadCertificate) (issuedPEM : string)
    (notBefore notAfter beginRefreshAt : time.Time) : WorkloadCertificate :=
  let st :=
    {| Certificate := issuedPEM;
       CertificateObservedGeneration := Generation (ObjectMeta_ wc);
       NotBefore := notBefore;
       NotAfter := notAfter;
       BeginRefreshAt := beginRefreshAt;
       Conditions := Conditions (Status wc) |} in
  withStatus wc (withConditions st (clearFailedAndPending (Conditions st))).

Definition setWCIssued (env : Env) (wc : WorkloadCertificate) (issuedPEM : string)
    (notBefore notAfter beginRefreshAt : time.Time) : Outcome :=
  let wc' := markIssued wc issuedPEM notBefore notAfter beginRefreshAt in
  {| submitted := [wc'];
     ret := wrap "while updating status" <$> UpdateStatus env wc' |}.

Definition commonName (wc : WorkloadCertificate) : string :=
  "system:serviceaccount:" +:+ Namespace (ObjectMeta_ wc) +:+ ":" +:+
  ServiceAccount (Spec wc).

Definition templateKeyUsage : Z :=
  Z.lor (Z.lor x509.KeyUsageDataEncipherment x509.KeyUsageKeyAgreement)
        x509.KeyUsageKeyEncipherment.

(** The composite literal names neither [NotBefore] nor [NotAfter]: the
    two parameters are unused and the fields keep their zero value. *)
Definition apiserverClientCertificateTemplate (env : Env) (wc : WorkloadCertificate)
    (notBefore notAfter : time.Time) : Result x509.Certificate :=
  match randInt env serialNumberLimit with
  | Err e => Err (wrap "while generating serial number" e)
  | Ok serialNumber =>
      Ok {| x509.SerialNumber := serialNumber;
            x509.SubjectCommonName := commonName wc;
            x509.KeyUsage := templateKeyUsage;
            x509.ExtKeyUsage_ := [x509.ExtKeyUsageClientAuth; x509.ExtKeyUsageServerAuth];
            x509.BasicConstraintsValid := true;
            x509.NotBefore := time.zero;
            x509.NotAfter := time.zero |}
  end.

Definition defaultWorkloadCertificateTemplate (env : Env) (wc : WorkloadCertificate)
    (notBefore notAfter : time.Time) : Result x509.Certificate :=
  match randInt env serialNumberLimit with
  | Err e => Err (wrap "while generating serial number" e)
  | Ok serialNumber =>
      Ok {| x509.SerialNumber := serialNumber;
            x509.SubjectCommonName := commonName wc;
            x509.KeyUsage := templateKeyUsage;
            x509.ExtKeyUsage_ := [x509.ExtKeyUsageClientAuth; x509.ExtKeyUsageServerAuth];
            x509.BasicConstraintsValid := true;
            x509.NotBefore := notBefore;
            x509.NotAfter := notAfter |}
  end.

Definition badPublicKeyMessage (n : nat) : string :=
  "Public key contained " +:+ pretty n +:+ " keys, wanted 1".

(** The body shared, line for line, by [issueKubeAPIServerClientCert] and
    [issueDefaultWorkloadCertificate]; they differ in the key pair read
    and in the template builder called. *)
Definition issue (env : Env) (keyPair : string * string)
    (template : Env -> WorkloadCertificate -> time.Time -> time.Time ->
                Result x509.Certificate)
    (wc : WorkloadCertificate) : Outcome :=
  let '(certPEM, keyPEM) := keyPair in
  match ParseCertsPEM env certPEM with
  | Err e => failWith (wrap "while reading CA certificate file" e)
  | Ok caCerts =>
    match caCerts with
    | [caCert] =>
      match ParsePrivateKeyPEM env keyPEM with
      | Err e => failWith (wrap "while reading CA key file" e)
      | Ok caPrivKey =>
        let '(pubKeyObjs, err) := ParsePublicKeysPEM env (PublicKey (Spec wc)) in
        match err with
        | Some _ =>
            wrapOutcome "while marking WorkloadCertificate failed"
              (setWCFailed env wc "BadPublicKey"
                 (badPublicKeyMessage (length pubKeyObjs)))
        | None =>
          match pubKeyObjs with
          | [requestPubKey] =>
            let notBefore := time.Add (Now env) (-5 * time.Minute) in
            let notAfter := time.Add notBefore (24 * time.Hour) in
            let beginRenewAt := time.Add notBefore (18 * time.Hour) in
            match template env wc notBefore notAfter with
            | Err e => failWith (wrap "while creating certificate template" e)
            | Ok tmpl =>
              match CreateCertificate env tmpl caCert requestPubKey caPrivKey with
              | Err e =>
                  wrapOutcome "while marking WorkloadCertificate failed"
                    (setWCFailed env wc "SigningFailure"
                       ("Failed to sign certificate: " +:+ e))
              | Ok issuedDER =>
                  wrapOutcome "while setting WorkloadCertificate issued"
                    (setWCIssued env wc (encodeCertificatePEM env issuedDER)
                       notBefore notAfter beginRenewAt)
              end
            end
          | _ =>
            wrapOutcome "while marking WorkloadCertificate failed"
              (setWCFailed env wc "BadPublicKey"
                 (badPublicKeyMessage (length pubKeyObjs)))
          end
        end
      end
    | _ =>
      failWith ("while reading CA certificate file: " +:+ pretty (length caCerts)
                +:+ " cert(s) found, one expected")
    end
  end.

Definition issueKubeAPIServerClientCert (env : Env) (wc : WorkloadCertificate) : Outcome :=
  issue env (kubeAPIServerClientKeyPair env) apiserverClientCertificateTemplate wc.

Definition issueDefaultWorkloadCertificate (env : Env) (wc : WorkloadCertificate) : Outcome :=
  issue env (defaultWorkloadCertificateKeyPair env) defaultWorkloadCertificateTemplate wc.

Definition handleWorkloadCertificate (env : Env) (key : string) : Outcome :=
  match SplitMetaNamespaceKey env key with
  | Err e => failWith (wrap "while splitting key" e)
  | Ok (namespace, name) =>
    match wcLister env namespace name with
    | NotFound => succeed
    | GetError e => failWith (wrap "while retrieving WorkloadCertificate from cache" e)
    | Found wc =>
      if negb (String.eqb (Certificate (Status wc)) "")
         && (CertificateObservedGeneration (Status wc) =? Generation (ObjectMeta_ wc))
      then succeed
      else if String.eqb (SignerName (Spec wc)) KubeAPIServerClientSignerName then
        wrapOutcome ("while issuing certificate for " +:+ KubeAPIServerClientSignerName)
          (issueKubeAPIServerClientCert env wc)
      else if String.eqb (SignerName (Spec wc)) DefaultWorkloadCertificateSignerName then
        wrapOutcome ("while issuing certificate for " +:+ DefaultWorkloadCertificateSignerName)
          (issueDefaultWorkloadCertificate env wc)
      else succeed
    end
  end.
End workloadcertificatesigner.

(** ** Registry strategy for WorkloadCertificates
    (pkg/registry/certificates/workloadcertificate) *)

Module field.
Inductive ErrorType := ErrorTypeInvalid | ErrorTypeForbidden | ErrorTypeRequired.

(** [field.Error]: the kind, the field path and the detail message. *)
Record Error := {
  Type_ : ErrorType;
  Field : string;
  Detail : string;
}.

Definition ErrorList := list Error.

Definition Invalid (path detail : string) : Error :=
  {| Type_ := ErrorTypeInvalid; Field := path; Detail := detail |}.
Definition Forbidden (path detail : string) : Error :=
  {| Type_ := ErrorTypeForbidden; Field := path; Detail := detail |}.
End field.

Module workloadcertificate.
Import metav1 certs.

(** The validation functions of pkg/apis/certificates/validation, which
    the strategies delegate to. *)
Record Validation := {
  ValidateWorkloadCertificateCreate : WorkloadCertificate -> field.ErrorList;
  ValidateWorkloadCertificateUpdate :
    WorkloadCertificate -> WorkloadCertificate -> field.ErrorList;
  ValidateWorkloadCertificateStatusUpdate :
    WorkloadCertificate -> WorkloadCertificate -> field.ErrorList;
}.

(** The part of [rest.RESTUpdateStrategy] that acts on the object. The
    source mutates [new] in place; here the hooks return the new object. *)
Record RESTUpdateStrategy := {
  PrepareForUpdate : WorkloadCertificate -> WorkloadCertificate -> WorkloadCertificate;
  ValidateUpdate : WorkloadCertificate -> WorkloadCertificate -> field.ErrorList;
  Canonicalize : WorkloadCertificate -> WorkloadCertificate;
}.

Definition Strategy (v : Validation) : RESTUpdateStrategy :=
  {| PrepareForUpdate := fun new old => new;
     ValidateUpdate := fun new old =>
       let newWC := new in
       let oldWC := old in
       ValidateWorkloadCertificateUpdate v newWC oldWC;
     Canonicalize := fun obj => obj |}.

(** [statusStrategy] embeds [strategy] and overrides the three hooks.
    [ValidateUpdate] takes both [newWC] and [oldWC] from [new], as the
    source does. *)
Definition StatusStrategy (v : Validation) : RESTUpdateStrategy :=
  {| PrepareForUpdate := fun new old =>
       let newWC := new in
       let oldWC := old in
       withSpec newWC (Spec oldWC);
     ValidateUpdate := fun new old =>
       let newWC := new in
       let oldWC := new in
       ValidateWorkloadCertificateStatusUpdate v newWC oldWC;
     Canonicalize := fun obj => obj |}.

(** [objectMeta.SetGeneration(g)] *)
Definition withGeneration (wc : WorkloadCertificate) (g : Z) : WorkloadCertificate :=
  {| ObjectMeta_ := {| Name := Name (ObjectMeta_ wc);
                       Namespace := Namespace (ObjectMeta_ wc);
                       Generation := g;
                       Annotations := Annotations (ObjectMeta_ wc) |};
     Spec := Spec wc;
     Status := Status wc |}.

(** [rest.BeforeUpdate] of the generic store (k8s.io/apiserver, not part of
    the sources at hand), on the fields of the object model above: the
    object sent takes the generation of the stored object, then the
    strategy prepares, validates and canonicalizes it; the object is
    persisted only when validation reports nothing. *)
Definition BeforeUpdate (s : RESTUpdateStrategy) (obj old : WorkloadCertificate)
    : field.ErrorList + WorkloadCertificate :=
  let obj := withGeneration obj (Generation (ObjectMeta_ old)) in
  let obj := PrepareForUpdate s obj old in
  match ValidateUpdate s obj old with
  | [] => inr (Canonicalize s obj)
  | errs => inl errs
  end.

(** storage.go: [statusStore.UpdateStrategy = workloadcertificate.StatusStrategy];
    [StatusREST.Update] hands the update to that store. The result is the
    object stored, or the validation errors. *)
Definition StatusREST_Update (v : Validation) (existing obj : WorkloadCertificate)
    : field.ErrorList + WorkloadCertificate :=
  BeforeUpdate (StatusStrategy v) obj existing.

Definition REST_Update (v : Validation) (existing obj : WorkloadCertificate)
    : field.ErrorList + WorkloadCertificate :=
  BeforeUpdate (Strategy v) obj existing.
End workloadcertificate.

(** ** Runes and quoting (packages unicode/utf8 and strconv of the
    standard library) *)

Module utf8.
Definition RuneError : Z := 0xFFFD.
Definition RuneSelf : Z := 0x80.
Definition MaxRune : Z := 0x10FFFF.

Definition byte (c : ascii) : Z := Z.of_N (N_of_ascii c).
Definition chr (n : Z) : ascii := ascii_of_N (Z.to_N n).

Definition between (lo hi : Z) (c : ascii) : bool := (lo <=? byte c) && (byte c <=? hi).

(** The tables [first] and [acceptRanges]: the length of the sequence that
    a first byte announces and the range of its second byte; length 1
    stands for a byte that starts no sequence. *)
Definition first (b0 : Z) : nat * Z * Z :=
  if b0 <? 0xC2 then (1%nat, 0, 0)
  else if b0 <=? 0xDF then (2%nat, 0x80, 0xBF)
  else if b0 =? 0xE0 then (3%nat, 0xA0, 0xBF)
  else if b0 =? 0xED then (3%nat, 0x80, 0x9F)
  else if b0 <=? 0xEF then (3%nat, 0x80, 0xBF)
  else if b0 =? 0xF0 then (4%nat, 0x90, 0xBF)
  else if b0 <=? 0xF3 then (4%nat, 0x80, 0xBF)
  else if b0 =? 0xF4 then (4%nat, 0x80, 0x8F)
  else (1%nat, 0, 0).

(** [DecodeRuneInString(s)]: the rune and its width; [(RuneError, 1)] for
    bytes that are no UTF-8 encoding, [(RuneError, 0)] for the empty
    string. *)
Definition DecodeRuneInString (s : string) : Z * nat :=
  match s with
  | EmptyString => (RuneError, 0%nat)
  | String c0 rest =>
      let b0 := byte c0 in
      if b0 <? RuneSelf then (b0, 1%nat)
      else
        let '(size, lo, hi) := first b0 in
        match size, rest with
        | 2%nat, String c1 _ =>
            if between lo hi c1
            then (Z.lor (Z.shiftl (Z.land b0 0x1F) 6) (Z.land (byte c1) 0x3F), 2%nat)
            else (RuneError, 1%nat)
        | 3%nat, String c1 (String c2 _) =>
            if between lo hi c1 && between 0x80 0xBF c2
            then (Z.lor (Z.shiftl (Z.land b0 0x0F) 12)
                    (Z.lor (Z.shiftl (Z.land (byte c1) 0x3F) 6) (Z.land (byte c2) 0x3F)),
                  3%nat)
            else (RuneError, 1%nat)
        | 4%nat, String c1 (String c2 (String c3 _)) =>
            if between lo hi c1 && between 0x80 0xBF c2 && between 0x80 0xBF c3
            then (Z.lor (Z.shiftl (Z.land b0 0x07) 18)
                    (Z.lor (Z.shiftl (Z.land (byte c1) 0x3F) 12)
                       (Z.lor (Z.shiftl (Z.land (byte c2) 0x3F) 6) (Z.land (byte c3) 0x3F))),
                  4%nat)
            else (RuneError, 1%nat)
        | _, _ => (RuneError, 1%nat)
        end
  end.

Definition ValidRune (r : Z) : bool :=
  ((0 <=? r) && (r <? 0xD800)) || ((0xDFFF <? r) && (r <=? MaxRune)).

Definition cont (n : Z) : ascii := chr (Z.lor 0x80 (Z.land n 0x3F)).

(** [AppendRune(nil, r)] *)
Definition AppendRune (r : Z) : string :=
  if (0 <=? r) && (r <=? 0x7F) then String (chr r) ""
  else if (0 <=? r) && (r <=? 0x7FF)
  then String (chr (Z.lor 0xC0 (Z.shiftr r 6))) (String (cont r) "")
  else
    let r := if ValidRune r then r else RuneError in
    if r <=? 0xFFFF
    then String (chr (Z.lor 0xE0 (Z.shiftr r 12)))
           (String (cont (Z.shiftr r 6)) (String (cont r) ""))
    else String (chr (Z.lor 0xF0 (Z.shiftr r 18)))
           (String (cont (Z.shiftr r 12))
              (String (cont (Z.shiftr r 6)) (String (cont r) ""))).
End utf8.

Module strconv.
(** [lowerhex[n]] *)
Definition lowerhex (n : Z) : ascii :=
  if n <? 10 then utf8.chr (48 + n) else utf8.chr (87 + n).

(** The [digits] lowest hexadecimal digits of [r], the highest first. *)
Fixpoint hex (digits : nat) (r : Z) : string :=
  match digits with
  | O => ""
  | S d => String (lowerhex (Z.land (Z.shiftr r (4 * Z.of_nat d)) 0xF)) (hex d r)
  end.

(** [IsPrint]. Up to U+00FF Go decides by the comparisons below. Beyond,
    it looks the rune up in tables generated from the Unicode database,
    which are not reproduced here: such a rune is taken as printable. *)
Definition IsPrint (r : Z) : bool :=
  if r <=? 0xFF
  then if (0x20 <=? r) && (r <=? 0x7E) then true
       else if (0xA1 <=? r) && (r <=? 0xFF) then negb (r =? 0xAD)
       else false
  else true.

Definition dquote : ascii := "034"%char.
Definition backslash : ascii := "092"%char.

(** [appendEscapedRune] for the double quote as the quote, neither
    ASCII-only nor graphic-only. *)
Definition appendEscapedRune (r : Z) : string :=
  if (r =? utf8.byte dquote) || (r =? utf8.byte backslash)
  then String backslash (String (utf8.chr r) "")
  else if IsPrint r then utf8.AppendRune r
  else if r =? 7 then "\a"
  else if r =? 8 then "\b"
  else if r =? 12 then "\f"
  else if r =? 10 then "\n"
  else if r =? 13 then "\r"
  else if r =? 9 then "\t"
  else if r =? 11 then "\v"
  else if (r <? 32) || (r =? 0x7F) then "\x" +:+ hex 2 r
  else
    let r := if utf8.ValidRune r then r else utf8.RuneError in
    if r <? 0x10000 then "\u" +:+ hex 4 r else "\U" +:+ hex 8 r.

(** The loop of [appendQuotedWith]; [skip] counts the bytes of the rune
    read last that are still ahead ([s = s[width:]]). *)
Fixpoint quoteLoop (skip : nat) (s : string) : string :=
  match s with
  | EmptyString => ""
  | String c s' =>
      match skip with
      | S k => quoteLoop k s'
      | O =>
          let '(r, width) :=
            if utf8.byte c <? utf8.RuneSelf then (utf8.byte c, 1%nat)
            else utf8.DecodeRuneInString s in
          (if (width =? 1)%nat && (r =? utf8.RuneError)
           then "\x" +:+ hex 2 (utf8.byte c)
           else appendEscapedRune r)
          +:+ quoteLoop (width - 1) s'
      end
  end.

(** [Quote(s)] *)
Definition Quote (s : string) : string :=
  String dquote (quoteLoop 0 s +:+ String dquote "").
End strconv.

(** ** Strings (packages strings and bytes of the standard library)

    The two packages offer the same functions, one on [string], one on
    [[]byte]; both are read here on Rocq strings. *)

Module strings.
Definition nl : ascii := "010"%char.
Definition cr : ascii := "013"%char.
Definition tab : ascii := "009"%char.

Definition HasPrefix (s prefix : string) : bool := String.prefix prefix s.

(** [s[n:]] *)
Fixpoint drop (n : nat) (s : string) : string :=
  match n, s with
  | O, _ => s
  | S n', String _ s' => drop n' s'
  | S _, EmptyString => EmptyString
  end.

(** [s[:n]] *)
Fixpoint take (n : nat) (s : string) : string :=
  match n, s with
  | O, _ => EmptyString
  | S n', String c s' => String c (take n' s')
  | S _, EmptyString => EmptyString
  end.

Definition HasSuffix (s suffix : string) : bool :=
  (String.length suffix <=? String.length s)%nat
  && String.eqb (drop (String.length s - String.length suffix) s) suffix.

(** [if HasPrefix(s, prefix) { return s[len(prefix):] }; return s] *)
Definition TrimPrefix (s prefix : string) : string :=
  if HasPrefix s prefix then drop (String.length prefix) s else s.

(** [strings.Join(elems, sep)] *)
Fixpoint Join (elems : list string) (sep : string) : string :=
  match elems with
  | [] => ""
  | [e] => e
  | e :: rest => e +:+ sep +:+ Join rest sep
  end.

(** [Index(s, sep)]: the first position at which [sep] occurs; [None]
    stands for -1. *)
Fixpoint Index (s sep : string) : option nat :=
  if HasPrefix s sep then Some O
  else
    match s with
    | EmptyString => None
    | String _ s' => S <$> Index s' sep
    end.

Fixpoint IndexByte (s : string) (c : ascii) : option nat :=
  match s with
  | EmptyString => None
  | String d s' => if Ascii.eqb d c then Some O else S <$> IndexByte s' c
  end.

(** [Cut(s, sep)] returns [(before, after, found)]. *)
Definition Cut (s sep : string) : string * string * bool :=
  match Index s sep with
  | Some i => (take i s, drop (i + String.length sep) s, true)
  | None => (s, "", false)
  end.

Fixpoint contains (cutset : string) (c : ascii) : bool :=
  match cutset with
  | EmptyString => false
  | String d cutset' => Ascii.eqb d c || contains cutset' c
  end.

Fixpoint TrimRightFunc (f : ascii -> bool) (s : string) : string :=
  match s with
  | EmptyString => EmptyString
  | String c s' =>
      let t := TrimRightFunc f s' in
      if f c && String.eqb t "" then EmptyString else String c t
  end.

Fixpoint TrimLeftFunc (f : ascii -> bool) (s : string) : string :=
  match s with
  | EmptyString => EmptyString
  | String c s' => if f c then TrimLeftFunc f s' else s
  end.

Definition TrimRight (s cutset : string) : string := TrimRightFunc (contains cutset) s.

(** [TrimSpace], on the ASCII white space characters. *)
Definition TrimSpace (s : string) : string :=
  TrimLeftFunc Ascii.is_space (TrimRightFunc Ascii.is_space s).

(** Whether every byte of [s] satisfies [f]. *)
Fixpoint all (f : ascii -> bool) (s : string) : bool :=
  match s with
  | EmptyString => true
  | String c s' => f c && all f s'
  end.

(** The verb [%q] of package fmt on a string: [strconv.Quote]. *)
Definition quote (s : string) : string := strconv.Quote s.
End strings.

(** ** Admission *)

Module admission.
Import metav1 certs.

Inductive Operation := Create | Update | Delete | Connect.

Record GroupResource := { Group : string; Resource : string }.

(** [api.Resource(r)] of pkg/apis/certificates *)
Definition certificatesResource (r : string) : GroupResource :=
  {| Group := "certificates.k8s.io"; Resource := r |}.

Definition GroupResource_eqb (a b : GroupResource) : bool :=
  String.eqb (Group a) (Group b) && String.eqb (Resource a) (Resource b).

(** The dynamic type of the object under admission. *)
Inductive Object :=
| ClusterTrustBundleObject (ctb : ClusterTrustBundle)
| WorkloadCertificateObject (wc : WorkloadCertificate)
| OtherObject.

Record UserInfo := { GetName : string; GetGroups : list string }.

Record Attributes := {
  GetResource : GroupResource;
  GetSubresource : string;
  GetOperation : Operation;
  GetObject : Object;
  GetOldObject : Object;
  GetUserInfo : UserInfo;
}.

(** [fmt.Errorf(format, args...)], kept unevaluated. *)
Record fmtError := Errorf { format : string; args : list string }.

(** The value a plugin returns: nil, [admission.NewForbidden(a, err)], or
    another error. *)
Inductive Response :=
| Allowed
| Forbidden (e : fmtError)
| Failure (e : fmtError).

(** Modelled from the spec: the authorizer hook of section 6,
    [Authorized(principal, verb, resource, resourceName) -> bool]; the
    interface itself belongs to k8s.io/apiserver. *)
Definition Authorizer := UserInfo -> string -> string -> string -> bool.

(** Modelled from the spec: [certificates.IsAuthorizedForSignerName] of
    plugin/pkg/admission/certificates is not among the sources at hand.
    Section 4.3 has the principal "hold [verb] on the resource [signers]
    scoped by resource-name [signerName]". *)
Definition IsAuthorizedForSignerName (authz : Authorizer) (info : UserInfo)
    (verb signerName : string) : bool :=
  authz info verb "signers" signerName.
End admission.

Module entrusting.
Import metav1 certs admission.

Definition PluginName : string := "ClusterTrustBundleEntrusting".

Record Plugin := { authz : Authorizer }.

Definition clusterTrustBundleGroupResource : GroupResource :=
  certificatesResource "clustertrustbundles".

Definition Validate (p : Plugin) (a : Attributes) : Response :=
  if negb (GroupResource_eqb (GetResource a) clusterTrustBundleGroupResource) then Allowed
  else
    match GetObject a with
    | ClusterTrustBundleObject newBundle =>
        let updateCheck :=
          match GetOperation a with
          | Update =>
              match GetOldObject a with
              | ClusterTrustBundleObject oldBundle =>
                  if negb (String.eqb (ctbSignerName (ctbSpec oldBundle))
                                      (ctbSignerName (ctbSpec newBundle)))
                  then Some (Forbidden (Errorf "changing signerName is forbidden" []))
                  else None
              | _ => Some (Forbidden (Errorf "expected type ClusterTrustBundle, got: %T" []))
              end
          | _ => None
          end in
        match updateCheck with
        | Some r => r
        | None =>
            if String.eqb (ctbSignerName (ctbSpec newBundle)) "" then Allowed
            else if negb (IsAuthorizedForSignerName (authz p) (GetUserInfo a) "entrust"
                            (ctbSignerName (ctbSpec newBundle)))
            then Forbidden (Errorf "user not permitted to entrust signerName %q"
                              [ctbSignerName (ctbSpec newBundle)])
            else Allowed
        end
    | _ => Forbidden (Errorf "expected type ClusterTrustBundle, got: %T" [])
    end.
End entrusting.

Module corev1.
(** The fields of [corev1.Pod] the admission plugin reads. *)
Record Pod := {
  UID : string;
  ServiceAccountName : string;
  NodeName : string;
}.
End corev1.

Module wcrestriction.
Import metav1 certs admission.

Definition PluginName : string := "WorkloadCertificateRestriction".

Inductive PodGetResult :=
| PodFound (pod : corev1.Pod)
| PodNotFound
| PodGetError (e : string).

Record Plugin := {
  authz : Authorizer;
  enabled : bool;
  (** [p.podLister.Pods(namespace).Get(name)] *)
  podLister : string -> string -> PodGetResult;
}.

Definition workloadCertificateGroupResource : GroupResource :=
  certificatesResource "workloadcertificates".

(** The mutating entry point of the plugin, [Admit] in the source. It
    returns the response and the object as the plugin leaves it. *)
Definition Mutate (p : Plugin) (a : Attributes) : Response * Object :=
  if negb (enabled p) then (Allowed, GetObject a)
  else if negb (GroupResource_eqb (GetResource a) workloadCertificateGroupResource)
  then (Allowed, GetObject a)
  else
    match GetObject a with
    | WorkloadCertificateObject newWC =>
        match podLister p (Namespace (ObjectMeta_ newWC)) (Pod (Spec newWC)) with
        | PodNotFound =>
            (Forbidden (Errorf "the named pod %s/%s does not exist in the cluster"
                          [Namespace (ObjectMeta_ newWC); Pod (Spec newWC)]),
             GetObject a)
        | PodGetError e => (Failure (Errorf "while getting pod: %w" [e]), GetObject a)
        | PodFound pod =>
            if negb (String.eqb (corev1.UID pod) (PodUID (Spec newWC)))
            then (Forbidden (Errorf "pod UID mismatch (pod has %s, workload certificate has %s)"
                               [corev1.UID pod; PodUID (Spec newWC)]),
                  GetObject a)
            else
              (Allowed,
               WorkloadCertificateObject
                 (withSpec newWC
                    {| SignerName := SignerName (Spec newWC);
                       ServiceAccount := corev1.ServiceAccountName pod;
                       Pod := Pod (Spec newWC);
                       PodUID := PodUID (Spec newWC);
                       Node := corev1.NodeName pod;
                       Requester := GetName (GetUserInfo a);
                       PublicKey := PublicKey (Spec newWC) |}))
        end
    | _ => (Forbidden (Errorf "expected type WorkloadCertificate, got: %T" []), GetObject a)
    end.

Definition Validate (p : Plugin) (a : Attributes) : Response :=
  if negb (enabled p) then Allowed
  else if negb (GroupResource_eqb (GetResource a) workloadCertificateGroupResource)
  then Allowed
  else
    match GetObject a with
    | WorkloadCertificateObject newWC =>
        if String.eqb (GetSubresource a) ""
           && negb (String.eqb (GetName (GetUserInfo a)) (Requester (Spec newWC)))
        then Forbidden (Errorf "only the original requester %q may modify this WorkloadCertificate"
                          [Requester (Spec newWC)])
        else if String.eqb (GetSubresource a) "status"
                && negb (IsAuthorizedForSignerName (authz p) (GetUserInfo a) "sign"
                           (SignerName (Spec newWC)))
        then Forbidden (Errorf "user not permitted to sign requests with signerName %q"
                          [SignerName (Spec newWC)])
        else
          match podLister p (Namespace (ObjectMeta_ newWC)) (Pod (Spec newWC)) with
          | PodNotFound =>
              Forbidden (Errorf "the named pod %s/%s does not exist in the cluster"
                           [Namespace (ObjectMeta_ newWC); Pod (Spec newWC)])
          | PodGetError e => Failure (Errorf "while getting pod: %w" [e])
          | PodFound pod =>
              if negb (String.eqb (corev1.UID pod) (PodUID (Spec newWC)))
              then Forbidden (Errorf "pod UID mismatch (pod has %s, workload certificate has %s)"
                                [corev1.UID pod; PodUID (Spec newWC)])
              else if negb (String.eqb (corev1.ServiceAccountName pod) (ServiceAccount (Spec newWC)))
              then Forbidden (Errorf "pod service account mismatch (pod has %s, workload certificate has %s)"
                                [corev1.ServiceAccountName pod; ServiceAccount (Spec newWC)])
              else if negb (String.eqb (corev1.NodeName pod) (Node (Spec newWC)))
              then Forbidden (Errorf "pod node mismatch (pod has %s, workload certificate has %s)"
                                [corev1.NodeName pod; Node (Spec newWC)])
              else if negb (String.eqb (strings.TrimPrefix (Requester (Spec newWC)) "system:node:")
                                       (Node (Spec newWC)))
              then Forbidden (Errorf "the requester %s is not related to node %s"
                                [Requester (Spec newWC); Node (Spec newWC)])
              else Allowed
          end
    | _ => Forbidden (Errorf "expected type WorkloadCertificate, got: %T" [])
    end.
End wcrestriction.

(** ** The kubelet's workload-certificate manager
    (pkg/kubelet/workloadcertificate) *)

Module kubeletworkloadcertificate.
Import metav1 certs.

Definition privateKeyFileHashAnnotation : string :=
  "workloadcertificates.kubelet.kubernetes.io/private-key-file-hash".

(** The cryptographic and encoding routines [rekeyWorkloadCertificate]
    calls, all from the standard library. *)
Record Crypto := {
  ecdsaPrivateKey : Type;
  (** [ecdsa.GenerateKey(elliptic.P256(), rand.Reader)] *)
  GenerateKey : Result ecdsaPrivateKey;
  MarshalPKCS8PrivateKey : ecdsaPrivateKey -> Result string;
  (** [x509.MarshalPKIXPublicKey(&privKey.PublicKey)] *)
  MarshalPKIXPublicKey : ecdsaPrivateKey -> Result string;
  (** [pem.EncodeToMemory(&pem.Block{Type: t, Bytes: b})] *)
  pemEncodeToMemory : string -> string -> string;
  Sum512_256 : string -> string;
  (** [base64.StdEncoding.EncodeToString] *)
  EncodeToString : string -> string;
}.

Inductive APICall :=
| CreateCall (wc : WorkloadCertificate)
| UpdateCall (wc : WorkloadCertificate).

(** The collaborators of one call of [GetWorkloadCertificate]. The informer
    cache changes while the call waits: [wcLister k] is the cache as the
    k-th read of the call sees it. [ctxDone k] tells whether the
    cancellation channel is the one selected at the k-th wait. *)
Record Env := {
  crypto : Crypto;
  wcLister : nat -> string -> string -> GetResult;
  clockNow : time.Time;
  Create : WorkloadCertificate -> option string;
  Update : WorkloadCertificate -> option string;
  ctxDone : nat -> bool;
}.

Inductive issuanceStatus := issued | pending | failed.

Definition currentCondition (wc : WorkloadCertificate) (type : string)
    (cond : WorkloadCertificateCondition) : bool :=
  String.eqb (Type_ cond) type
  && String.eqb (Status_ cond) ConditionTrue
  && (ObservedGeneration cond =? Generation (ObjectMeta_ wc)).

Definition isWorkloadCertificateIssued (wc : WorkloadCertificate)
    : issuanceStatus * string :=
  if negb (String.eqb (Certificate (Status wc)) "")
     && (CertificateObservedGeneration (Status wc) =? Generation (ObjectMeta_ wc))
  then (issued, "")
  else
    match List.find (currentCondition wc WorkloadCertificateFailed)
                    (Conditions (Status wc)) with
    | Some cond =>
        (failed, "the WorkloadCertificate failed issuance (reason=" +:+ Reason cond
                 +:+ "): " +:+ Message cond)
    | None =>
        match List.find (currentCondition wc WorkloadCertificatePending)
                        (Conditions (Status wc)) with
        | Some cond =>
            (pending, "the WorkloadCertificate is explicitly pending (reason="
                      +:+ strings.quote (Reason cond) +:+ "): " +:+ Message cond)
        | None => (pending, "the WorkloadCertificate is implicitly pending")
        end
    end.

(** The polling loop of [waitForWorkloadCertificateIssuance]: [ticks] bounds
    the number of ticker events waited for, [k] numbers the next cache
    read. [None]: still pending after [ticks] ticks. *)
Fixpoint pollIssuance (env : Env) (namespace name : string) (ticks k : nat)
    : option (Result WorkloadCertificate) :=
  match ticks with
  | O => None
  | S ticks' =>
      if ctxDone env k then Some (Err "context cancelled: context canceled")
      else
        match wcLister env k namespace name with
        | Found wc =>
            match isWorkloadCertificateIssued wc with
            | (issued, _) => Some (Ok wc)
            | (failed, msg) => Some (Err msg)
            | (pending, _) => pollIssuance env namespace name ticks' (S k)
            end
        | NotFound =>
            Some (Err (wrap "while retrieving WorkloadCertificate from informer cache"
                            "not found"))
        | GetError e =>
            Some (Err (wrap "while retrieving WorkloadCertificate from informer cache" e))
        end
  end.

Definition waitForWorkloadCertificateIssuance (env : Env) (namespace name : string)
    (ticks k : nat) : option (Result WorkloadCertificate) :=
  match wcLister env k namespace name with
  | Found wc =>
      match isWorkloadCertificateIssued wc with
      | (issued, _) => Some (Ok wc)
      | (failed, msg) => Some (Err msg)
      | (pending, _) => pollIssuance env namespace name ticks (S k)
      end
  | NotFound =>
      Some (Err (wrap "while retrieving WorkloadCertificate from informer cache" "not found"))
  | GetError e =>
      Some (Err (wrap "while retrieving WorkloadCertificate from informer cache" e))
  end.

(** Returns the private key PEM and the object with the new annotation
    and public key (the source updates [wc] in place). *)
Definition rekeyWorkloadCertificate (env : Env) (wc : WorkloadCertificate)
    : Result (string * WorkloadCertificate) :=
  let c := crypto env in
  match GenerateKey c with
  | Err e => Err (wrap "while generating private key" e)
  | Ok privKey =>
    match MarshalPKCS8PrivateKey c privKey with
    | Err e => Err (wrap "while marshaling private key" e)
    | Ok privKeyBytes =>
      let privKeyPEM := pemEncodeToMemory c "PRIVATE KEY" privKeyBytes in
      let keyFileHash := Sum512_256 c privKeyPEM in
      match MarshalPKIXPublicKey c privKey with
      | Err e => Err (wrap "while marshaling public key" e)
      | Ok pubKeyBytes =>
        let pubKeyPEM := pemEncodeToMemory c "PUBLIC KEY" pubKeyBytes in
        let meta := ObjectMeta_ wc in
        Ok (privKeyPEM,
            {| ObjectMeta_ :=
                 {| Name := Name meta;
                    Namespace := Namespace meta;
                    Generation := Generation meta;
                    Annotations :=
                      <[privateKeyFileHashAnnotation := EncodeToString c keyFileHash]>
                        (Annotations meta) |};
               Spec :=
                 {| SignerName := SignerName (Spec wc);
                    ServiceAccount := ServiceAccount (Spec wc);
                    Pod := Pod (Spec wc);
                    PodUID := PodUID (Spec wc);
                    Node := Node (Spec wc);
                    Requester := Requester (Spec wc);
                    PublicKey := pubKeyPEM |};
               Status := Status wc |})
      end
    end
  end.

(** What a call did and returned: the API writes, then
    [(privateKeyPEM, certificatePEM)] or the error; [None] while the call
    is still waiting for issuance. *)
Record Outcome := {
  calls : list APICall;
  result : option (Result (string * string));
}.

Definition emptyStatus : WorkloadCertificateStatus :=
  {| Conditions := []; Certificate := ""; CertificateObservedGeneration := 0;
     NotBefore := time.zero; NotAfter := time.zero; BeginRefreshAt := time.zero |}.

Definition awaitAndReturn (env : Env) (namespace wcName : string) (ticks : nat)
    (privKeyPEM : string) : option (Result (string * string)) :=
  match waitForWorkloadCertificateIssuance env namespace wcName ticks 1 with
  | None => None
  | Some (Err e) =>
      Some (Err (wrap "while waiting for WorkloadCertificate to be issued" e))
  | Some (Ok wc) => Some (Ok (privKeyPEM, Certificate (Status wc)))
  end.

Definition GetWorkloadCertificate (env : Env) (ticks : nat)
    (signerName namespace podName podUID volumeName : string) (sourceIndex : Z)
    (keyFileHash : string) : Outcome :=
  let wcName := "kubelet-" +:+ podName +:+ "-" +:+ volumeName +:+ "-" +:+ pretty sourceIndex in
  match wcLister env 0 namespace wcName with
  | NotFound =>
      let wc :=
        {| ObjectMeta_ := {| Name := wcName; Namespace := namespace;
                             Generation := 0; Annotations := ∅ |};
           Spec := {| SignerName := signerName; ServiceAccount := "";
                      Pod := podName; PodUID := podUID; Node := "";
                      Requester := ""; PublicKey := "" |};
           Status := emptyStatus |} in
      match rekeyWorkloadCertificate env wc with
      | Err e =>
          {| calls := [];
             result := Some (Err (wrap "while initially keying WorkloadCertificate" e)) |}
      | Ok (privKeyPEM, wc) =>
          match Create env wc with
          | Some e =>
              {| calls := [CreateCall wc];
                 result := Some (Err (wrap "while creating WorkloadCertificate" e)) |}
          | None =>
              {| calls := [CreateCall wc];
                 result := awaitAndReturn env namespace wcName ticks privKeyPEM |}
          end
      end
  | GetError e =>
      {| calls := [];
         result := Some (Err (wrap "while fetching WorkloadCertificate from informer cache" e)) |}
  | Found wc =>
      (* The branch on the key-file hash has an empty body in the source. *)
      let _ :=
        if negb (String.eqb (default "" (Annotations (ObjectMeta_ wc) !! privateKeyFileHashAnnotation))
                            keyFileHash)
        then tt else tt in
      if time.After (clockNow env) (BeginRefreshAt (Status wc)) then
        let newWC := wc in
        match rekeyWorkloadCertificate env newWC with
        | Err e =>
            {| calls := [];
               result := Some (Err (wrap "while rekeying WorkloadCertificate" e)) |}
        | Ok (privKeyPEM, newWC) =>
            match Update env newWC with
            | Some e =>
                {| calls := [UpdateCall newWC];
                   result := Some (Err (wrap "while creating WorkloadCertificate" e)) |}
            | None =>
                {| calls := [UpdateCall newWC];
                   result := awaitAndReturn env namespace wcName ticks privKeyPEM |}
            end
        end
      else
        {| calls := [];
           result := awaitAndReturn env namespace wcName ticks "" |}
  end.
End kubeletworkloadcertificate.

(** ** Base64 (encoding/base64 of the standard library, [StdEncoding])

    A byte is an [ascii], whose constructor lists the bits from the least
    significant one. Three bytes make four groups of six bits. *)

Module base64.
Definition encodeStd : string :=
  "ABCDEFGHIJKLMNOPQRSTUVWXYZabcdefghijklmnopqrstuvwxyz0123456789+/".

Definition StdPadding : ascii := "="%char.

(** Six bits, the most significant first. *)
Definition sextet : Type := bool * bool * bool * bool * bool * bool.

Definition index (s : sextet) : nat :=
  let '(b5, b4, b3, b2, b1, b0) := s in
  (32 * Nat.b2n b5 + 16 * Nat.b2n b4 + 8 * Nat.b2n b3
   + 4 * Nat.b2n b2 + 2 * Nat.b2n b1 + Nat.b2n b0)%nat.

Definition ofIndex (n : nat) : sextet :=
  (Nat.testbit n 5, Nat.testbit n 4, Nat.testbit n 3,
   Nat.testbit n 2, Nat.testbit n 1, Nat.testbit n 0).

Definition encodeChar (s : sextet) : ascii :=
  default "A"%char (String.get (index s) encodeStd).

(** The decode map: the position of a character in the alphabet. *)
Definition decodeChar (c : ascii) : option sextet :=
  ofIndex <$> strings.IndexByte encodeStd c.

Fixpoint EncodeToString (src : string) : string :=
  match src with
  | EmptyString => EmptyString
  | String (Ascii x0 x1 x2 x3 x4 x5 x6 x7) EmptyString =>
      String (encodeChar (x7, x6, x5, x4, x3, x2))
        (String (encodeChar (x1, x0, false, false, false, false))
           (String StdPadding (String StdPadding EmptyString)))
  | String (Ascii x0 x1 x2 x3 x4 x5 x6 x7)
      (String (Ascii y0 y1 y2 y3 y4 y5 y6 y7) EmptyString) =>
      String (encodeChar (x7, x6, x5, x4, x3, x2))
        (String (encodeChar (x1, x0, y7, y6, y5, y4))
           (String (encodeChar (y3, y2, y1, y0, false, false))
              (String StdPadding EmptyString)))
  | String (Ascii x0 x1 x2 x3 x4 x5 x6 x7)
      (String (Ascii y0 y1 y2 y3 y4 y5 y6 y7)
         (String (Ascii z0 z1 z2 z3 z4 z5 z6 z7) rest)) =>
      String (encodeChar (x7, x6, x5, x4, x3, x2))
        (String (encodeChar (x1, x0, y7, y6, y5, y4))
           (String (encodeChar (y3, y2, y1, y0, z7, z6))
              (String (encodeChar (z5, z4, z3, z2, z1, z0))
                 (EncodeToString rest))))
  end.

Definition byte1 (s0 s1 : sextet) : ascii :=
  let '(x7, x6, x5, x4, x3, x2) := s0 in
  let '(x1, x0, _, _, _, _) := s1 in
  Ascii x0 x1 x2 x3 x4 x5 x6 x7.

Definition byte2 (s1 s2 : sextet) : ascii :=
  let '(_, _, y7, y6, y5, y4) := s1 in
  let '(y3, y2, y1, y0, _, _) := s2 in
  Ascii y0 y1 y2 y3 y4 y5 y6 y7.

Definition byte3 (s2 s3 : sextet) : ascii :=
  let '(_, _, _, _, z7, z6) := s2 in
  let '(z5, z4, z3, z2, z1, z0) := s3 in
  Ascii z0 z1 z2 z3 z4 z5 z6 z7.

(** The decoder steps over carriage returns and line feeds wherever they
    stand. *)
Fixpoint stripNewlines (s : string) : string :=
  match s with
  | EmptyString => EmptyString
  | String c s' =>
      if Ascii.eqb c strings.nl || Ascii.eqb c strings.cr then stripNewlines s'
      else String c (stripNewlines s')
  end.

(** Quantum by quantum: four characters give three bytes; padding closes
    the input; a quantum cut short is corrupt. Left-over bits of a padded
    quantum are not checked (the encoding is not strict). *)
Fixpoint decodeQuanta (s : string) : option string :=
  match s with
  | EmptyString => Some EmptyString
  | String c0 (String c1 (String c2 (String c3 rest))) =>
      match decodeChar c0, decodeChar c1 with
      | Some s0, Some s1 =>
          if Ascii.eqb c2 StdPadding then
            if Ascii.eqb c3 StdPadding && String.eqb rest "" then
              Some (String (byte1 s0 s1) EmptyString)
            else None
          else
            match decodeChar c2 with
            | None => None
            | Some s2 =>
                if Ascii.eqb c3 StdPadding then
                  if String.eqb rest "" then
                    Some (String (byte1 s0 s1) (String (byte2 s1 s2) EmptyString))
                  else None
                else
                  match decodeChar c3 with
                  | None => None
                  | Some s3 =>
                      match decodeQuanta rest with
                      | None => None
                      | Some bytes =>
                          Some (String (byte1 s0 s1)
                                  (String (byte2 s1 s2)
                                     (String (byte3 s2 s3) bytes)))
                      end
                  end
            end
      | _, _ => None
      end
  | _ => None
  end.

(** Bytes that the PEM armor gives no meaning to: no line end, blank,
    tab, colon or dash. The characters [EncodeToString] writes are of
    this kind. *)
Definition plain (c : ascii) : bool :=
  negb (Ascii.eqb c strings.nl) && negb (Ascii.eqb c strings.cr)
  && negb (Ascii.eqb c " ") && negb (Ascii.eqb c strings.tab)
  && negb (Ascii.eqb c ":") && negb (Ascii.eqb c "-").

(** [None] stands for a [CorruptInputError]. *)
Definition DecodeString (s : string) : option string :=
  decodeQuanta (stripNewlines s).
End base64.

(** ** PEM (encoding/pem of the standard library) *)

Module pem.
Import strings.

Record Block := {
  Type_ : string;
  Headers : gmap string string;
  Bytes : string;
}.

(** [&pem.Block{Type: "CERTIFICATE", Bytes: der}] *)
Definition certificateBlock (der : string) : Block :=
  {| Type_ := "CERTIFICATE"; Headers := ∅; Bytes := der |}.

(** The bytes of the lines between the BEGIN and the END line of an
    encoded block. *)
Definition bodyChar (c : ascii) : bool := base64.plain c || Ascii.eqb c nl.

Definition beginLine : string := "-----BEGIN CERTIFICATE-----" +:+ String nl "".
Definition endLine : string := "-----END CERTIFICATE-----" +:+ String nl "".

Definition pemStart : string := String nl "-----BEGIN ".
Definition pemEnd : string := String nl "-----END ".
Definition pemEndOfLine : string := "-----".
Definition colon : string := ":".
Definition pemLineLength : nat := 64.

Definition getLine (data : string) : string * string :=
  match IndexByte data nl with
  | None => (TrimRight data (String " " (String tab "")), "")
  | Some i =>
      let j := S i in
      let i :=
        if (0 <? i)%nat && bool_decide (String.get (i - 1) data = Some cr)
        then (i - 1)%nat else i in
      (TrimRight (take i data) (String " " (String tab "")), drop j data)
  end.

Fixpoint removeSpacesAndTabs (data : string) : string :=
  match data with
  | EmptyString => EmptyString
  | String b data' =>
      if Ascii.eqb b " " || Ascii.eqb b tab then removeSpacesAndTabs data'
      else String b (removeSpacesAndTabs data')
  end.

(** The loop that reads the headers of a block. [None]: the input ended,
    and [Decode] returns no block. [fuel] bounds the number of lines. *)
Fixpoint readHeaders (fuel : nat) (headers : gmap string string) (rest : string)
    : option (gmap string string * string) :=
  match fuel with
  | O => None
  | S fuel' =>
      if (String.length rest =? 0)%nat then None
      else
        let '(line, next) := getLine rest in
        match Cut line colon with
        | (key, val, true) =>
            readHeaders fuel' (<[TrimSpace key := TrimSpace val]> headers) next
        | (_, _, false) => Some (headers, rest)
        end
  end.

(** What one turn of the loop of [Decode] does once the type line is
    read: return a block and the rest, or go round again from [rest]. *)
Inductive turn :=
| Return (p : Block) (rest : string)
| Continue (rest : string).

Definition decodeBody (typeLine : string) (headers : gmap string string)
    (rest : string) : turn :=
  let ends :=
    if (size headers =? 0)%nat && HasPrefix rest (drop 1 pemEnd)
    then Some (O, (String.length pemEnd - 1)%nat)
    else
      match Index rest pemEnd with
      | Some endIndex => Some (endIndex, (endIndex + String.length pemEnd)%nat)
      | None => None
      end in
  match ends with
  | None => Continue rest
  | Some (endIndex, endTrailerIndex) =>
      let endTrailer := drop endTrailerIndex rest in
      let endTrailerLen := (String.length typeLine + String.length pemEndOfLine)%nat in
      if (String.length endTrailer <? endTrailerLen)%nat then Continue rest
      else
        let restOfEndLine := drop endTrailerLen endTrailer in
        let endTrailer := take endTrailerLen endTrailer in
        if negb (HasPrefix endTrailer typeLine) || negb (HasSuffix endTrailer pemEndOfLine)
        then Continue rest
        else if negb (String.length (fst (getLine restOfEndLine)) =? 0)%nat
        then Continue rest
        else
          let base64Data := removeSpacesAndTabs (take endIndex rest) in
          match base64.DecodeString base64Data with
          | None => Continue rest
          | Some bytes =>
              Return {| Type_ := typeLine; Headers := headers; Bytes := bytes |}
                     (snd (getLine (drop (endIndex + String.length pemEnd - 1) rest)))
          end
  end.

(** The outer loop of [Decode]; every turn starts further into the
    input, so [fuel] above the length of the input is never used up. *)
Fixpoint decodeLoop (fuel : nat) (rest : string) : option (Block * string) :=
  match fuel with
  | O => None
  | S fuel' =>
      let start :=
        if HasPrefix rest (drop 1 pemStart)
        then Some (drop (String.length pemStart - 1) rest)
        else
          match Cut rest pemStart with
          | (_, after, true) => Some after
          | (_, _, false) => None
          end in
      match start with
      | None => None
      | Some rest =>
          let '(typeLine, rest) := getLine rest in
          if negb (HasSuffix typeLine pemEndOfLine) then decodeLoop fuel' rest
          else
            let typeLine :=
              take (String.length typeLine - String.length pemEndOfLine) typeLine in
            match readHeaders (S (String.length rest)) ∅ rest with
            | None => None
            | Some (headers, rest) =>
                match decodeBody typeLine headers rest with
                | Return p rest => Some (p, rest)
                | Continue rest => decodeLoop fuel' rest
                end
            end
      end
  end.

(** [Decode(data)]: the first block found and the remainder of the input,
    or no block and the input itself. *)
Definition Decode (data : string) : option Block * string :=
  match decodeLoop (S (String.length data)) data with
  | Some (p, rest) => (Some p, rest)
  | None => (None, data)
  end.

(** The line breaker of [Encode]: every 64 characters a line feed, and
    one more after a last, shorter line. [used] counts the characters on
    the current line. *)
Fixpoint lineBreaker (used : nat) (s : string) : string :=
  match s with
  | EmptyString => if (used =? 0)%nat then EmptyString else String nl EmptyString
  | String c s' =>
      if (S used =? pemLineLength)%nat
      then String c (String nl (lineBreaker 0 s'))
      else String c (lineBreaker (S used) s')
  end.

Definition writeHeader (k v : string) : string :=
  k +:+ ": " +:+ v +:+ String nl EmptyString.

Definition procType : string := "Proc-Type".

Definition encodeHeaders (headers : gmap string string) : string :=
  if (size headers =? 0)%nat then ""
  else
    let h := merge_sort String.le
               (List.filter (fun k => negb (String.eqb k procType))
                            (elements (dom headers))) in
    (match headers !! procType with
     | Some v => writeHeader procType v
     | None => ""
     end)
    +:+ String.concat "" ((fun k => writeHeader k (default "" (headers !! k))) <$> h)
    +:+ String nl EmptyString.

(** [EncodeToMemory(b)]; the empty string stands for the nil slice
    returned when a header key contains a colon. *)
Definition EncodeToMemory (b : Block) : string :=
  if existsb (fun k => bool_decide (is_Some (Index k colon))) (elements (dom (Headers b)))
  then ""
  else
    "-----BEGIN " +:+ Type_ b +:+ "-----" +:+ String nl EmptyString
    +:+ encodeHeaders (Headers b)
    +:+ lineBreaker 0 (base64.EncodeToString (Bytes b))
    +:+ "-----END " +:+ Type_ b +:+ "-----" +:+ String nl EmptyString.

(** [EncodeToMemory(&pem.Block{Type: "CERTIFICATE", Bytes: der})] *)
Definition encodeCertificate (der : string) : string :=
  EncodeToMemory (certificateBlock der).
End pem.

(** ** Registry strategy for ClusterTrustBundles
    (pkg/registry/certificates/clustertrustbundle) *)

Module clustertrustbundle.
Import metav1 certs.

(** The validation helpers of pkg/apis/core/validation and
    pkg/apis/certificates/validation the strategy calls. The third
    argument of [ValidateObjectMeta] is the name validator, which returns
    the messages to report about a name. *)
Record Validation := {
  ValidateObjectMeta :
    ObjectMeta -> bool -> (string -> bool -> list string) -> string -> field.ErrorList;
  ValidateObjectMetaUpdate : ObjectMeta -> ObjectMeta -> string -> field.ErrorList;
  ValidateSignerName : string -> string -> field.ErrorList;
}.

Definition noRestrictionsOnName (name : string) (prefix : bool) : list string := [].

(** [&pem.Block{Type: "CERTIFICATE", Bytes: b.Bytes}] *)
Definition reblock (b : pem.Block) : pem.Block := pem.certificateBlock (pem.Bytes b).

(** The loop [for b != nil] of [normalizePEMTrustAnchors]. [blockSet] is
    the map used as a set. [None]: [fuel] turns did not reach the end of
    the input. *)
Fixpoint normalizeLoop (fuel : nat) (b : option pem.Block) (rest : string)
    (blockSet : gset string) : option (Result (gset string)) :=
  match b with
  | None => Some (Ok blockSet)
  | Some b =>
      if negb (String.eqb (pem.Type_ b) "CERTIFICATE")
      then Some (Err ("bad block type " +:+ strings.quote (pem.Type_ b)))
      else
        match fuel with
        | O => None
        | S fuel' =>
            let blockSet := {[ pem.EncodeToMemory (reblock b) ]} ∪ blockSet in
            let '(b, rest) := pem.Decode rest in
            normalizeLoop fuel' b rest blockSet
        end
  end.

(** A canonical block: a CERTIFICATE block without headers, as
    [EncodeToMemory] writes it. *)
Definition canonicalBlock (e : string) : Prop :=
  exists der, e = pem.encodeCertificate der.

(** Canonical blocks joined by line feeds, and what is left of such a
    text once its first block is read: nothing, or a line feed and the
    blocks that follow. *)
Definition joined (ders : list string) : string :=
  strings.Join (pem.encodeCertificate <$> ders) (String strings.nl "").

Definition following (ders : list string) : string :=
  match ders with
  | [] => ""
  | _ => String strings.nl (joined ders)
  end.

(** [sort.Strings] *)
Definition sortStrings (l : list string) : list string := merge_sort String.le l.

(** Every block takes bytes off the input, so as many turns as the input
    has bytes are enough; [normalizePEMTrustAnchors_total] shows that the
    result is never [None]. *)
Definition normalizePEMTrustAnchors (in_ : string) : option (Result string) :=
  let '(b, rest) := pem.Decode in_ in
  match normalizeLoop (String.length in_) b rest ∅ with
  | None => None
  | Some (Err e) => Some (Err e)
  | Some (Ok blockSet) =>
      let blockSlice := elements blockSet in
      let blockSlice := sortStrings blockSlice in
      Some (Ok (strings.Join blockSlice (String strings.nl "")))
  end.

Definition withPEMTrustAnchors (bundle : ClusterTrustBundle) (pemTrustAnchors : string)
    : ClusterTrustBundle :=
  {| ctbObjectMeta := ctbObjectMeta bundle;
     ctbSpec := {| ctbSignerName := ctbSignerName (ctbSpec bundle);
                   TrustBundle := pemTrustAnchors |} |}.

Definition invalidTrustAnchors (detail : string) : field.Error :=
  field.Invalid "spec.pemTrustAnchors" detail.

(** [Validate] returns the errors and the bundle as it leaves it (the
    source overwrites [bundle.Spec.PEMTrustAnchors]). *)
Definition Validate (v : Validation) (bundle : ClusterTrustBundle)
    : option (field.ErrorList * ClusterTrustBundle) :=
  let allErrors :=
    ValidateObjectMeta v (ctbObjectMeta bundle) false noRestrictionsOnName "metadata" in
  let allErrors :=
    if negb (String.eqb (ctbSignerName (ctbSpec bundle)) "")
    then (allErrors ++ ValidateSignerName v "spec.signerName"
                         (ctbSignerName (ctbSpec bundle)))%list
    else allErrors in
  match normalizePEMTrustAnchors (PEMTrustAnchors (ctbSpec bundle)) with
  | None => None
  | Some (Err _) =>
      Some ((allErrors ++ [invalidTrustAnchors "contains an invalid block"])%list, bundle)
  | Some (Ok pemTrustAnchors) =>
      let bundle := withPEMTrustAnchors bundle pemTrustAnchors in
      if String.eqb (PEMTrustAnchors (ctbSpec bundle)) ""
      then Some ((allErrors
                  ++ [invalidTrustAnchors "at least one trust anchor must be provided"])%list,
                 bundle)
      else Some (allErrors, bundle)
  end.

Definition ValidateUpdate (v : Validation) (new old : ClusterTrustBundle)
    : option (field.ErrorList * ClusterTrustBundle) :=
  let oldBundle := old in
  let newBundle := new in
  match Validate v newBundle with
  | None => None
  | Some (allErrors, newBundle) =>
      let allErrors :=
        (allErrors ++ ValidateObjectMetaUpdate v (ctbObjectMeta newBundle)
                        (ctbObjectMeta oldBundle) "metadata")%list in
      if negb (String.eqb (ctbSignerName (ctbSpec newBundle))
                          (ctbSignerName (ctbSpec oldBundle)))
      then Some ((allErrors ++ [field.Forbidden "spec.signerName"
                                  "updates may not change the signer name"])%list,
                 newBundle)
      else Some (allErrors, newBundle)
  end.

(** The name rule of the API documentation (types.go, [signerName]), as a
    decidable predicate: with a signer, the name starts with the signer
    name, slashes turned into colons, then a colon and a suffix that is
    not empty. *)
Fixpoint translateSlashes (s : string) : string :=
  match s with
  | EmptyString => EmptyString
  | String c s' =>
      String (if Ascii.eqb c "/" then ":"%char else c) (translateSlashes s')
  end.

Definition requiredNamePrefix (signerName : string) : string :=
  translateSlashes signerName +:+ ":".

Definition nameHasSignerPrefix (name signerName : string) : bool :=
  strings.HasPrefix name (requiredNamePrefix signerName)
  && (String.length (requiredNamePrefix signerName) <? String.length name)%nat.
End clustertrustbundle.

(** ** The kubelet's trust-bundle manager (pkg/kubelet/clustertrustbundle) *)

Module kubeletclustertrustbundle.
Import metav1 certs.

(** The informer and its lister, and the selector conversion of
    apimachinery. *)
Record Env := {
  LabelSelector : Type;
  Selector : Type;
  HasSynced : bool;
  Get : string -> Result ClusterTrustBundle;
  LabelSelectorAsSelector : LabelSelector -> Result Selector;
  List : Selector -> Result (list ClusterTrustBundle);
}.

Definition notSynced : string := "ClusterTrustBundle informer has not yet synced".

Definition GetTrustAnchorsByName (env : Env) (name : string) : Result string :=
  if negb (HasSynced env) then Err notSynced
  else
    match Get env name with
    | Err e => Err (wrap "while getting ClusterTrustBundle" e)
    | Ok ctb => Ok (TrustBundle (ctbSpec ctb))
    end.

(** The inner loop: every block of one bundle goes into the set, under
    its bytes. [None]: [fuel] turns did not reach the end. *)
Fixpoint collectBlocks (fuel : nat) (rest : string) (trustAnchorSet : gset string)
    : option (gset string) :=
  match fuel with
  | O => None
  | S fuel' =>
      match pem.Decode rest with
      | (None, _) => Some trustAnchorSet
      | (Some b, rest) => collectBlocks fuel' rest ({[ pem.Bytes b ]} ∪ trustAnchorSet)
      end
  end.

(** The outer loop over the listed bundles. *)
Fixpoint collectBundles (ctbList : list ClusterTrustBundle) (signerName : string)
    (trustAnchorSet : gset string) : option (gset string) :=
  match ctbList with
  | [] => Some trustAnchorSet
  | ctb :: ctbList' =>
      if negb (String.eqb (ctbSignerName (ctbSpec ctb)) signerName)
      then collectBundles ctbList' signerName trustAnchorSet
      else
        let rest := TrustBundle (ctbSpec ctb) in
        match collectBlocks (S (String.length rest)) rest trustAnchorSet with
        | None => None
        | Some trustAnchorSet => collectBundles ctbList' signerName trustAnchorSet
        end
  end.

(** "Reserialize the deduped and sorted set to PEM." *)
Fixpoint reserialize (trustAnchors : list string) (pemTrustAnchors : string) : string :=
  match trustAnchors with
  | [] => pemTrustAnchors
  | ta :: trustAnchors' =>
      reserialize trustAnchors' (pemTrustAnchors +:+ pem.encodeCertificate ta)
  end.

Definition GetTrustAnchorsBySigner (env : Env) (signerName : string)
    (labelSelector : LabelSelector env) : option (Result string) :=
  if negb (HasSynced env) then Some (Err notSynced)
  else
    match LabelSelectorAsSelector env labelSelector with
    | Err e => Some (Err (wrap "while parsing label selector" e))
    | Ok selector =>
        match List env selector with
        | Err e =>
            Some (Err (wrap "while listing ClusterTrustBundles matching label selector" e))
        | Ok ctbList =>
            match collectBundles ctbList signerName ∅ with
            | None => None
            | Some trustAnchorSet =>
                let trustAnchors := elements trustAnchorSet in
                let trustAnchors := clustertrustbundle.sortStrings trustAnchors in
                Some (Ok (reserialize trustAnchors ""))
            end
        end
    end.

(** *** The same result, in the words of the specification *)

(** All the PEM blocks of a text, in order. *)
Fixpoint pemBlocksUpTo (fuel : nat) (text : string) : list pem.Block :=
  match fuel with
  | O => []
  | S fuel' =>
      match pem.Decode text with
      | (None, _) => []
      | (Some b, rest) => b :: pemBlocksUpTo fuel' rest
      end
  end.

Definition pemBlocks (text : string) : list pem.Block :=
  pemBlocksUpTo (S (String.length text)) text.

(** The DER bytes of all the blocks of the bundles of a signer, as a set. *)
Definition anchorsOfSigner (ctbList : list ClusterTrustBundle) (signerName : string)
    : gset string :=
  list_to_set
    (ctb ← List.filter (fun ctb => String.eqb (ctbSignerName (ctbSpec ctb)) signerName)
                        ctbList;
     pem.Bytes <$> pemBlocks (TrustBundle (ctbSpec ctb))).

(** Sorted by byte order, each one re-encoded as a CERTIFICATE block. *)
Definition unionBySigner (ctbList : list ClusterTrustBundle) (signerName : string)
    : string :=
  String.concat ""
    (pem.encodeCertificate <$> clustertrustbundle.sortStrings (elements (anchorsOfSigner ctbList signerName))).
End kubeletclustertrustbundle.

(** ** The work loop of the signing controller *)

Module workqueue.
(** The calls a worker makes on the rate-limited queue of client-go
    (util/workqueue) once [Get] has handed it a key. *)
Inductive Call :=
| AddRateLimited (key : string)
| Forget (key : string)
| Done (key : string).
End workqueue.

Module signerworker.
Import certs workloadcertificatesigner.

(** What one call of [processNextWorkloadCertificate] did: the calls on
    the queue in the order they are made (the deferred [Done] comes last),
    the status writes of the reconcile, and the value returned. *)
Record Turn := {
  queueCalls : list workqueue.Call;
  writes : list WorkloadCertificate;
  continue : bool;
}.

(** [get] is the answer of [c.queue.Get()]: a key, or [None] when the
    queue reports [quit]. *)
Definition processNextWorkloadCertificate (env : Env) (get : option string) : Turn :=
  match get with
  | None => {| queueCalls := []; writes := []; continue := false |}
  | Some key =>
      let o := handleWorkloadCertificate env key in
      match ret o with
      | Some _ =>
          {| queueCalls := [workqueue.AddRateLimited key; workqueue.Done key];
             writes := submitted o; continue := true |}
      | None =>
          {| queueCalls := [workqueue.Forget key; workqueue.Done key];
             writes := submitted o; continue := true |}
      end
  end.

(** [worker]: [for c.processNextWorkloadCertificate(ctx) {}]. The queue
    hands out the keys of [deliveries], each one in the environment that
    holds when it is taken, and then reports [quit], on which the loop
    ends. The result lists the queue calls and the status writes of the
    whole run. *)
Fixpoint worker (deliveries : list (Env * string))
    : list workqueue.Call * list WorkloadCertificate :=
  match deliveries with
  | [] => ([], [])
  | (env, key) :: deliveries' =>
      let t := processNextWorkloadCertificate env (Some key) in
      if continue t
      then ((queueCalls t ++ fst (worker deliveries'))%list,
            (writes t ++ snd (worker deliveries'))%list)
      else (queueCalls t, writes t)
  end.
End signerworker.

(** ** Storage of ClusterTrustBundles
    (pkg/registry/certificates/clustertrustbundle/storage) *)

Module clustertrustbundlestorage.
Import metav1 certs.

(** The three hooks of [strategy] with an empty body. *)
Definition PrepareForCreate (obj : ClusterTrustBundle) : ClusterTrustBundle := obj.
Definition PrepareForUpdate (new old : ClusterTrustBundle) : ClusterTrustBundle :=
  PrepareForCreate new.
Definition Canonicalize (obj : ClusterTrustBundle) : ClusterTrustBundle := obj.

(** [objectMeta.SetGeneration(g)] *)
Definition withGeneration (obj : ClusterTrustBundle) (g : Z) : ClusterTrustBundle :=
  {| ctbObjectMeta := {| Name := Name (ctbObjectMeta obj);
                         Namespace := Namespace (ctbObjectMeta obj);
                         Generation := g;
                         Annotations := Annotations (ctbObjectMeta obj) |};
     ctbSpec := ctbSpec obj |}.

(** [NewREST] makes [clustertrustbundle.Strategy] the create and the update
    strategy of the store. The generic store (k8s.io/apiserver, not part
    of the sources at hand) hands one and the same object to the hooks, in
    the order prepare, validate, canonicalize; on update the object sent
    first takes the generation of the stored object. The result is the
    validation errors, or the object as the hooks leave it, which is what
    the store persists if it persists anything: its further refusals (its
    own check of the object meta on create, conflicts of resource
    versions) are not part of this reading. *)
Definition Create (v : clustertrustbundle.Validation) (obj : ClusterTrustBundle)
    : option (field.ErrorList + ClusterTrustBundle) :=
  let obj := PrepareForCreate obj in
  match clustertrustbundle.Validate v obj with
  | None => None
  | Some ([], obj) => Some (inr (Canonicalize obj))
  | Some (errs, _) => Some (inl errs)
  end.

Definition Update (v : clustertrustbundle.Validation) (existing obj : ClusterTrustBundle)
    : option (field.ErrorList + ClusterTrustBundle) :=
  let obj := withGeneration obj (Generation (ctbObjectMeta existing)) in
  let obj := PrepareForUpdate obj existing in
  match clustertrustbundle.ValidateUpdate v obj existing with
  | None => None
  | Some ([], obj) => Some (inr (Canonicalize obj))
  | Some (errs, _) => Some (inl errs)
  end.

(** [ShortNames] *)
Definition ShortNames : list string := ["ctb"].
End clustertrustbundlestorage.

(** ** Vocabulary of the statements *)

Module statements.
Import metav1 certs.

(** How many conditions of a type a request carries. *)
Definition countConditions (type : string) (wc : WorkloadCertificate) : nat :=
  length (List.filter (fun c => String.eqb (Type_ c) type) (Conditions (Status wc))).

(** The CA material the controller reads for a built-in signer. *)
Definition caKeyPair (env : workloadcertificatesigner.Env) (signerName : string)
    : string * string :=
  if String.eqb signerName KubeAPIServerClientSignerName
  then workloadcertificatesigner.kubeAPIServerClientKeyPair env
  else workloadcertificatesigner.defaultWorkloadCertificateKeyPair env.

Definition builtinSigner (signerName : string) : Prop :=
  signerName = KubeAPIServerClientSignerName
  \/ signerName = DefaultWorkloadCertificateSignerName.

(** The name [GetWorkloadCertificate] gives to the request of a volume
    source: [fmt.Sprintf("kubelet-%s-%s-%d", podName, volumeName, sourceIndex)]. *)
Definition requestName (podName volumeName : string) (sourceIndex : Z) : string :=
  "kubelet-" +:+ podName +:+ "-" +:+ volumeName +:+ "-" +:+ pretty sourceIndex.

(** Issued at the current generation: the test that the controller and
    the kubelet both make. *)
Definition issuedAtCurrentGeneration (wc : WorkloadCertificate) : Prop :=
  Certificate (Status wc) <> ""
  /\ CertificateObservedGeneration (Status wc) = Generation (ObjectMeta_ wc).

(** A condition of the given type with status True, recorded at the
    current generation of the request. *)
Definition hasCurrentCondition (wc : WorkloadCertificate) (type : string) : Prop :=
  exists cond,
    In cond (Conditions (Status wc))
    /\ Type_ cond = type
    /\ Status_ cond = ConditionTrue
    /\ ObservedGeneration cond = Generation (ObjectMeta_ wc).

(** The template builder of a built-in signer. *)
Definition signerTemplate (signerName : string)
    : workloadcertificatesigner.Env -> WorkloadCertificate -> time.Time -> time.Time ->
      Result x509.Certificate :=
  if String.eqb signerName KubeAPIServerClientSignerName
  then workloadcertificatesigner.apiserverClientCertificateTemplate
  else workloadcertificatesigner.defaultWorkloadCertificateTemplate.

(** The attributes of a call whose object a mutating plugin has replaced. *)
Definition withObject (a : admission.Attributes) (obj : admission.Object)
    : admission.Attributes :=
  {| admission.GetResource := admission.GetResource a;
     admission.GetSubresource := admission.GetSubresource a;
     admission.GetOperation := admission.GetOperation a;
     admission.GetObject := obj;
     admission.GetOldObject := admission.GetOldObject a;
     admission.GetUserInfo := admission.GetUserInfo a |}.

Definition isCertificate (b : pem.Block) : bool :=
  String.eqb (pem.Type_ b) "CERTIFICATE".

(** The DER bytes of the blocks of a PEM text, as a set. *)
Definition anchorsOf (text : string) : gset string :=
  list_to_set (pem.Bytes <$> kubeletclustertrustbundle.pemBlocks text).

(** The normalizer in the words of its doc comment: the first block of
    another type than CERTIFICATE is an error; otherwise every block is
    written anew without headers, each distinct one once, in alphabetical
    order, with a line feed between two blocks. *)
Definition normalized (text : string) : Result string :=
  let blocks := kubeletclustertrustbundle.pemBlocks text in
  match List.find (fun b => negb (isCertificate b)) blocks with
  | Some b => Err ("bad block type " +:+ strings.quote (pem.Type_ b))
  | None =>
      Ok (strings.Join
            (clustertrustbundle.sortStrings
               (elements
                  (list_to_set (C := gset string)
                     ((fun b => pem.encodeCertificate (pem.Bytes b)) <$> blocks))))
            (String strings.nl ""))
  end.

(** The keys of the queue calls of one kind, in the order of the calls. *)
Definition doneKeys (calls : list workqueue.Call) : list string :=
  omap (fun c => match c with workqueue.Done key => Some key | _ => None end) calls.

Definition requeuedKeys (calls : list workqueue.Call) : list string :=
  omap (fun c => match c with workqueue.AddRateLimited key => Some key | _ => None end) calls.

Definition forgottenKeys (calls : list workqueue.Call) : list string :=
  omap (fun c => match c with workqueue.Forget key => Some key | _ => None end) calls.

(** Whether the reconcile of a delivered key returns an error. *)
Definition reconcileFails (delivery : workloadcertificatesigner.Env * string) : bool :=
  match workloadcertificatesigner.ret
          (workloadcertificatesigner.handleWorkloadCertificate delivery.1 delivery.2) with
  | Some _ => true
  | None => false
  end.

(** The errors [strategy.Validate] takes over from the generic checks: of
    the object metadata and, with a signer, of the syntax of its name. *)
Definition genericErrors (v : clustertrustbundle.Validation) (bundle : ClusterTrustBundle)
    : field.ErrorList :=
  if negb (String.eqb (ctbSignerName (ctbSpec bundle)) "")
  then (clustertrustbundle.ValidateObjectMeta v (ctbObjectMeta bundle) false
          clustertrustbundle.noRestrictionsOnName "metadata"
        ++ clustertrustbundle.ValidateSignerName v "spec.signerName"
             (ctbSignerName (ctbSpec bundle)))%list
  else clustertrustbundle.ValidateObjectMeta v (ctbObjectMeta bundle) false
         clustertrustbundle.noRestrictionsOnName "metadata".

(** The environment of the controller once the informer cache shows
    [wc] under its namespace and name; everything else is as in [env]. *)
Definition withCachedRequest (env : workloadcertificatesigner.Env) (wc : WorkloadCertificate)
    : workloadcertificatesigner.Env :=
  {| workloadcertificatesigner.caCertificate := workloadcertificatesigner.caCertificate env;
     workloadcertificatesigner.privateKey := workloadcertificatesigner.privateKey env;
     workloadcertificatesigner.publicKey := workloadcertificatesigner.publicKey env;
     workloadcertificatesigner.SplitMetaNamespaceKey :=
       workloadcertificatesigner.SplitMetaNamespaceKey env;
     workloadcertificatesigner.wcLister := fun namespace name =>
       if String.eqb namespace (Namespace (ObjectMeta_ wc))
          && String.eqb name (Name (ObjectMeta_ wc))
       then Found wc
       else workloadcertificatesigner.wcLister env namespace name;
     workloadcertificatesigner.kubeAPIServerClientKeyPair :=
       workloadcertificatesigner.kubeAPIServerClientKeyPair env;
     workloadcertificatesigner.defaultWorkloadCertificateKeyPair :=
       workloadcertificatesigner.defaultWorkloadCertificateKeyPair env;
     workloadcertificatesigner.ParseCertsPEM := workloadcertificatesigner.ParseCertsPEM env;
     workloadcertificatesigner.ParsePrivateKeyPEM :=
       workloadcertificatesigner.ParsePrivateKeyPEM env;
     workloadcertificatesigner.ParsePublicKeysPEM :=
       workloadcertificatesigner.ParsePublicKeysPEM env;
     workloadcertificatesigner.randInt := workloadcertificatesigner.randInt env;
     workloadcertificatesigner.CreateCertificate :=
       workloadcertificatesigner.CreateCertificate env;
     workloadcertificatesigner.encodeCertificatePEM :=
       workloadcertificatesigner.encodeCertificatePEM env;
     workloadcertificatesigner.Now := workloadcertificatesigner.Now env;
     workloadcertificatesigner.UpdateStatus := workloadcertificatesigner.UpdateStatus env |}.

End statements.

(** ** Sample objects and collaborators *)

Module samples.
Import metav1 certs.

Definition condition (type status reason : string) (generation : Z)
    : WorkloadCertificateCondition :=
  {| Type_ := type; Status_ := status; Reason := reason; Message := "";
     ObservedGeneration := generation;
     LastUpdateTime := time.zero; LastTransitionTime := time.zero |}.

(** A request for pod [p1] of namespace [n1], as admission leaves it. *)
Definition request (signerName requester publicKey : string)
    (annotations : gmap string string) (status : WorkloadCertificateStatus)
    : WorkloadCertificate :=
  {| ObjectMeta_ := {| Name := "kubelet-p1-v1-0"; Namespace := "n1";
                       Generation := 1; Annotations := annotations |};
     Spec := {| SignerName := signerName; ServiceAccount := "sa1"; Pod := "p1";
                PodUID := "u1"; Node := "node-a"; Requester := requester;
                PublicKey := publicKey |};
     Status := status |}.

Definition pendingStatus : WorkloadCertificateStatus :=
  {| Conditions := [condition WorkloadCertificatePending ConditionTrue "Waiting" 1;
                    condition WorkloadCertificateFailed ConditionTrue "Old" 0;
                    condition "Other" ConditionTrue "Kept" 1];
     Certificate := ""; CertificateObservedGeneration := 0;
     NotBefore := time.zero; NotAfter := time.zero; BeginRefreshAt := time.zero |}.

Definition issuedStatus (certificate : string) (beginRefreshAt : time.Time)
    : WorkloadCertificateStatus :=
  {| Conditions := []; Certificate := certificate; CertificateObservedGeneration := 1;
     NotBefore := 0; NotAfter := 24 * time.Hour; BeginRefreshAt := beginRefreshAt |}.

(** A controller environment: one request in the cache, a one-certificate
    CA, a public-key parser that counts the lines ["K"] of the key text,
    a signer that never fails, a store that accepts every write. *)
Definition signerEnv (cached : WorkloadCertificate) (now : time.Time)
    : workloadcertificatesigner.Env :=
  {| workloadcertificatesigner.caCertificate := string;
     workloadcertificatesigner.privateKey := string;
     workloadcertificatesigner.publicKey := string;
     workloadcertificatesigner.SplitMetaNamespaceKey := fun key =>
       match strings.Index key "/" with
       | Some i => Ok (strings.take i key, strings.drop (S i) key)
       | None => Ok ("", key)
       end;
     workloadcertificatesigner.wcLister := fun namespace name =>
       if String.eqb namespace (Namespace (ObjectMeta_ cached))
          && String.eqb name (Name (ObjectMeta_ cached))
       then Found cached else NotFound;
     workloadcertificatesigner.kubeAPIServerClientKeyPair := ("client-ca", "client-ca-key");
     workloadcertificatesigner.defaultWorkloadCertificateKeyPair := ("wc-ca", "wc-ca-key");
     workloadcertificatesigner.ParseCertsPEM := fun pemText => Ok [pemText];
     workloadcertificatesigner.ParsePrivateKeyPEM := fun pemText => Ok pemText;
     workloadcertificatesigner.ParsePublicKeysPEM := fun pemText =>
       if String.eqb pemText "" then ([], Some "data does not contain any valid public key")
       else (List.filter (String.eqb "K") (String.words pemText), None);
     workloadcertificatesigner.randInt := fun limit => Ok 7;
     workloadcertificatesigner.CreateCertificate := fun tmpl caCert pub priv =>
       Ok (x509.SubjectCommonName tmpl);
     workloadcertificatesigner.encodeCertificatePEM := fun der =>
       pem.EncodeToMemory {| pem.Type_ := "CERTIFICATE"; pem.Headers := ∅; pem.Bytes := der |};
     workloadcertificatesigner.Now := now;
     workloadcertificatesigner.UpdateStatus := fun wc => None |}.

(** Validation that reports nothing. *)
Definition noWorkloadCertificateValidation : workloadcertificate.Validation :=
  {| workloadcertificate.ValidateWorkloadCertificateCreate := fun _ => [];
     workloadcertificate.ValidateWorkloadCertificateUpdate := fun _ _ => [];
     workloadcertificate.ValidateWorkloadCertificateStatusUpdate := fun _ _ => [] |}.

(** Object-meta validation reduced to the name: a name is required, and
    the messages of the name validator are reported. *)
Definition nameOnlyValidation : clustertrustbundle.Validation :=
  {| clustertrustbundle.ValidateObjectMeta := fun meta requiresNamespace nameFn path =>
       if String.eqb (Name meta) ""
       then [ {| field.Type_ := field.ErrorTypeRequired; field.Field := path +:+ ".name";
                 field.Detail := "name or generateName is required" |} ]
       else field.Invalid (path +:+ ".name") <$> nameFn (Name meta) false;
     clustertrustbundle.ValidateObjectMetaUpdate := fun _ _ _ => [];
     clustertrustbundle.ValidateSignerName := fun path signerName =>
       match strings.Index signerName "/" with
       | Some (S _) => []
       | _ => [field.Invalid path
                 "must be a fully qualified domain and path of the form 'example.com/signer-name'"]
       end |}.

Definition user (name : string) : admission.UserInfo :=
  {| admission.GetName := name; admission.GetGroups := [] |}.

(** An authorizer that grants one verb on one signer to one user. *)
Definition grants (userName verb signerName : string) : admission.Authorizer :=
  fun info v resource resourceName =>
    String.eqb (admission.GetName info) userName && String.eqb v verb
    && String.eqb resource "signers" && String.eqb resourceName signerName.

Definition bundle (name signerName trustBundle : string) : ClusterTrustBundle :=
  {| ctbObjectMeta := {| Name := name; Namespace := ""; Generation := 0; Annotations := ∅ |};
     ctbSpec := {| ctbSignerName := signerName; TrustBundle := trustBundle |} |}.

Definition createBundle (userName : string) (b : ClusterTrustBundle) : admission.Attributes :=
  {| admission.GetResource := entrusting.clusterTrustBundleGroupResource;
     admission.GetSubresource := "";
     admission.GetOperation := admission.Create;
     admission.GetObject := admission.ClusterTrustBundleObject b;
     admission.GetOldObject := admission.OtherObject;
     admission.GetUserInfo := user userName |}.

(** The pod cache of scenario E1: pod [n1/p1] with UID [u1], service
    account [sa1], on node [node-a]. *)
Definition podCache (namespace name : string) : wcrestriction.PodGetResult :=
  if String.eqb namespace "n1" && String.eqb name "p1"
  then wcrestriction.PodFound
         {| corev1.UID := "u1"; corev1.ServiceAccountName := "sa1";
            corev1.NodeName := "node-a" |}
  else wcrestriction.PodNotFound.

Definition restriction (authz : admission.Authorizer) : wcrestriction.Plugin :=
  {| wcrestriction.authz := authz; wcrestriction.enabled := true;
     wcrestriction.podLister := podCache |}.

Definition updateRequest (userName subresource : string) (wc : WorkloadCertificate)
    : admission.Attributes :=
  {| admission.GetResource := wcrestriction.workloadCertificateGroupResource;
     admission.GetSubresource := subresource;
     admission.GetOperation := admission.Update;
     admission.GetObject := admission.WorkloadCertificateObject wc;
     admission.GetOldObject := admission.WorkloadCertificateObject wc;
     admission.GetUserInfo := user userName |}.

(** A kubelet environment: the cache holds [cached], and nothing else, at
    every read, the clock shows [now], the key generator yields the key
    ["k2"], every write succeeds and the context is never cancelled. *)
Definition kubeletEnv (cached : WorkloadCertificate) (now : time.Time)
    : kubeletworkloadcertificate.Env :=
  {| kubeletworkloadcertificate.crypto :=
       {| kubeletworkloadcertificate.ecdsaPrivateKey := string;
          kubeletworkloadcertificate.GenerateKey := Ok "k2";
          kubeletworkloadcertificate.MarshalPKCS8PrivateKey := fun k => Ok ("pkcs8:" +:+ k);
          kubeletworkloadcertificate.MarshalPKIXPublicKey := fun k => Ok ("pkix:" +:+ k);
          kubeletworkloadcertificate.pemEncodeToMemory := fun type bytes =>
            pem.EncodeToMemory {| pem.Type_ := type; pem.Headers := ∅; pem.Bytes := bytes |};
          kubeletworkloadcertificate.Sum512_256 := fun data => "sum:" +:+ data;
          kubeletworkloadcertificate.EncodeToString := base64.EncodeToString |};
     kubeletworkloadcertificate.wcLister := fun _ namespace name =>
       if String.eqb namespace (Namespace (ObjectMeta_ cached))
          && String.eqb name (Name (ObjectMeta_ cached))
       then Found cached else NotFound;
     kubeletworkloadcertificate.clockNow := now;
     kubeletworkloadcertificate.Create := fun _ => None;
     kubeletworkloadcertificate.Update := fun _ => None;
     kubeletworkloadcertificate.ctxDone := fun _ => false |}.

(** Lines of text, each closed by a line feed. *)
Definition unlines (lines : list string) : string :=
  String.concat "" ((fun l => l +:+ String strings.nl "") <$> lines).

(** Three PEM texts. [anchorsCBA]: the certificates with DER bytes ["c"],
    ["b"] and again ["c"], the last one under a header, with text between
    the blocks. [anchorsA]: the certificate ["a"] and a second copy of
    ["b"]. [notACertificate]: a block of another type, from the tests of
    the strategy. *)
Definition anchorsCBA : string :=
  unlines ["-----BEGIN CERTIFICATE-----"; "Yw=="; "-----END CERTIFICATE-----";
           "some text";
           "-----BEGIN CERTIFICATE-----"; "Yg=="; "-----END CERTIFICATE-----";
           "-----BEGIN CERTIFICATE-----"; "bogus: header"; ""; "Yw==";
           "-----END CERTIFICATE-----"].

Definition anchorsA : string :=
  unlines ["-----BEGIN CERTIFICATE-----"; "YQ=="; "-----END CERTIFICATE-----";
           "-----BEGIN CERTIFICATE-----"; "Yg=="; "-----END CERTIFICATE-----"].

Definition notACertificate : string :=
  unlines ["-----BEGIN NOTACERTIFICATE-----"; "YWJjCg=="; "-----END NOTACERTIFICATE-----"].

(** A trust-bundle cache whose lister returns all its bundles for every
    selector. *)
Definition bundleCache (synced : bool) (bundles : list ClusterTrustBundle)
    : kubeletclustertrustbundle.Env :=
  {| kubeletclustertrustbundle.LabelSelector := unit;
     kubeletclustertrustbundle.Selector := unit;
     kubeletclustertrustbundle.HasSynced := synced;
     kubeletclustertrustbundle.Get := fun name =>
       match List.find (fun b => String.eqb (Name (ctbObjectMeta b)) name) bundles with
       | Some b => Ok b
       | None => Err "not found"
       end;
     kubeletclustertrustbundle.LabelSelectorAsSelector := fun ls => Ok ls;
     kubeletclustertrustbundle.List := fun _ => Ok bundles |}.

(** A cache before its first sync, for which no label selector converts
    and nothing can be got or listed. *)
Definition unsyncedFailingCache : kubeletclustertrustbundle.Env :=
  {| kubeletclustertrustbundle.LabelSelector := unit;
     kubeletclustertrustbundle.Selector := unit;
     kubeletclustertrustbundle.HasSynced := false;
     kubeletclustertrustbundle.Get := fun _ => Err "not found";
     kubeletclustertrustbundle.LabelSelectorAsSelector := fun _ => Err "bad selector";
     kubeletclustertrustbundle.List := fun _ => Err "no list" |}.

(** [signerEnv] with another CA parser and another signing routine. *)
Definition signerEnvWith (parseCerts : string -> Result (list string))
    (createCertificate : x509.Certificate -> string -> string -> string -> Result string)
    (cached : WorkloadCertificate) (now : time.Time) : workloadcertificatesigner.Env :=
  let env := signerEnv cached now in
  {| workloadcertificatesigner.caCertificate := string;
     workloadcertificatesigner.privateKey := string;
     workloadcertificatesigner.publicKey := string;
     workloadcertificatesigner.SplitMetaNamespaceKey :=
       workloadcertificatesigner.SplitMetaNamespaceKey env;
     workloadcertificatesigner.wcLister := workloadcertificatesigner.wcLister env;
     workloadcertificatesigner.kubeAPIServerClientKeyPair :=
       workloadcertificatesigner.kubeAPIServerClientKeyPair env;
     workloadcertificatesigner.defaultWorkloadCertificateKeyPair :=
       workloadcertificatesigner.defaultWorkloadCertificateKeyPair env;
     workloadcertificatesigner.ParseCertsPEM := parseCerts;
     workloadcertificatesigner.ParsePrivateKeyPEM :=
       workloadcertificatesigner.ParsePrivateKeyPEM env;
     workloadcertificatesigner.ParsePublicKeysPEM :=
       workloadcertificatesigner.ParsePublicKeysPEM env;
     workloadcertificatesigner.randInt := workloadcertificatesigner.randInt env;
     workloadcertificatesigner.CreateCertificate := createCertificate;
     workloadcertificatesigner.encodeCertificatePEM :=
       workloadcertificatesigner.encodeCertificatePEM env;
     workloadcertificatesigner.Now := now;
     workloadcertificatesigner.UpdateStatus := workloadcertificatesigner.UpdateStatus env |}.

(** A signer that refuses every template. *)
Definition refusingSignerEnv : WorkloadCertificate -> time.Time -> workloadcertificatesigner.Env :=
  signerEnvWith (fun pemText => Ok [pemText])
    (fun _ _ _ _ => Err "x509: unsupported public key type").

(** A CA file that holds two certificates. *)
Definition twoCertificateCAEnv : WorkloadCertificate -> time.Time -> workloadcertificatesigner.Env :=
  signerEnvWith (fun pemText => Ok [pemText; pemText])
    (fun tmpl _ _ _ => Ok (x509.SubjectCommonName tmpl)).
(** The issued request of pod [a-b] for its volume [c]. *)
Definition sharedRequest : WorkloadCertificate :=
  {| ObjectMeta_ := {| Name := "kubelet-a-b-c-0"; Namespace := "n1";
                       Generation := 1; Annotations := ∅ |};
     Spec := {| SignerName := DefaultWorkloadCertificateSignerName; ServiceAccount := "sa1";
                Pod := "a-b"; PodUID := "u1"; Node := "node-a";
                Requester := "system:node:node-a"; PublicKey := "PK" |};
     Status := issuedStatus "CERT" (18 * time.Hour) |}.
(** A kubelet environment whose cache changes: the first [reads] reads of
    a call see [before], the later ones [after]. *)
Definition changingKubeletEnv (reads : nat) (before after : WorkloadCertificate)
    (now : time.Time) : kubeletworkloadcertificate.Env :=
  let env := kubeletEnv before now in
  {| kubeletworkloadcertificate.crypto := kubeletworkloadcertificate.crypto env;
     kubeletworkloadcertificate.wcLister := fun k namespace name =>
       if (k <? reads)%nat
       then kubeletworkloadcertificate.wcLister env k namespace name
       else kubeletworkloadcertificate.wcLister (kubeletEnv after now) k namespace name;
     kubeletworkloadcertificate.clockNow := now;
     kubeletworkloadcertificate.Create := kubeletworkloadcertificate.Create env;
     kubeletworkloadcertificate.Update := kubeletworkloadcertificate.Update env;
     kubeletworkloadcertificate.ctxDone := kubeletworkloadcertificate.ctxDone env |}.
End samples.

(** * Properties *)

(** ** The signing controller *)

Section SigningController.
Import metav1 certs workloadcertificatesigner statements samples.

Lemma clearFailedAndPending_drops (type : string) conds :
  type = WorkloadCertificateFailed \/ type = WorkloadCertificatePending ->
  List.filter (fun c => String.eqb (Type_ c) type) (clearFailedAndPending conds) = [].
Proof.
  intros Htype. induction conds as [|cond rest IH]; simpl; [reflexivity|].
  destruct (String.eqb_spec (Type_ cond) WorkloadCertificateFailed) as [HF|HF];
    [exact IH|].
  destruct (String.eqb_spec (Type_ cond) WorkloadCertificatePending) as [HP|HP];
    [exact IH|].
  simpl. destruct (String.eqb_spec (Type_ cond) type) as [Heq|_]; [|exact IH].
  destruct Htype; congruence.
Qed.

Lemma clearFailedAndPending_keeps cond conds :
  Type_ cond <> WorkloadCertificateFailed ->
  Type_ cond <> WorkloadCertificatePending ->
  In cond conds -> In cond (clearFailedAndPending conds).
Proof.
  intros HF HP. induction conds as [|c rest IH]; simpl; [tauto|].
  intros [->|Hin].
  - destruct (String.eqb_spec (Type_ cond) WorkloadCertificateFailed); [contradiction|].
    destruct (String.eqb_spec (Type_ cond) WorkloadCertificatePending); [contradiction|].
    now left.
  - destruct (String.eqb (Type_ c) WorkloadCertificateFailed); [auto|].
    destruct (String.eqb (Type_ c) WorkloadCertificatePending); [auto|].
    right; auto.
Qed.

Lemma markFailed_counts wc reason message :
  countConditions WorkloadCertificatePending (markFailed wc reason message) = 0%nat
  /\ countConditions WorkloadCertificateFailed (markFailed wc reason message) = 1%nat.
Proof.
  unfold countConditions, markFailed; simpl.
  rewrite !List.filter_app, !clearFailedAndPending_drops by auto.
  split; reflexivity.
Qed.

Lemma markIssued_counts wc issuedPEM notBefore notAfter beginRefreshAt :
  countConditions WorkloadCertificatePending
    (markIssued wc issuedPEM notBefore notAfter beginRefreshAt) = 0%nat
  /\ countConditions WorkloadCertificateFailed
       (markIssued wc issuedPEM notBefore notAfter beginRefreshAt) = 0%nat.
Proof.
  unfold countConditions, markIssued; simpl.
  rewrite !clearFailedAndPending_drops by auto.
  split; reflexivity.
Qed.

(** Whatever [issue] hands to the API is an object built by
    [markFailed] or by [markIssued]. *)
Lemma issue_submits env keyPair template wc wc' :
  In wc' (submitted (issue env keyPair template wc)) ->
  (exists reason message, wc' = markFailed wc reason message)
  \/ (exists issuedPEM notBefore notAfter beginRefreshAt,
        wc' = markIssued wc issuedPEM notBefore notAfter beginRefreshAt).
Proof.
  unfold issue. destruct keyPair as [certPEM keyPEM].
  destruct (ParseCertsPEM env certPEM) as [[|caCert [|? ?]]|]; simpl; try tauto.
  destruct (ParsePrivateKeyPEM env keyPEM) as [caPrivKey|]; simpl; try tauto.
  destruct (ParsePublicKeysPEM env (PublicKey (Spec wc))) as [pubKeyObjs [perr|]].
  - simpl. intros [<-|[]]. left; eauto.
  - destruct pubKeyObjs as [|requestPubKey [|? ?]].
    + simpl. intros [<-|[]]. left; eauto.
    + destruct (template env wc _ _) as [tmpl|]; simpl; try tauto.
      destruct (CreateCertificate env tmpl caCert requestPubKey caPrivKey); simpl.
      * intros [<-|[]]. right; eauto 6.
      * intros [<-|[]]. left; eauto.
    + simpl. intros [<-|[]]. left; eauto.
Qed.

Lemma handleWorkloadCertificate_submits env key wc' :
  In wc' (submitted (handleWorkloadCertificate env key)) ->
  exists wc,
    (exists reason message, wc' = markFailed wc reason message)
    \/ (exists issuedPEM notBefore notAfter beginRefreshAt,
          wc' = markIssued wc issuedPEM notBefore notAfter beginRefreshAt).
Proof.
  unfold handleWorkloadCertificate.
  destruct (SplitMetaNamespaceKey env key) as [[namespace name]|]; simpl; try tauto.
  destruct (wcLister env namespace name) as [wc| |]; simpl; try tauto.
  destruct (_ && _); simpl; try tauto.
  destruct (String.eqb _ KubeAPIServerClientSignerName); simpl.
  { intros H. exists wc. eapply issue_submits, H. }
  destruct (String.eqb _ DefaultWorkloadCertificateSignerName); simpl; try tauto.
  intros H. exists wc. eapply issue_submits, H.
Qed.

(** C10. Every object the signing controller writes to the status
    subresource, whether through [setWCFailed] or through [setWCIssued],
    carries no condition of type Pending and at most one of type Failed:
    exactly one after [setWCFailed], none after [setWCIssued]. The same
    holds of every write of a whole reconcile. *)
Theorem status_writes_clear_conditions
    env wc reason message issuedPEM notBefore notAfter beginRefreshAt key :
  (exists wc', submitted (setWCFailed env wc reason message) = [wc']
     /\ countConditions WorkloadCertificatePending wc' = 0%nat
     /\ countConditions WorkloadCertificateFailed wc' = 1%nat)
  /\ (exists wc',
        submitted (setWCIssued env wc issuedPEM notBefore notAfter beginRefreshAt) = [wc']
        /\ countConditions WorkloadCertificatePending wc' = 0%nat
        /\ countConditions WorkloadCertificateFailed wc' = 0%nat)
  /\ Forall (fun wc' =>
               countConditions WorkloadCertificatePending wc' = 0%nat
               /\ (countConditions WorkloadCertificateFailed wc' <= 1)%nat)
            (submitted (handleWorkloadCertificate env key)).
Proof.
  split; [|split].
  - eexists; split; [reflexivity|]. apply markFailed_counts.
  - eexists; split; [reflexivity|]. apply markIssued_counts.
  - apply List.Forall_forall. intros wc' Hin.
    apply handleWorkloadCertificate_submits in Hin
      as [wc0 [(r & m & ->)|(p & nb & na & br & ->)]].
    + destruct (markFailed_counts wc0 r m) as [-> ->]. lia.
    + destruct (markIssued_counts wc0 p nb na br) as [-> ->]. lia.
Qed.

(** A reconcile that meets stale conditions does submit an object, and
    conditions of other types survive. *)
Example reconcile_clears_stale_conditions :
  let wc := request DefaultWorkloadCertificateSignerName "system:node:node-a" "K"
              ∅ pendingStatus in
  exists wc',
    submitted (handleWorkloadCertificate (signerEnv wc 1000000000000000) "n1/kubelet-p1-v1-0")
    = [wc']
    /\ (Type_ <$> Conditions (Status wc')) = ["Other"]
    /\ Certificate (Status wc') <> "".
Proof. vm_compute. eexists. split; [reflexivity|]. split; [reflexivity|discriminate]. Qed.
End SigningController.

Section CertificateTemplate.
Import metav1 certs workloadcertificatesigner statements samples.

(** The template of the default workload-certificate signer has every
    field the specification lists. *)
Lemma defaultWorkloadCertificateTemplate_fields env wc notBefore notAfter tmpl :
  defaultWorkloadCertificateTemplate env wc notBefore notAfter = Ok tmpl ->
  x509.SubjectCommonName tmpl
    = "system:serviceaccount:" +:+ Namespace (ObjectMeta_ wc) +:+ ":"
      +:+ ServiceAccount (Spec wc)
  /\ x509.NotBefore tmpl = notBefore
  /\ x509.NotAfter tmpl = notAfter
  /\ x509.KeyUsage tmpl = 28
  /\ x509.ExtKeyUsage_ tmpl = [x509.ExtKeyUsageClientAuth; x509.ExtKeyUsageServerAuth]
  /\ x509.BasicConstraintsValid tmpl = true.
Proof.
  unfold defaultWorkloadCertificateTemplate.
  destruct (randInt env serialNumberLimit); [|discriminate].
  intros [= <-]. simpl. repeat split; reflexivity.
Qed.

(** The template of the API-server client signer has the same subject and
    usages, and a zero validity window whatever the arguments. *)
Lemma apiserverClientCertificateTemplate_fields env wc notBefore notAfter tmpl :
  apiserverClientCertificateTemplate env wc notBefore notAfter = Ok tmpl ->
  x509.SubjectCommonName tmpl
    = "system:serviceaccount:" +:+ Namespace (ObjectMeta_ wc) +:+ ":"
      +:+ ServiceAccount (Spec wc)
  /\ x509.NotBefore tmpl = time.zero
  /\ x509.NotAfter tmpl = time.zero
  /\ x509.KeyUsage tmpl = 28
  /\ x509.ExtKeyUsage_ tmpl = [x509.ExtKeyUsageClientAuth; x509.ExtKeyUsageServerAuth]
  /\ x509.BasicConstraintsValid tmpl = true.
Proof.
  unfold apiserverClientCertificateTemplate.
  destruct (randInt env serialNumberLimit); [|discriminate].
  intros [= <-]. simpl. repeat split; reflexivity.
Qed.

(** C4, at the input where the code departs from it. A request addressed
    to kubernetes.io/kube-apiserver-client, reconciled one hour after the
    zero time: the controller computes notBefore = now - 5 min and
    notAfter = notBefore + 24 h, and the template it builds carries
    neither; both fields are the zero time. *)
Theorem apiserver_client_template_validity_unset :
  let wc := request KubeAPIServerClientSignerName "system:node:node-a" "K" ∅ pendingStatus in
  let env := signerEnv wc time.Hour in
  let notBefore := time.Add (Now env) (-5 * time.Minute) in
  let notAfter := time.Add notBefore (24 * time.Hour) in
  exists tmpl,
    apiserverClientCertificateTemplate env wc notBefore notAfter = Ok tmpl
    /\ x509.SubjectCommonName tmpl = "system:serviceaccount:n1:sa1"
    /\ x509.NotBefore tmpl = time.zero
    /\ x509.NotAfter tmpl = time.zero
    /\ x509.NotBefore tmpl <> notBefore
    /\ x509.NotAfter tmpl <> time.Add (x509.NotBefore tmpl) (24 * time.Hour).
Proof.
  simpl. eexists. split; [reflexivity|]. simpl.
  repeat split; try reflexivity; vm_compute; discriminate.
Qed.

(** The sibling signer, on the same request and clock, sets both. *)
Example default_template_validity_set :
  let wc := request DefaultWorkloadCertificateSignerName "system:node:node-a" "K" ∅
              pendingStatus in
  let env := signerEnv wc time.Hour in
  let notBefore := time.Add (Now env) (-5 * time.Minute) in
  let notAfter := time.Add notBefore (24 * time.Hour) in
  exists tmpl,
    defaultWorkloadCertificateTemplate env wc notBefore notAfter = Ok tmpl
    /\ x509.NotBefore tmpl = time.Hour - 5 * time.Minute
    /\ x509.NotAfter tmpl = x509.NotBefore tmpl + 24 * time.Hour.
Proof. simpl. eexists. split; [reflexivity|]. split; reflexivity. Qed.
End CertificateTemplate.

Section BadPublicKey.
Import metav1 certs workloadcertificatesigner statements samples.

Lemma caKeyPair_issue env wc :
  builtinSigner (SignerName (Spec wc)) ->
  (if String.eqb (SignerName (Spec wc)) KubeAPIServerClientSignerName
   then wrapOutcome ("while issuing certificate for " +:+ KubeAPIServerClientSignerName)
          (issueKubeAPIServerClientCert env wc)
   else if String.eqb (SignerName (Spec wc)) DefaultWorkloadCertificateSignerName
   then wrapOutcome ("while issuing certificate for " +:+ DefaultWorkloadCertificateSignerName)
          (issueDefaultWorkloadCertificate env wc)
   else succeed)
  = wrapOutcome ("while issuing certificate for " +:+ SignerName (Spec wc))
      (issue env (caKeyPair env (SignerName (Spec wc)))
         (if String.eqb (SignerName (Spec wc)) KubeAPIServerClientSignerName
          then apiserverClientCertificateTemplate
          else defaultWorkloadCertificateTemplate) wc).
Proof.
  intros [H|H]; unfold caKeyPair; rewrite H; reflexivity.
Qed.

Lemma issue_bad_public_key env keyPair template wc caCert caPrivKey :
  ParseCertsPEM env (fst keyPair) = Ok [caCert] ->
  ParsePrivateKeyPEM env (snd keyPair) = Ok caPrivKey ->
  snd (ParsePublicKeysPEM env (PublicKey (Spec wc))) <> None
  \/ length (fst (ParsePublicKeysPEM env (PublicKey (Spec wc)))) <> 1%nat ->
  issue env keyPair template wc
  = wrapOutcome "while marking WorkloadCertificate failed"
      (setWCFailed env wc "BadPublicKey"
         (badPublicKeyMessage
            (length (fst (ParsePublicKeysPEM env (PublicKey (Spec wc))))))).
Proof.
  intros Hca Hkey Hbad. unfold issue. destruct keyPair as [certPEM keyPEM].
  simpl in Hca, Hkey. rewrite Hca, Hkey.
  destruct (ParsePublicKeysPEM env (PublicKey (Spec wc))) as [pubKeyObjs [perr|]];
    simpl in *; [reflexivity|].
  destruct Hbad as [Hbad|Hbad]; [congruence|].
  destruct pubKeyObjs as [|? [|? ?]]; simpl in *; congruence.
Qed.

(** C5. A reconcile reaches the parsing of the public key when the request
    is in the cache, is not issued at its current generation, names a
    built-in signer, and the CA material of that signer loads with exactly
    one certificate. If then [spec.publicKey] does not parse, or holds a
    number of keys other than one, the controller submits one status
    write: the request with a condition Failed, status True, reason
    BadPublicKey, observed generation the current generation, the only
    Failed condition; certificate, spec and metadata are as they were.
    When the store takes the write, the reconcile returns nil, so that the
    key is not queued again. *)
Theorem bad_public_key_is_terminal env key namespace name wc caCert caPrivKey :
  SplitMetaNamespaceKey env key = Ok (namespace, name) ->
  wcLister env namespace name = Found wc ->
  Certificate (Status wc) = ""
  \/ CertificateObservedGeneration (Status wc) <> Generation (ObjectMeta_ wc) ->
  builtinSigner (SignerName (Spec wc)) ->
  ParseCertsPEM env (fst (caKeyPair env (SignerName (Spec wc)))) = Ok [caCert] ->
  ParsePrivateKeyPEM env (snd (caKeyPair env (SignerName (Spec wc)))) = Ok caPrivKey ->
  snd (ParsePublicKeysPEM env (PublicKey (Spec wc))) <> None
  \/ length (fst (ParsePublicKeysPEM env (PublicKey (Spec wc)))) <> 1%nat ->
  forall wc',
    wc' = markFailed wc "BadPublicKey"
            (badPublicKeyMessage
               (length (fst (ParsePublicKeysPEM env (PublicKey (Spec wc)))))) ->
    UpdateStatus env wc' = None ->
    handleWorkloadCertificate env key = {| submitted := [wc']; ret := None |}
    /\ (exists cond,
          last (Conditions (Status wc')) = Some cond
          /\ Type_ cond = WorkloadCertificateFailed
          /\ Status_ cond = ConditionTrue
          /\ Reason cond = "BadPublicKey"
          /\ ObservedGeneration cond = Generation (ObjectMeta_ wc))
    /\ countConditions WorkloadCertificateFailed wc' = 1%nat
    /\ Certificate (Status wc') = Certificate (Status wc)
    /\ CertificateObservedGeneration (Status wc')
       = CertificateObservedGeneration (Status wc)
    /\ Spec wc' = Spec wc
    /\ ObjectMeta_ wc' = ObjectMeta_ wc.
Proof.
  intros Hkey Hget Hnew Hsigner Hca Hpriv Hbad wc' -> Hwrite.
  split; [|split; [|split; [|repeat split]]].
  - unfold handleWorkloadCertificate. rewrite Hkey, Hget.
    assert (negb (String.eqb (Certificate (Status wc)) "")
            && (CertificateObservedGeneration (Status wc) =? Generation (ObjectMeta_ wc))
            = false) as ->.
    { destruct Hnew as [->|Hne]; [reflexivity|].
      apply Z.eqb_neq in Hne. rewrite Hne. apply andb_false_r. }
    rewrite (caKeyPair_issue env wc Hsigner).
    rewrite (issue_bad_public_key _ _ _ _ _ _ Hca Hpriv Hbad).
    unfold setWCFailed, wrapOutcome. simpl. rewrite Hwrite. reflexivity.
  - eexists. split.
    + unfold markFailed. simpl. apply last_snoc.
    + simpl. repeat split; reflexivity.
  - apply markFailed_counts.
Qed.

(** Two public-key blocks, as in scenario E4. *)
Lemma bad_public_key_is_terminal_witness :
  let wc := request DefaultWorkloadCertificateSignerName "system:node:node-a" "K K" ∅
              pendingStatus in
  let env := signerEnv wc time.Hour in
  let wc' := markFailed wc "BadPublicKey" "Public key contained 2 keys, wanted 1" in
  handleWorkloadCertificate env "n1/kubelet-p1-v1-0" = {| submitted := [wc']; ret := None |}
  /\ (exists cond,
        last (Conditions (Status wc')) = Some cond
        /\ Type_ cond = WorkloadCertificateFailed
        /\ Status_ cond = ConditionTrue
        /\ Reason cond = "BadPublicKey"
        /\ ObservedGeneration cond = 1)
  /\ countConditions WorkloadCertificateFailed wc' = 1%nat
  /\ Certificate (Status wc') = ""
  /\ CertificateObservedGeneration (Status wc') = 0
  /\ Spec wc' = Spec wc
  /\ ObjectMeta_ wc' = ObjectMeta_ wc.
Proof.
  intros wc env wc'.
  apply (bad_public_key_is_terminal env "n1/kubelet-p1-v1-0" "n1" "kubelet-p1-v1-0" wc
           "wc-ca" "wc-ca-key").
  - reflexivity.
  - reflexivity.
  - left; reflexivity.
  - right; reflexivity.
  - reflexivity.
  - reflexivity.
  - right. vm_compute. discriminate.
  - reflexivity.
  - reflexivity.
Defined.

(** When the store refuses the write, the reconcile fails instead and the
    work queue brings the key back. *)
Lemma bad_public_key_write_refused env key namespace name wc caCert caPrivKey e :
  SplitMetaNamespaceKey env key = Ok (namespace, name) ->
  wcLister env namespace name = Found wc ->
  Certificate (Status wc) = ""
  \/ CertificateObservedGeneration (Status wc) <> Generation (ObjectMeta_ wc) ->
  builtinSigner (SignerName (Spec wc)) ->
  ParseCertsPEM env (fst (caKeyPair env (SignerName (Spec wc)))) = Ok [caCert] ->
  ParsePrivateKeyPEM env (snd (caKeyPair env (SignerName (Spec wc)))) = Ok caPrivKey ->
  snd (ParsePublicKeysPEM env (PublicKey (Spec wc))) <> None
  \/ length (fst (ParsePublicKeysPEM env (PublicKey (Spec wc)))) <> 1%nat ->
  UpdateStatus env
    (markFailed wc "BadPublicKey"
       (badPublicKeyMessage (length (fst (ParsePublicKeysPEM env (PublicKey (Spec wc)))))))
  = Some e ->
  exists e', ret (handleWorkloadCertificate env key) = Some e'.
Proof.
  intros Hkey Hget Hnew Hsigner Hca Hpriv Hbad Hwrite.
  unfold handleWorkloadCertificate. rewrite Hkey, Hget.
  assert (negb (String.eqb (Certificate (Status wc)) "")
          && (CertificateObservedGeneration (Status wc) =? Generation (ObjectMeta_ wc))
          = false) as ->.
  { destruct Hnew as [->|Hne]; [reflexivity|].
    apply Z.eqb_neq in Hne. rewrite Hne. apply andb_false_r. }
  rewrite (caKeyPair_issue env wc Hsigner).
  rewrite (issue_bad_public_key _ _ _ _ _ _ Hca Hpriv Hbad).
  unfold setWCFailed, wrapOutcome. simpl. rewrite Hwrite. simpl. eauto.
Qed.
End BadPublicKey.

(** ** The registry strategy of the status subresource *)

Section StatusStrategy.
Import metav1 certs workloadcertificate samples.

Lemma statusStrategy_PrepareForUpdate_spec v new old :
  Spec (PrepareForUpdate (StatusStrategy v) new old) = Spec old
  /\ Status (PrepareForUpdate (StatusStrategy v) new old) = Status new.
Proof. split; reflexivity. Qed.

(** C9. An update through the status subresource that the store accepts
    stores an object whose spec is the spec of the existing object,
    whatever spec the request carried; the status is the one sent. *)
Theorem status_update_keeps_spec v existing obj stored :
  StatusREST_Update v existing obj = inr stored ->
  Spec stored = Spec existing /\ Status stored = Status obj.
Proof.
  unfold StatusREST_Update, BeforeUpdate.
  destruct (ValidateUpdate (StatusStrategy v) _ _); [|discriminate].
  intros [= <-]. split; reflexivity.
Qed.

(** A status write that also carries another requester and public key. *)
Lemma status_update_keeps_spec_witness :
  let existing := request DefaultWorkloadCertificateSignerName "system:node:node-a" "K"
                    ∅ pendingStatus in
  let obj := request DefaultWorkloadCertificateSignerName "mallory" "K2"
               ∅ (issuedStatus "CERT" time.zero) in
  let stored := withSpec obj (Spec existing) in
  StatusREST_Update noWorkloadCertificateValidation existing obj = inr stored
  /\ Spec stored = Spec existing /\ Status stored = Status obj.
Proof.
  intros existing obj stored. split; [reflexivity|].
  apply (status_update_keeps_spec noWorkloadCertificateValidation existing obj stored).
  reflexivity.
Defined.

(** Through the main resource the spec sent is the spec stored. *)
Example main_update_takes_spec :
  let existing := request DefaultWorkloadCertificateSignerName "system:node:node-a" "K"
                    ∅ pendingStatus in
  let obj := request DefaultWorkloadCertificateSignerName "system:node:node-a" "K2"
               ∅ pendingStatus in
  REST_Update noWorkloadCertificateValidation existing obj = inr obj.
Proof. reflexivity. Qed.
End StatusStrategy.

(** ** Admission *)

Section Strings.
Import strings.

Lemma app_cons (c : ascii) (s t : string) : String c s +:+ t = String c (s +:+ t).
Proof. reflexivity. Qed.

Lemma app_nil_l (s : string) : "" +:+ s = s.
Proof. reflexivity. Qed.

Lemma app_nil_r (s : string) : s +:+ "" = s.
Proof. induction s as [|c s IH]; [reflexivity|]. rewrite app_cons, IH. reflexivity. Qed.

Lemma app_assoc (s t u : string) : (s +:+ t) +:+ u = s +:+ (t +:+ u).
Proof. induction s as [|c s IH]; [reflexivity|]. rewrite !app_cons, IH. reflexivity. Qed.

Lemma length_app (s t : string) :
  String.length (s +:+ t) = (String.length s + String.length t)%nat.
Proof. induction s as [|c s IH]; [reflexivity|]. rewrite app_cons. simpl. rewrite IH. reflexivity. Qed.

Lemma prefix_app (p s : string) : String.prefix p (p +:+ s) = true.
Proof.
  induction p as [|c p IH]; [destruct s; reflexivity|].
  rewrite app_cons. simpl. destruct (ascii_dec c c); [exact IH|contradiction].
Qed.

Lemma prefix_inv (p s : string) :
  String.prefix p s = true -> s = p +:+ drop (String.length p) s.
Proof.
  revert s. induction p as [|c p IH]; intros s; [reflexivity|].
  destruct s as [|d s]; [discriminate|]. simpl.
  destruct (ascii_dec c d) as [->|]; [|discriminate].
  intros H. rewrite app_cons. f_equal. apply IH, H.
Qed.

Lemma drop_app (p s : string) : drop (String.length p) (p +:+ s) = s.
Proof. induction p as [|c p IH]; [reflexivity|]. rewrite app_cons. exact IH. Qed.

(** [TrimPrefix] answers [n] for two kinds of strings: the prefix followed
    by [n], and [n] itself when it does not start with the prefix. *)
Lemma TrimPrefix_spec (s prefix n : string) :
  TrimPrefix s prefix = n <->
  s = prefix +:+ n \/ (HasPrefix s prefix = false /\ s = n).
Proof.
  unfold TrimPrefix, HasPrefix. split.
  - destruct (String.prefix prefix s) eqn:Hp.
    + intros <-. left. apply prefix_inv, Hp.
    + intros <-. right. split; reflexivity.
  - intros [->|[Hp ->]].
    + rewrite prefix_app. apply drop_app.
    + rewrite Hp. reflexivity.
Qed.
End Strings.

Section WorkloadCertificateRestriction.
Import metav1 certs admission wcrestriction samples.

(** What an accepted call tells about the requester: it is the node
    identity of [spec.node], or it is spelled exactly like [spec.node]. *)
Lemma Validate_allowed_requester p a newWC :
  enabled p = true ->
  GetResource a = workloadCertificateGroupResource ->
  GetObject a = WorkloadCertificateObject newWC ->
  Validate p a = Allowed ->
  Requester (Spec newWC) = "system:node:" +:+ Node (Spec newWC)
  \/ Requester (Spec newWC) = Node (Spec newWC).
Proof.
  intros Hen Hres Hobj. unfold Validate. rewrite Hen, Hres, Hobj. simpl.
  destruct (_ && _); [discriminate|].
  destruct (_ && _); [discriminate|].
  destruct (podLister p _ _) as [pod| |]; try discriminate.
  destruct (negb (String.eqb (corev1.UID pod) _)); [discriminate|].
  destruct (negb (String.eqb (corev1.ServiceAccountName pod) _)); [discriminate|].
  destruct (negb (String.eqb (corev1.NodeName pod) _)); [discriminate|].
  destruct (String.eqb_spec
              (strings.TrimPrefix (Requester (Spec newWC)) "system:node:")
              (Node (Spec newWC))) as [Heq|]; [|discriminate].
  intros _. apply TrimPrefix_spec in Heq as [H|[_ H]]; [left|right]; exact H.
Qed.

(** C1, at the input where the code departs from it. The user [node-a],
    whose name is the name of the node without the prefix [system:node:],
    is the requester of a request for a pod on node [node-a]. The
    validator accepts the update of the main resource, and accepts the
    status update of a principal allowed to sign, although the requester
    is not [system:node:node-a]. *)
Theorem requester_spelled_like_node_is_accepted :
  let wc := request DefaultWorkloadCertificateSignerName "node-a" "K" ∅ pendingStatus in
  Validate (restriction (fun _ _ _ _ => false)) (updateRequest "node-a" "" wc) = Allowed
  /\ Validate (restriction (grants "signer" "sign" DefaultWorkloadCertificateSignerName))
       (updateRequest "signer" "status" wc) = Allowed
  /\ Requester (Spec wc) <> "system:node:" +:+ Node (Spec wc).
Proof. split; [reflexivity|]. split; [reflexivity|]. discriminate. Qed.

(** The node identity itself is accepted, and another node's is not. *)
Example node_identity_is_accepted :
  let wc := request DefaultWorkloadCertificateSignerName "system:node:node-a" "K" ∅
              pendingStatus in
  let wc' := request DefaultWorkloadCertificateSignerName "system:node:node-b" "K" ∅
               pendingStatus in
  Validate (restriction (fun _ _ _ _ => false)) (updateRequest "system:node:node-a" "" wc)
  = Allowed
  /\ Validate (restriction (fun _ _ _ _ => false))
       (updateRequest "system:node:node-b" "" wc')
     = Forbidden (Errorf "the requester %s is not related to node %s"
                    ["system:node:node-b"; "node-a"]).
Proof. split; reflexivity. Qed.

(** The mutator of scenario E1 fills in service account, node and
    requester. *)
Example mutator_binds_request :
  let wc := withSpec (request DefaultWorkloadCertificateSignerName "" "K" ∅ pendingStatus)
              {| SignerName := DefaultWorkloadCertificateSignerName; ServiceAccount := "";
                 Pod := "p1"; PodUID := "u1"; Node := ""; Requester := "";
                 PublicKey := "K" |} in
  Mutate (restriction (fun _ _ _ _ => false)) (updateRequest "system:node:node-a" "" wc)
  = (Allowed,
     WorkloadCertificateObject
       (request DefaultWorkloadCertificateSignerName "system:node:node-a" "K" ∅
          pendingStatus)).
Proof. reflexivity. Qed.
End WorkloadCertificateRestriction.

Section Entrusting.
Import metav1 certs admission entrusting samples.

(** On create, the stage passes exactly when the signer name is empty or
    the authorizer grants the verb [entrust] on the signer. *)
Lemma Validate_create p a newBundle :
  GetResource a = clusterTrustBundleGroupResource ->
  GetObject a = ClusterTrustBundleObject newBundle ->
  GetOperation a = Create ->
  Validate p a = Allowed <->
  ctbSignerName (ctbSpec newBundle) = ""
  \/ IsAuthorizedForSignerName (authz p) (GetUserInfo a) "entrust"
       (ctbSignerName (ctbSpec newBundle)) = true.
Proof.
  intros Hres Hobj Hop. unfold Validate. rewrite Hres, Hobj, Hop. simpl.
  destruct (String.eqb_spec (ctbSignerName (ctbSpec newBundle)) "") as [->|Hne].
  - split; auto.
  - destruct (IsAuthorizedForSignerName _ _ _ _); simpl.
    + split; auto.
    + split; [discriminate|]. intros [?|?]; [contradiction|discriminate].
Qed.

(** With an empty signer name and no change of signer, the authorizer is
    not consulted: the answer is the same for every authorizer. *)
Lemma Validate_empty_signer p a newBundle :
  GetObject a = ClusterTrustBundleObject newBundle ->
  ctbSignerName (ctbSpec newBundle) = "" ->
  GetOperation a <> Update ->
  Validate p a = Allowed.
Proof.
  intros Hobj Hsigner Hop. unfold Validate. rewrite Hobj.
  destruct (negb _); [reflexivity|].
  destruct (GetOperation a); try contradiction; simpl; rewrite Hsigner; reflexivity.
Qed.

(** C3, at the input where the code departs from it. Alice holds [entrust]
    on [signers/example.com/foo] and not [attest]: her create passes. Bob
    holds [attest] and not [entrust]: his create is forbidden. *)
Theorem entrusting_checks_verb_entrust :
  let b := bundle "example.com:foo:v1" "example.com/foo" "" in
  let alice := grants "alice" "entrust" "example.com/foo" in
  let bob := grants "bob" "attest" "example.com/foo" in
  Validate {| authz := alice |} (createBundle "alice" b) = Allowed
  /\ IsAuthorizedForSignerName alice (user "alice") "attest" "example.com/foo" = false
  /\ Validate {| authz := bob |} (createBundle "bob" b)
     = Forbidden (Errorf "user not permitted to entrust signerName %q" ["example.com/foo"])
  /\ IsAuthorizedForSignerName bob (user "bob") "attest" "example.com/foo" = true.
Proof. repeat split; reflexivity. Qed.

(** Scenario E2: an update that changes the signer is forbidden, even for
    a principal entrusted with both signers. *)
Example signer_change_is_forbidden :
  let a := {| GetResource := clusterTrustBundleGroupResource;
              GetSubresource := "";
              GetOperation := Update;
              GetObject := ClusterTrustBundleObject (bundle "a.b:d:x" "a.b/d" "");
              GetOldObject := ClusterTrustBundleObject (bundle "a.b:d:x" "a.b/c" "");
              GetUserInfo := user "root" |} in
  Validate {| authz := fun _ _ _ _ => true |} a
  = Forbidden (Errorf "changing signerName is forbidden" []).
Proof. reflexivity. Qed.
End Entrusting.

(** ** The kubelet's workload-certificate manager *)

Section WorkloadCertificateManager.
Import metav1 certs kubeletworkloadcertificate samples.

(** The key-file hash the caller passes has no bearing on what the
    manager does or returns. *)
Lemma GetWorkloadCertificate_ignores_keyFileHash
    env ticks signerName namespace podName podUID volumeName sourceIndex h1 h2 :
  GetWorkloadCertificate env ticks signerName namespace podName podUID volumeName
    sourceIndex h1
  = GetWorkloadCertificate env ticks signerName namespace podName podUID volumeName
      sourceIndex h2.
Proof. reflexivity. Qed.

(** C7, at the input where the code departs from it. The cache holds the
    issued request of pod [p1], annotated with the hash [h1] of the key it
    was made for and not yet due for refresh; the caller reports the hash
    [h2]. The manager generates no key, sends no update, and returns the
    certificate on file with an empty private key. *)
Theorem key_file_hash_mismatch_does_not_rekey :
  let wc := request DefaultWorkloadCertificateSignerName "system:node:node-a" "PK"
              {[ privateKeyFileHashAnnotation := "h1" ]}
              (issuedStatus "CERT" (18 * time.Hour)) in
  let env := kubeletEnv wc time.Hour in
  Annotations (ObjectMeta_ wc) !! privateKeyFileHashAnnotation = Some "h1"
  /\ forall ticks,
       GetWorkloadCertificate env ticks DefaultWorkloadCertificateSignerName
         "n1" "p1" "u1" "v1" 0 "h2"
       = {| calls := []; result := Some (Ok ("", "CERT")) |}.
Proof.
  split; [reflexivity|]. intros ticks. vm_compute. reflexivity.
Qed.

(** Scenario E5: once the refresh time is past, the same call re-keys. *)
Example refresh_rekeys :
  let wc := request DefaultWorkloadCertificateSignerName "system:node:node-a" "PK"
              {[ privateKeyFileHashAnnotation := "h1" ]}
              (issuedStatus "CERT" (18 * time.Hour)) in
  let env := kubeletEnv wc (19 * time.Hour) in
  exists newWC privKeyPEM,
    GetWorkloadCertificate env 0 DefaultWorkloadCertificateSignerName
      "n1" "p1" "u1" "v1" 0 "h1"
    = {| calls := [UpdateCall newWC]; result := Some (Ok (privKeyPEM, "CERT")) |}
    /\ privKeyPEM <> ""
    /\ PublicKey (Spec newWC) <> "PK"
    /\ Annotations (ObjectMeta_ newWC) !! privateKeyFileHashAnnotation <> Some "h1".
Proof.
  vm_compute. do 2 eexists. split; [reflexivity|].
  repeat split; discriminate.
Qed.
End WorkloadCertificateManager.

(** ** Base64 and PEM: encoding, then decoding *)

Section Base64.
Import strings base64.

Lemma decodeChar_encodeChar (s : sextet) : decodeChar (encodeChar s) = Some s.
Proof.
  destruct s as [[[[[[] []] []] []] []] []]; vm_compute; reflexivity.
Qed.

Lemma encodeChar_plain (s : sextet) :
  plain (encodeChar s) = true /\ Ascii.eqb (encodeChar s) StdPadding = false.
Proof.
  destruct s as [[[[[[] []] []] []] []] []]; vm_compute; split; reflexivity.
Qed.

Lemma EncodeToString_plain src : all plain (EncodeToString src) = true.
Proof.
  assert (H : forall n src, (String.length src <= n)%nat ->
              all plain (EncodeToString src) = true).
  { clear src. induction n as [|n IH]; intros src Hn.
    - destruct src; [reflexivity|simpl in Hn; lia].
    - destruct src as [|[x0 x1 x2 x3 x4 x5 x6 x7] [|[y0 y1 y2 y3 y4 y5 y6 y7]
                         [|[z0 z1 z2 z3 z4 z5 z6 z7] rest]]]; simpl.
      + reflexivity.
      + rewrite !(proj1 (encodeChar_plain _)). reflexivity.
      + rewrite !(proj1 (encodeChar_plain _)). reflexivity.
      + rewrite !(proj1 (encodeChar_plain _)). simpl.
        apply IH. simpl in Hn. lia. }
  apply (H (String.length src)). lia.
Qed.

Lemma decodeQuanta_EncodeToString src : decodeQuanta (EncodeToString src) = Some src.
Proof.
  assert (H : forall n src, (String.length src <= n)%nat ->
              decodeQuanta (EncodeToString src) = Some src).
  { clear src. induction n as [|n IH]; intros src Hn.
    - destruct src; [reflexivity|simpl in Hn; lia].
    - destruct src as [|[x0 x1 x2 x3 x4 x5 x6 x7] [|[y0 y1 y2 y3 y4 y5 y6 y7]
                         [|[z0 z1 z2 z3 z4 z5 z6 z7] rest]]].
      + reflexivity.
      + simpl. rewrite !decodeChar_encodeChar. reflexivity.
      + simpl. rewrite !decodeChar_encodeChar.
        rewrite (proj2 (encodeChar_plain _)). reflexivity.
      + simpl. rewrite !decodeChar_encodeChar.
        rewrite !(proj2 (encodeChar_plain _)).
        rewrite IH by (simpl in Hn; lia). reflexivity. }
  apply (H (String.length src)). lia.
Qed.

Lemma EncodeToString_nonempty c src : EncodeToString (String c src) <> "".
Proof.
  destruct c, src as [|[] [|[] ?]]; discriminate.
Qed.
End Base64.

Section PemLines.
Import strings base64 pem.

Lemma plain_inv c :
  plain c = true ->
  c <> nl /\ c <> cr /\ c <> " "%char /\ c <> tab /\ c <> ":"%char /\ c <> "-"%char.
Proof.
  unfold plain. rewrite !andb_true_iff, !negb_true_iff, !Ascii.eqb_neq. tauto.
Qed.

Lemma bodyChar_inv c :
  bodyChar c = true ->
  c <> cr /\ c <> " "%char /\ c <> tab /\ c <> ":"%char /\ c <> "-"%char.
Proof.
  unfold bodyChar. rewrite orb_true_iff. intros [H|H].
  - apply plain_inv in H. tauto.
  - apply Ascii.eqb_eq in H as ->. repeat split; discriminate.
Qed.

Lemma lineBreaker_cons used c s :
  lineBreaker used (String c s)
  = if (S used =? pemLineLength)%nat
    then String c (String nl (lineBreaker 0 s))
    else String c (lineBreaker (S used) s).
Proof. reflexivity. Qed.

Lemma stripNewlines_cons c s :
  stripNewlines (String c s)
  = if Ascii.eqb c nl || Ascii.eqb c cr then stripNewlines s
    else String c (stripNewlines s).
Proof. reflexivity. Qed.

Lemma stripNewlines_plain c s :
  plain c = true -> stripNewlines (String c s) = String c (stripNewlines s).
Proof.
  intros Hc. destruct (plain_inv c Hc) as (Hnl & Hcr & _).
  apply Ascii.eqb_neq in Hnl, Hcr. rewrite stripNewlines_cons, Hnl, Hcr. reflexivity.
Qed.

Lemma stripNewlines_lineBreaker used e :
  all plain e = true -> stripNewlines (lineBreaker used e) = e.
Proof.
  revert used. induction e as [|c e IH]; intros used He.
  - simpl. destruct (used =? 0)%nat; reflexivity.
  - simpl in He. apply andb_true_iff in He as [Hc He].
    rewrite lineBreaker_cons.
    destruct (S used =? pemLineLength)%nat; rewrite stripNewlines_plain by assumption.
    + rewrite stripNewlines_cons. simpl. rewrite IH by assumption. reflexivity.
    + rewrite IH by assumption. reflexivity.
Qed.

(** A body that is not empty: its lines, then one last line feed. *)
Lemma lineBreaker_body used c e :
  all plain (String c e) = true ->
  exists lines,
    lineBreaker used (String c e) = String c lines +:+ String nl ""
    /\ all bodyChar (String c lines) = true
    /\ stripNewlines (String c lines) = String c e.
Proof.
  revert used c. induction e as [|d e IH]; intros used c He.
  - exists "". simpl in He. rewrite andb_true_r in He.
    assert (Hb : bodyChar c = true) by (unfold bodyChar; rewrite He; reflexivity).
    rewrite lineBreaker_cons, stripNewlines_plain by assumption.
    simpl. rewrite Hb. destruct (used =? _)%nat; auto.
  - simpl in He. apply andb_true_iff in He as [Hc He].
    assert (Hb : bodyChar c = true) by (unfold bodyChar; rewrite Hc; reflexivity).
    rewrite lineBreaker_cons.
    destruct (S used =? pemLineLength)%nat.
    + destruct (IH 0%nat d He) as (lines & -> & Hall & Hstrip).
      exists (String nl (String d lines)). split; [reflexivity|]. split.
      * change (bodyChar c && (bodyChar nl && all bodyChar (String d lines)) = true).
        rewrite Hb, Hall. reflexivity.
      * rewrite stripNewlines_plain by assumption. rewrite stripNewlines_cons.
        simpl (Ascii.eqb nl nl || _). cbv iota. rewrite Hstrip. reflexivity.
    + destruct (IH (S used) d He) as (lines & -> & Hall & Hstrip).
      exists (String d lines). split; [reflexivity|]. split.
      * change (bodyChar c && all bodyChar (String d lines) = true).
        rewrite Hb, Hall. reflexivity.
      * rewrite stripNewlines_plain by assumption. rewrite Hstrip. reflexivity.
Qed.
End PemLines.

Section StringSearch.
Import strings base64 pem.

Lemma prefix_cons a p b s :
  String.prefix (String a p) (String b s)
  = if ascii_dec a b then String.prefix p s else false.
Proof. reflexivity. Qed.

Lemma prefix_cons_ne a p b s : a <> b -> String.prefix (String a p) (String b s) = false.
Proof. intros H. rewrite prefix_cons. destruct (ascii_dec a b); [contradiction|reflexivity]. Qed.

Lemma take_app (s t : string) : take (String.length s) (s +:+ t) = s.
Proof. induction s as [|c s IH]; [reflexivity|]. rewrite app_cons. simpl. rewrite IH. reflexivity. Qed.

Lemma take_app_le n (s t : string) :
  (n <= String.length s)%nat -> take n (s +:+ t) = take n s.
Proof.
  revert n. induction s as [|c s IH]; intros n Hn.
  - simpl in Hn. replace n with 0%nat by lia. reflexivity.
  - destruct n as [|n]; [reflexivity|]. rewrite app_cons. simpl.
    rewrite IH by (simpl in Hn; lia). reflexivity.
Qed.

Lemma drop_app_plus n (s t : string) : drop (String.length s + n) (s +:+ t) = drop n t.
Proof. induction s as [|c s IH]; [reflexivity|]. rewrite app_cons. exact IH. Qed.

Lemma length_drop n (s : string) : String.length (drop n s) = (String.length s - n)%nat.
Proof.
  revert n. induction s as [|c s IH]; intros [|n]; simpl; try reflexivity. apply IH.
Qed.

Lemma all_take f n s : all f s = true -> all f (take n s) = true.
Proof.
  revert n. induction s as [|c s IH]; intros [|n] H; simpl; try reflexivity.
  simpl in H. apply andb_true_iff in H as [-> H]. simpl. apply IH, H.
Qed.

Lemma all_TrimRightFunc f g s : all f s = true -> all f (TrimRightFunc g s) = true.
Proof.
  induction s as [|c s IH]; intros H; simpl; [reflexivity|].
  simpl in H. apply andb_true_iff in H as [Hc H].
  destruct (g c && _); [reflexivity|]. simpl. rewrite Hc. apply IH, H.
Qed.

Lemma Index_cons c s sep :
  Index (String c s) sep
  = if HasPrefix (String c s) sep then Some 0%nat else S <$> Index s sep.
Proof. reflexivity. Qed.

Lemma Index_here s sep : HasPrefix s sep = true -> Index s sep = Some 0%nat.
Proof.
  intros H. destruct s; [unfold Index|rewrite Index_cons]; rewrite H; reflexivity.
Qed.

Lemma Index_colon_none s : all bodyChar s = true -> Index s colon = None.
Proof.
  induction s as [|c s IH]; intros H; [reflexivity|].
  simpl in H. apply andb_true_iff in H as [Hc H].
  destruct (bodyChar_inv c Hc) as (_ & _ & _ & Hcolon & _).
  rewrite Index_cons, IH by assumption.
  unfold HasPrefix, colon. rewrite prefix_cons_ne by congruence. reflexivity.
Qed.

Lemma IndexByte_app_nl a b :
  exists i, IndexByte (a +:+ String nl b) nl = Some i /\ (i <= String.length a)%nat.
Proof.
  induction a as [|c a (i & Hi & Hle)].
  - exists 0%nat. split; [reflexivity|]. simpl; lia.
  - rewrite app_cons. simpl. destruct (Ascii.eqb c nl).
    + exists 0%nat. split; [reflexivity|lia].
    + exists (S i). rewrite Hi. split; [reflexivity|lia].
Qed.

(** The end marker is found right after a body: no line of the body
    starts with a dash. *)
Lemma Index_after_body body tail :
  all bodyChar body = true ->
  Index (body +:+ pemEnd +:+ tail) pemEnd = Some (String.length body).
Proof.
  induction body as [|c body IH]; intros H.
  - apply Index_here. exact (prefix_app pemEnd tail).
  - simpl in H. apply andb_true_iff in H as [Hc H]. rewrite app_cons, Index_cons.
    assert (HasPrefix (String c (body +:+ pemEnd +:+ tail)) pemEnd = false) as ->.
    { unfold HasPrefix. unfold pemEnd at 1. rewrite prefix_cons.
      destruct (ascii_dec nl c) as [<-|]; [|reflexivity].
      destruct body as [|d body].
      - reflexivity.
      - simpl in H. apply andb_true_iff in H as [Hd _].
        destruct (bodyChar_inv d Hd) as (_ & _ & _ & _ & Hdash).
        rewrite app_cons. apply prefix_cons_ne. congruence. }
    rewrite IH by assumption. reflexivity.
Qed.

Lemma removeSpacesAndTabs_body body :
  all bodyChar body = true -> removeSpacesAndTabs body = body.
Proof.
  induction body as [|c body IH]; intros H; [reflexivity|].
  simpl in H. apply andb_true_iff in H as [Hc H].
  destruct (bodyChar_inv c Hc) as (_ & Hsp & Htab & _).
  apply Ascii.eqb_neq in Hsp, Htab.
  change (removeSpacesAndTabs (String c body))
    with (if Ascii.eqb c " " || Ascii.eqb c tab then removeSpacesAndTabs body
          else String c (removeSpacesAndTabs body)).
  rewrite Hsp, Htab. simpl. rewrite IH by assumption. reflexivity.
Qed.

Lemma stripNewlines_snoc_nl s : stripNewlines (s +:+ String nl "") = stripNewlines s.
Proof.
  induction s as [|c s IH]; [reflexivity|].
  rewrite app_cons, !stripNewlines_cons, IH. reflexivity.
Qed.

(** The first line of a body has no colon: it is no header. *)
Lemma getLine_body_no_colon body tail :
  all bodyChar body = true ->
  Cut (fst (getLine (body +:+ String nl tail))) colon
  = (fst (getLine (body +:+ String nl tail)), "", false).
Proof.
  intros H. unfold Cut.
  assert (all bodyChar (fst (getLine (body +:+ String nl tail))) = true) as Hline.
  { unfold getLine. destruct (IndexByte_app_nl body tail) as (i & -> & Hi).
    simpl. apply all_TrimRightFunc.
    destruct (_ && _); rewrite take_app_le by lia; apply all_take, H. }
  rewrite (Index_colon_none _ Hline). reflexivity.
Qed.
End StringSearch.

Section PemRoundTrip.
Import strings base64 pem.

Lemma EncodeToMemory_certificate der :
  EncodeToMemory (certificateBlock der)
  = beginLine +:+ lineBreaker 0 (EncodeToString der) +:+ endLine.
Proof.
  unfold EncodeToMemory, certificateBlock, encodeHeaders. simpl.
  rewrite dom_empty_L, elements_empty, map_size_empty. reflexivity.
Qed.

(** The first turn of the loop of [Decode] on a text that starts with the
    BEGIN line of a certificate, at the start of the text or after one
    line feed. *)
Lemma decodeLoop_begin fuel text :
  decodeLoop (S fuel) (beginLine +:+ text)
  = match readHeaders (S (String.length text)) ∅ text with
    | None => None
    | Some (headers, rest) =>
        match decodeBody "CERTIFICATE" headers rest with
        | Return p rest => Some (p, rest)
        | Continue rest => decodeLoop fuel rest
        end
    end
  /\ decodeLoop (S fuel) (String nl (beginLine +:+ text))
     = match readHeaders (S (String.length text)) ∅ text with
       | None => None
       | Some (headers, rest) =>
           match decodeBody "CERTIFICATE" headers rest with
           | Return p rest => Some (p, rest)
           | Continue rest => decodeLoop fuel rest
           end
       end.
Proof. split; reflexivity. Qed.

(** An empty block: the END line follows the BEGIN line. *)
Lemma decode_empty_body tail :
  readHeaders (S (String.length (endLine +:+ tail))) ∅ (endLine +:+ tail)
  = Some (∅, endLine +:+ tail)
  /\ decodeBody "CERTIFICATE" ∅ (endLine +:+ tail) = Return (certificateBlock "") tail.
Proof. split; reflexivity. Qed.

Lemma readHeaders_body fuel c lines tail :
  all bodyChar (String c lines) = true ->
  readHeaders (S fuel) ∅ (String c lines +:+ String nl tail)
  = Some (∅, String c lines +:+ String nl tail).
Proof.
  intros H. pose proof (getLine_body_no_colon _ tail H) as Hcut.
  unfold readHeaders. rewrite app_cons at 1. simpl (String.length _ =? 0)%nat. cbv iota.
  destruct (getLine (String c lines +:+ String nl tail)) as [line next].
  simpl in Hcut. rewrite Hcut. reflexivity.
Qed.

Lemma decodeBody_body der c lines tail :
  all bodyChar (String c lines) = true ->
  plain c = true ->
  stripNewlines (String c lines) = EncodeToString der ->
  decodeBody "CERTIFICATE" ∅ (String c lines +:+ pemEnd +:+ "CERTIFICATE-----" +:+ String nl tail)
  = Return (certificateBlock der) tail.
Proof.
  intros Hall Hc Hstrip.
  destruct (plain_inv c Hc) as (_ & _ & _ & _ & _ & Hdash).
  unfold decodeBody. cbv zeta.
  rewrite map_size_empty.
  assert (HasPrefix (String c lines +:+ pemEnd +:+ "CERTIFICATE-----" +:+ String nl tail)
            (drop 1 pemEnd) = false) as ->.
  { rewrite app_cons. apply prefix_cons_ne. congruence. }
  simpl (_ && _). cbv iota.
  rewrite Index_after_body by assumption.
  change (String.length pemEnd) with 10%nat.
  rewrite drop_app_plus.
  replace (String.length (String c lines) + 10 - 1)%nat
    with (String.length (String c lines) + 9)%nat by lia.
  rewrite drop_app_plus, take_app.
  rewrite removeSpacesAndTabs_body by assumption.
  unfold DecodeString. rewrite Hstrip, decodeQuanta_EncodeToString.
  reflexivity.
Qed.

Lemma decodeLoop_certificate fuel der tail :
  decodeLoop (S fuel) (EncodeToMemory (certificateBlock der) +:+ tail)
  = Some (certificateBlock der, tail)
  /\ decodeLoop (S fuel) (String nl (EncodeToMemory (certificateBlock der) +:+ tail))
     = Some (certificateBlock der, tail).
Proof.
  rewrite EncodeToMemory_certificate, !app_assoc.
  destruct (decodeLoop_begin fuel
              (lineBreaker 0 (EncodeToString der) +:+ endLine +:+ tail)) as [-> ->].
  assert (match readHeaders
                  (S (String.length (lineBreaker 0 (EncodeToString der) +:+ endLine +:+ tail)))
                  ∅ (lineBreaker 0 (EncodeToString der) +:+ endLine +:+ tail) with
          | None => None
          | Some (headers, rest) =>
              match decodeBody "CERTIFICATE" headers rest with
              | Return p rest => Some (p, rest)
              | Continue rest => decodeLoop fuel rest
              end
          end = Some (certificateBlock der, tail)) as ->; [|split; reflexivity].
  destruct der as [|x der].
  - change (lineBreaker 0 (EncodeToString "") +:+ endLine +:+ tail) with (endLine +:+ tail).
    destruct (decode_empty_body tail) as [-> ->]. reflexivity.
  - pose proof (EncodeToString_plain (String x der)) as Hplain.
    destruct (EncodeToString (String x der)) as [|c e] eqn:He.
    { exfalso. exact (EncodeToString_nonempty x der He). }
    destruct (lineBreaker_body 0 c e Hplain) as (lines & -> & Hall & Hstrip).
    pose proof Hplain as Hc. simpl in Hc. apply andb_true_iff in Hc as [Hc _].
    rewrite app_assoc.
    change (String nl "" +:+ endLine +:+ tail) with (String nl (endLine +:+ tail)).
    rewrite readHeaders_body by assumption.
    change (String nl (endLine +:+ tail))
      with (pemEnd +:+ "CERTIFICATE-----" +:+ String nl tail).
    rewrite (decodeBody_body (String x der)) by (rewrite ?He; assumption).
    reflexivity.
Qed.

(** Decoding an encoded certificate block gives the block back and
    leaves what follows it, also when one line feed stands before it. *)
Lemma Decode_EncodeToMemory der tail :
  Decode (EncodeToMemory (certificateBlock der) +:+ tail)
  = (Some (certificateBlock der), tail)
  /\ Decode (String nl (EncodeToMemory (certificateBlock der) +:+ tail))
     = (Some (certificateBlock der), tail).
Proof.
  unfold Decode.
  destruct (decodeLoop_certificate
              (String.length (EncodeToMemory (certificateBlock der) +:+ tail)) der tail)
    as [-> _].
  destruct (decodeLoop_certificate
              (String.length (String nl (EncodeToMemory (certificateBlock der) +:+ tail)))
              der tail) as [_ ->].
  split; reflexivity.
Qed.
End PemRoundTrip.

Section PemTermination.
Import strings base64 pem.

Lemma prefix_length p s : String.prefix p s = true -> (String.length p <= String.length s)%nat.
Proof.
  revert s. induction p as [|c p IH]; intros s H; [simpl; lia|].
  destruct s as [|d s]; [discriminate|]. rewrite prefix_cons in H.
  destruct (ascii_dec c d); [|discriminate]. apply IH in H. simpl. lia.
Qed.

Lemma Index_Some_length s sep i :
  Index s sep = Some i -> (i + String.length sep <= String.length s)%nat.
Proof.
  revert i. induction s as [|c s IH]; intros i.
  - unfold Index. destruct (HasPrefix "" sep) eqn:Hp; [|discriminate].
    intros [= <-]. apply prefix_length in Hp. simpl in *. lia.
  - rewrite Index_cons. destruct (HasPrefix (String c s) sep) eqn:Hp.
    + intros [= <-]. apply prefix_length in Hp. simpl in *. lia.
    + destruct (Index s sep) as [j|]; [|discriminate].
      intros [= <-]. specialize (IH j eq_refl). simpl. lia.
Qed.

Lemma getLine_length data :
  (String.length (snd (getLine data)) <= String.length data)%nat
  /\ (data <> "" -> (String.length (snd (getLine data)) < String.length data)%nat).
Proof.
  unfold getLine. destruct (IndexByte data nl) as [i|]; cbn [snd].
  - rewrite length_drop. split; [lia|]. intros Hne.
    destruct data; [contradiction|]. simpl. lia.
  - split; [simpl; lia|]. intros Hne. destruct data; [contradiction|]. simpl. lia.
Qed.

Lemma readHeaders_length fuel headers rest headers' rest' :
  readHeaders fuel headers rest = Some (headers', rest') ->
  (String.length rest' <= String.length rest)%nat.
Proof.
  revert headers rest. induction fuel as [|fuel IH]; intros headers rest; [discriminate|].
  unfold readHeaders; fold readHeaders.
  destruct (String.length rest =? 0)%nat; [discriminate|].
  pose proof (proj1 (getLine_length rest)) as Hline.
  destruct (getLine rest) as [line next]. simpl in Hline.
  destruct (Cut line colon) as [[key val] [|]].
  - intros H. apply IH in H. lia.
  - intros [= <- <-]. lia.
Qed.

Lemma readHeaders_fuel n m headers rest :
  (String.length rest < n)%nat -> (String.length rest < m)%nat ->
  readHeaders n headers rest = readHeaders m headers rest.
Proof.
  revert m headers rest. induction n as [|n IH]; intros m headers rest Hn Hm; [lia|].
  destruct m as [|m]; [lia|].
  unfold readHeaders; fold readHeaders.
  destruct (String.length rest =? 0)%nat eqn:Hlen; [reflexivity|].
  apply Nat.eqb_neq in Hlen.
  assert (rest <> "") as Hne by (intros ->; simpl in Hlen; lia).
  pose proof (proj2 (getLine_length rest) Hne) as Hline.
  destruct (getLine rest) as [line next]. simpl in Hline.
  destruct (Cut line colon) as [[key val] [|]]; [|reflexivity].
  apply IH; lia.
Qed.

Lemma decodeBody_length typeLine headers rest :
  match decodeBody typeLine headers rest with
  | Return _ rest' => (String.length rest' <= String.length rest)%nat
  | Continue rest' => rest' = rest
  end.
Proof.
  unfold decodeBody. cbv zeta.
  destruct (if _ : bool then _ else _) as [[endIndex endTrailerIndex]|]; [|reflexivity].
  destruct (_ <? _)%nat; [reflexivity|].
  destruct (_ || _); [reflexivity|].
  destruct (negb _); [reflexivity|].
  destruct (DecodeString _); [|reflexivity].
  pose proof (proj1 (getLine_length (drop (endIndex + String.length pemEnd - 1) rest))).
  rewrite length_drop in H. lia.
Qed.

Lemma start_length data rest :
  (if HasPrefix data (drop 1 pemStart)
   then Some (drop (String.length pemStart - 1) data)
   else match Cut data pemStart with
        | (_, after, true) => Some after
        | (_, _, false) => None
        end) = Some rest ->
  (String.length rest < String.length data)%nat.
Proof.
  destruct (HasPrefix data (drop 1 pemStart)) eqn:Hp.
  - intros H.
    assert (rest = drop (String.length pemStart - 1) data) as -> by congruence.
    apply prefix_length in Hp. rewrite length_drop. simpl in *. lia.
  - unfold Cut. destruct (Index data pemStart) as [i|] eqn:Hi; [|discriminate].
    intros H.
    assert (rest = drop (i + String.length pemStart) data) as -> by congruence.
    apply Index_Some_length in Hi. rewrite length_drop. simpl in *. lia.
Qed.

Lemma decodeLoop_length fuel data p rest :
  decodeLoop fuel data = Some (p, rest) ->
  (String.length rest < String.length data)%nat.
Proof.
  revert data. induction fuel as [|fuel IH]; intros data; [discriminate|].
  unfold decodeLoop; fold decodeLoop. cbv zeta.
  destruct (if HasPrefix data (drop 1 pemStart) then _ else _) as [rest1|] eqn:Hstart;
    [|discriminate].
  apply start_length in Hstart.
  pose proof (proj1 (getLine_length rest1)) as Hline.
  destruct (getLine rest1) as [typeLine rest2]. simpl in Hline.
  destruct (negb (HasSuffix typeLine pemEndOfLine)).
  { intros H. apply IH in H. lia. }
  destruct (readHeaders _ _ rest2) as [[headers rest3]|] eqn:Hh; [|discriminate].
  apply readHeaders_length in Hh.
  pose proof (decodeBody_length
                (take (String.length typeLine - String.length pemEndOfLine) typeLine)
                headers rest3) as Hbody.
  destruct (decodeBody _ headers rest3) as [p' rest4|rest4].
  - intros [= <- <-]. lia.
  - subst rest4. intros H. apply IH in H. lia.
Qed.

(** [Decode] takes bytes off the input whenever it finds a block. *)
Lemma Decode_length data p rest :
  Decode data = (Some p, rest) -> (String.length rest < String.length data)%nat.
Proof.
  unfold Decode. destruct (decodeLoop _ data) as [[p' rest']|] eqn:H; [|discriminate].
  intros [= <- <-]. eapply decodeLoop_length, H.
Qed.

(** The loop of [Decode] needs no more turns than the input has bytes:
    more fuel changes nothing. *)
Lemma decodeLoop_fuel n m data :
  (String.length data < n)%nat -> (String.length data < m)%nat ->
  decodeLoop n data = decodeLoop m data.
Proof.
  revert m data. induction n as [|n IH]; intros m data Hn Hm; [lia|].
  destruct m as [|m]; [lia|].
  unfold decodeLoop; fold decodeLoop. cbv zeta.
  destruct (if HasPrefix data (drop 1 pemStart) then _ else _) as [rest1|] eqn:Hstart;
    [|reflexivity].
  apply start_length in Hstart.
  pose proof (proj1 (getLine_length rest1)) as Hline.
  destruct (getLine rest1) as [typeLine rest2]. simpl in Hline.
  destruct (negb (HasSuffix typeLine pemEndOfLine)).
  { apply IH; lia. }
  destruct (readHeaders _ _ rest2) as [[headers rest3]|] eqn:Hh; [|reflexivity].
  apply readHeaders_length in Hh.
  pose proof (decodeBody_length
                (take (String.length typeLine - String.length pemEndOfLine) typeLine)
                headers rest3) as Hbody.
  destruct (decodeBody _ headers rest3) as [p' rest4|rest4]; [reflexivity|].
  subst rest4. apply IH; lia.
Qed.

Lemma Decode_empty : Decode "" = (None, "").
Proof. reflexivity. Qed.
End PemTermination.

Section Normalizer.
Import strings base64 pem clustertrustbundle.

Lemma normalizeLoop_None fuel rest blockSet :
  normalizeLoop fuel None rest blockSet = Some (Ok blockSet).
Proof. destruct fuel; reflexivity. Qed.

Lemma normalizeLoop_total fuel b rest blockSet :
  b = None \/ (String.length rest < fuel)%nat ->
  exists r, normalizeLoop fuel b rest blockSet = Some r.
Proof.
  revert b rest blockSet. induction fuel as [|fuel IH]; intros b rest blockSet Hfuel.
  - destruct Hfuel as [->|?]; [|lia]. simpl. eauto.
  - destruct b as [b|]; [|rewrite normalizeLoop_None; eauto].
    destruct Hfuel as [?|Hfuel]; [discriminate|].
    unfold normalizeLoop; fold normalizeLoop.
    destruct (negb _); [eauto|].
    destruct (Decode rest) as [b' rest'] eqn:Hd. apply IH.
    destruct b' as [b'|]; [right|left; reflexivity].
    apply Decode_length in Hd. lia.
Qed.

(** The normalizer always comes to a result. *)
Lemma normalizePEMTrustAnchors_total in_ :
  exists r, normalizePEMTrustAnchors in_ = Some r.
Proof.
  unfold normalizePEMTrustAnchors.
  destruct (Decode in_) as [b rest] eqn:Hd.
  destruct (normalizeLoop_total (String.length in_) b rest ∅) as [r ->].
  { destruct b as [b|]; [right|left; reflexivity]. eapply Decode_length, Hd. }
  destruct r; eauto.
Qed.

Lemma normalizeLoop_canonical fuel b rest blockSet blockSet' :
  normalizeLoop fuel b rest blockSet = Some (Ok blockSet') ->
  set_Forall canonicalBlock blockSet ->
  set_Forall canonicalBlock blockSet'.
Proof.
  revert b rest blockSet. induction fuel as [|fuel IH]; intros b rest blockSet.
  - destruct b as [b|]; simpl.
    + destruct (negb _); discriminate.
    + intros [= <-]. auto.
  - destruct b as [b|]; [|rewrite normalizeLoop_None; intros [= <-]; auto].
    unfold normalizeLoop; fold normalizeLoop.
    destruct (negb _); [discriminate|].
    destruct (Decode rest) as [b' rest']. intros H Hall. eapply IH; [exact H|].
    intros e [->%elem_of_singleton|He]%elem_of_union; [|auto].
    exists (Bytes b). reflexivity.
Qed.

Lemma joined_cons der ders :
  joined (der :: ders) = encodeCertificate der +:+ following ders.
Proof.
  destruct ders as [|d ds].
  - unfold joined. simpl. rewrite app_nil_r. reflexivity.
  - reflexivity.
Qed.

Lemma normalizeLoop_following ders der fuel blockSet :
  (length ders < fuel)%nat ->
  normalizeLoop fuel (Some (certificateBlock der)) (following ders) blockSet
  = Some (Ok (list_to_set (encodeCertificate <$> ders)
              ∪ ({[ encodeCertificate der ]} ∪ blockSet))).
Proof.
  revert der fuel blockSet.
  induction ders as [|d ds IH]; intros der fuel blockSet Hfuel;
    (destruct fuel as [|fuel]; [simpl in Hfuel; lia|]).
  - simpl. rewrite normalizeLoop_None. f_equal. f_equal.
    rewrite (left_id_L ∅ (∪)). reflexivity.
  - unfold normalizeLoop; fold normalizeLoop.
    change (negb (String.eqb (Type_ (certificateBlock der)) "CERTIFICATE")) with false.
    cbv iota. unfold following. rewrite joined_cons.
    unfold encodeCertificate at 1.
    rewrite (proj2 (Decode_EncodeToMemory d (following ds))).
    change (EncodeToMemory (reblock (certificateBlock der))) with (encodeCertificate der).
    rewrite IH by (simpl in Hfuel; lia).
    f_equal. f_equal. rewrite fmap_cons, list_to_set_cons.
    rewrite (comm_L (∪) {[ encodeCertificate d ]} (list_to_set _)).
    rewrite <- (assoc_L (∪)). reflexivity.
Qed.

Lemma encodeCertificate_length der : (0 < String.length (encodeCertificate der))%nat.
Proof.
  unfold encodeCertificate. rewrite EncodeToMemory_certificate.
  unfold beginLine. simpl. lia.
Qed.

Lemma joined_length ders : (length ders <= String.length (joined ders))%nat.
Proof.
  induction ders as [|d ds IH]; [simpl; lia|].
  rewrite joined_cons, length_app. pose proof (encodeCertificate_length d) as Hd.
  destruct ds as [|d' ds']; [simpl; lia|].
  change (String.length (following (d' :: ds')))
    with (S (String.length (joined (d' :: ds')))).
  change (length (d :: d' :: ds')) with (S (length (d' :: ds'))). lia.
Qed.

(** Normalizing canonical blocks joined by line feeds. *)
Lemma normalizePEMTrustAnchors_joined ders :
  normalizePEMTrustAnchors (joined ders)
  = Some (Ok (Join (sortStrings
                      (elements (list_to_set (C := gset string) (encodeCertificate <$> ders))))
                (String nl ""))).
Proof.
  unfold normalizePEMTrustAnchors.
  destruct ders as [|d ds].
  - reflexivity.
  - pose proof (joined_length (d :: ds)) as Hlen. rewrite joined_cons in *.
    unfold encodeCertificate at 1 2.
    rewrite (proj1 (Decode_EncodeToMemory d (following ds))).
    rewrite normalizeLoop_following
      by (unfold encodeCertificate in Hlen; simpl length in Hlen; lia).
    rewrite fmap_cons, list_to_set_cons, (right_id_L ∅ (∪)).
    rewrite (comm_L (∪) (list_to_set _) {[ encodeCertificate d ]}). reflexivity.
Qed.

Lemma canonical_list l :
  Forall canonicalBlock l -> exists ders, l = encodeCertificate <$> ders.
Proof.
  induction 1 as [|e l [der ->] _ [ders ->]].
  - exists []. reflexivity.
  - exists (der :: ders). reflexivity.
Qed.

End Normalizer.

Section TrustBundleManager.
Import strings base64 pem certs clustertrustbundle kubeletclustertrustbundle.

Lemma pemBlocksUpTo_fuel n m text :
  (String.length text < n)%nat -> (String.length text < m)%nat ->
  pemBlocksUpTo n text = pemBlocksUpTo m text.
Proof.
  revert m text. induction n as [|n IH]; intros m text Hn Hm; [lia|].
  destruct m as [|m]; [lia|]. simpl.
  destruct (Decode text) as [[b|] rest] eqn:Hd; [|reflexivity].
  apply Decode_length in Hd. f_equal. apply IH; lia.
Qed.

(** The blocks of a text: the first one, then the blocks of the rest. *)
Lemma pemBlocks_unfold text :
  pemBlocks text
  = match Decode text with
    | (None, _) => []
    | (Some b, rest) => b :: pemBlocks rest
    end.
Proof.
  unfold pemBlocks at 1. simpl.
  destruct (Decode text) as [[b|] rest] eqn:Hd; [|reflexivity].
  apply Decode_length in Hd. f_equal. apply pemBlocksUpTo_fuel; lia.
Qed.

Lemma collectBlocks_spec fuel rest trustAnchorSet :
  (String.length rest < fuel)%nat ->
  collectBlocks fuel rest trustAnchorSet
  = Some (list_to_set (Bytes <$> pemBlocks rest) ∪ trustAnchorSet).
Proof.
  revert rest trustAnchorSet. induction fuel as [|fuel IH]; intros rest S Hfuel; [lia|].
  simpl. rewrite pemBlocks_unfold.
  destruct (Decode rest) as [[b|] rest'] eqn:Hd.
  - apply Decode_length in Hd. rewrite IH by lia. f_equal.
    rewrite fmap_cons, list_to_set_cons.
    rewrite (comm_L (∪) {[ Bytes b ]} (list_to_set _)), <- (assoc_L (∪)). reflexivity.
  - simpl. rewrite (left_id_L ∅ (∪)). reflexivity.
Qed.

Lemma collectBundles_spec ctbList signerName trustAnchorSet :
  collectBundles ctbList signerName trustAnchorSet
  = Some (anchorsOfSigner ctbList signerName ∪ trustAnchorSet).
Proof.
  unfold anchorsOfSigner. revert trustAnchorSet.
  induction ctbList as [|ctb ctbList IH]; intros S.
  - simpl. rewrite (left_id_L ∅ (∪)). reflexivity.
  - unfold collectBundles; fold collectBundles. cbn [List.filter].
    destruct (String.eqb (ctbSignerName (ctbSpec ctb)) signerName); cbn [negb].
    + rewrite collectBlocks_spec by lia. rewrite IH. f_equal.
      rewrite bind_cons, list_to_set_app_L.
      rewrite (comm_L (∪) (list_to_set (Bytes <$> _)) (list_to_set _)).
      rewrite <- (assoc_L (∪)). reflexivity.
    + apply IH.
Qed.

Lemma concat_cons (s : string) (l : list string) :
  String.concat "" (s :: l) = s +:+ String.concat "" l.
Proof. destruct l; simpl; [rewrite app_nil_r|]; reflexivity. Qed.

Lemma reserialize_concat trustAnchors pemTrustAnchors :
  reserialize trustAnchors pemTrustAnchors
  = pemTrustAnchors +:+ String.concat "" (encodeCertificate <$> trustAnchors).
Proof.
  revert pemTrustAnchors. induction trustAnchors as [|ta l IH]; intros acc.
  - simpl. rewrite app_nil_r. reflexivity.
  - simpl reserialize. rewrite IH, fmap_cons, concat_cons, app_assoc. reflexivity.
Qed.

Lemma elem_of_anchorsOfSigner ctbList signerName der :
  der ∈ anchorsOfSigner ctbList signerName <->
  exists ctb b,
    ctb ∈ ctbList /\ ctbSignerName (ctbSpec ctb) = signerName
    /\ b ∈ pemBlocks (TrustBundle (ctbSpec ctb)) /\ Bytes b = der.
Proof.
  unfold anchorsOfSigner. rewrite elem_of_list_to_set, list_elem_of_bind. split.
  - intros (ctb & (b & -> & Hb)%list_elem_of_fmap & Hctb).
    apply list_elem_of_In, List.filter_In in Hctb as [Hin Hs].
    apply String.eqb_eq in Hs. exists ctb, b.
    split; [apply list_elem_of_In, Hin|]. auto.
  - intros (ctb & b & Hin & Hs & Hb & <-). exists ctb. split.
    + apply list_elem_of_fmap. eauto.
    + apply list_elem_of_In, List.filter_In. split; [apply list_elem_of_In, Hin|].
      apply String.eqb_eq, Hs.
Qed.

Lemma sortStrings_sorted (X : gset string) :
  StronglySorted String.le (sortStrings (elements X))
  /\ NoDup (sortStrings (elements X))
  /\ forall x, x ∈ sortStrings (elements X) <-> x ∈ X.
Proof.
  unfold sortStrings. split; [|split].
  - apply StronglySorted_merge_sort; apply _.
  - rewrite merge_sort_Permutation. apply NoDup_elements.
  - intros x. rewrite merge_sort_Permutation. apply elem_of_elements.
Qed.
End TrustBundleManager.

(** ** Trust bundles: normalization, validation, union by signer *)

Section TrustBundles.
Import strings pem certs clustertrustbundle kubeletclustertrustbundle samples.

Example normalize_anchorsCBA :
  normalizePEMTrustAnchors anchorsCBA
  = Some (Ok (unlines ["-----BEGIN CERTIFICATE-----"; "Yg=="; "-----END CERTIFICATE-----";
                       "";
                       "-----BEGIN CERTIFICATE-----"; "Yw=="; "-----END CERTIFICATE-----"])).
Proof. vm_compute. reflexivity. Qed.

Example normalize_bad_block :
  normalizePEMTrustAnchors (anchorsA +:+ notACertificate)
  = Some (Err ("bad block type " +:+ quote "NOTACERTIFICATE")).
Proof. vm_compute. reflexivity. Qed.

Example normalize_no_block :
  normalizePEMTrustAnchors "non block garbage" = Some (Ok "").
Proof. vm_compute. reflexivity. Qed.

(** C6. Whenever the normalizer succeeds on an input, it succeeds on its
    own output and returns that output unchanged:
    normalize(normalize(x)) = normalize(x). *)
Theorem normalize_idempotent x out :
  normalizePEMTrustAnchors x = Some (Ok out) ->
  normalizePEMTrustAnchors out = Some (Ok out).
Proof.
  unfold normalizePEMTrustAnchors at 1.
  destruct (Decode x) as [b rest].
  destruct (normalizeLoop _ b rest ∅) as [[blockSet|]|] eqn:Hloop; try discriminate.
  intros [= <-].
  apply normalizeLoop_canonical in Hloop; [|intros e He; apply elem_of_empty in He as []].
  destruct (canonical_list (sortStrings (elements blockSet))) as [ders Hders].
  { apply Forall_forall. intros e He. apply Hloop.
    unfold sortStrings in He. rewrite merge_sort_Permutation in He.
    apply elem_of_elements, He. }
  rewrite Hders. change (Join (encodeCertificate <$> ders) (String nl "")) with (joined ders).
  rewrite normalizePEMTrustAnchors_joined. unfold joined. rewrite <- Hders.
  unfold sortStrings at 2. rewrite merge_sort_Permutation, list_to_set_elements_L.
  reflexivity.
Qed.

(** Scenario E3: duplicates, a header and text between the blocks. *)
Lemma normalize_idempotent_witness :
  let out := unlines ["-----BEGIN CERTIFICATE-----"; "Yg=="; "-----END CERTIFICATE-----";
                      "";
                      "-----BEGIN CERTIFICATE-----"; "Yw=="; "-----END CERTIFICATE-----"] in
  normalizePEMTrustAnchors anchorsCBA = Some (Ok out)
  /\ normalizePEMTrustAnchors out = Some (Ok out).
Proof.
  intros out. split; [vm_compute; reflexivity|].
  apply (normalize_idempotent anchorsCBA out). vm_compute. reflexivity.
Defined.

(** With trust anchors that normalize to a text that is not empty, the
    errors of [Validate] are those of the generic object-meta validation
    and, with a signer, of the syntax check of the signer name. *)
Lemma Validate_anchors v b out :
  normalizePEMTrustAnchors (TrustBundle (ctbSpec b)) = Some (Ok out) ->
  String.eqb out "" = false ->
  Validate v b
  = Some (if negb (String.eqb (ctbSignerName (ctbSpec b)) "")
          then (ValidateObjectMeta v (ctbObjectMeta b) false noRestrictionsOnName "metadata"
                ++ ValidateSignerName v "spec.signerName" (ctbSignerName (ctbSpec b)))%list
          else ValidateObjectMeta v (ctbObjectMeta b) false noRestrictionsOnName "metadata",
          withPEMTrustAnchors b out).
Proof.
  intros Hn Hne. unfold Validate, PEMTrustAnchors. rewrite Hn.
  cbn [withPEMTrustAnchors ctbSpec TrustBundle]. rewrite Hne. reflexivity.
Qed.

(** C2, at the inputs where the code departs from it. The bundle [foo] of
    signer [k8s.io/foo], whose name does not start with [k8s.io:foo:],
    draws no error of the strategy's own: the errors are those of the
    generic object-meta validation, called with a name validator that
    accepts every name, and of the signer-name syntax check. The bundle
    [k8s.io:foo:v1] without a signer passes as well. With a validation
    that reports nothing else, both are valid. *)
Theorem name_prefix_is_not_checked :
  let withSigner := bundle "foo" "k8s.io/foo" anchorsA in
  let withoutSigner := bundle "k8s.io:foo:v1" "" anchorsA in
  nameHasSignerPrefix "foo" "k8s.io/foo" = false
  /\ nameHasSignerPrefix "k8s.io:foo:v1" "k8s.io/foo" = true
  /\ (forall v, exists stored,
        Validate v withSigner
        = Some ((ValidateObjectMeta v (ctbObjectMeta withSigner) false
                   noRestrictionsOnName "metadata"
                 ++ ValidateSignerName v "spec.signerName" "k8s.io/foo")%list,
                stored))
  /\ (forall v, exists stored,
        Validate v withoutSigner
        = Some (ValidateObjectMeta v (ctbObjectMeta withoutSigner) false
                  noRestrictionsOnName "metadata",
                stored))
  /\ fst <$> Validate nameOnlyValidation withSigner = Some []
  /\ fst <$> Validate nameOnlyValidation withoutSigner = Some [].
Proof.
  assert (Hn : exists out, normalizePEMTrustAnchors anchorsA = Some (Ok out)
                           /\ String.eqb out "" = false).
  { eexists. split; [vm_compute; reflexivity|reflexivity]. }
  destruct Hn as (out & Hn & Hne).
  split; [reflexivity|]. split; [reflexivity|].
  split; [|split; [|split; vm_compute; reflexivity]].
  - intros v. eexists.
    apply (Validate_anchors v (bundle "foo" "k8s.io/foo" anchorsA) out Hn Hne).
  - intros v. eexists.
    apply (Validate_anchors v (bundle "k8s.io:foo:v1" "" anchorsA) out Hn Hne).
Qed.

(** The name validator handed to the object-meta validation has no
    message for any name. *)
Lemma noRestrictionsOnName_accepts name prefix : noRestrictionsOnName name prefix = [].
Proof. reflexivity. Qed.

(** The trust anchors of a signer, as a list: in byte order, without
    duplicates, and made of the DER bytes of the blocks of the bundles of
    that signer. *)
Lemma anchorsOfSigner_sorted ctbList signerName :
  let ders := sortStrings (elements (anchorsOfSigner ctbList signerName)) in
  StronglySorted String.le ders
  /\ NoDup ders
  /\ forall der,
       der ∈ ders <->
       exists ctb b,
         ctb ∈ ctbList /\ ctbSignerName (ctbSpec ctb) = signerName
         /\ b ∈ pemBlocks (TrustBundle (ctbSpec ctb)) /\ Bytes b = der.
Proof.
  intros ders. destruct (sortStrings_sorted (anchorsOfSigner ctbList signerName))
    as (Hsorted & Hnodup & Hin).
  split; [exact Hsorted|]. split; [exact Hnodup|].
  intros der. unfold ders. rewrite Hin. apply elem_of_anchorsOfSigner.
Qed.

(** C8. Once the informer has synced, and for a label selector that
    converts and lists, [GetTrustAnchorsBySigner] returns the
    concatenation of the canonical CERTIFICATE blocks of a list of DER
    byte strings: the DER bytes of every PEM block of every listed bundle
    whose signer name is the argument, each once, in byte order. Before
    the informer has synced, both operations fail with the not-synced
    error, whatever the label selector, the lister and the name are. *)
Theorem trust_anchors_by_signer env signerName labelSelector name :
  (HasSynced env = true ->
   forall selector ctbList,
     LabelSelectorAsSelector env labelSelector = Ok selector ->
     List env selector = Ok ctbList ->
     let ders := sortStrings (elements (anchorsOfSigner ctbList signerName)) in
     GetTrustAnchorsBySigner env signerName labelSelector
     = Some (Ok (String.concat "" (encodeCertificate <$> ders)))
     /\ String.concat "" (encodeCertificate <$> ders) = unionBySigner ctbList signerName
     /\ StronglySorted String.le ders
     /\ NoDup ders
     /\ forall der,
          der ∈ ders <->
          exists ctb b,
            ctb ∈ ctbList /\ ctbSignerName (ctbSpec ctb) = signerName
            /\ b ∈ pemBlocks (TrustBundle (ctbSpec ctb)) /\ Bytes b = der)
  /\ (HasSynced env = false ->
      GetTrustAnchorsBySigner env signerName labelSelector = Some (Err notSynced)
      /\ GetTrustAnchorsByName env name = Err notSynced).
Proof.
  split.
  - intros Hsynced selector ctbList Hsel Hlist ders.
    split; [|split; [reflexivity|apply anchorsOfSigner_sorted]].
    unfold GetTrustAnchorsBySigner. rewrite Hsynced, Hsel, Hlist. simpl.
    rewrite collectBundles_spec, (right_id_L ∅ (∪)), reserialize_concat. reflexivity.
  - intros Hsynced. unfold GetTrustAnchorsBySigner, GetTrustAnchorsByName.
    rewrite Hsynced. split; reflexivity.
Qed.

(** Two bundles of signer [s1] that share the certificate ["b"], one of
    another signer; then a cache before its first sync whose label
    selector does not convert and whose lister fails. *)
Lemma trust_anchors_by_signer_witness :
  let bundles := [bundle "s1:one" "s1" anchorsCBA; bundle "s2:one" "s2" notACertificate;
                  bundle "s1:two" "s1" anchorsA] in
  (sortStrings (elements (anchorsOfSigner bundles "s1")) = ["a"; "b"; "c"]
   /\ GetTrustAnchorsBySigner (bundleCache true bundles) "s1" tt
      = Some (Ok (encodeCertificate "a" +:+ encodeCertificate "b" +:+ encodeCertificate "c")))
  /\ (LabelSelectorAsSelector unsyncedFailingCache tt = Err "bad selector"
      /\ GetTrustAnchorsBySigner unsyncedFailingCache "s1" tt = Some (Err notSynced)
      /\ GetTrustAnchorsByName unsyncedFailingCache "s1:one" = Err notSynced).
Proof.
  intros bundles. split.
  - assert (Hders : sortStrings (elements (anchorsOfSigner bundles "s1")) = ["a"; "b"; "c"])
      by (vm_compute; reflexivity).
    split; [exact Hders|].
    destruct (trust_anchors_by_signer (bundleCache true bundles) "s1" tt "s1:one")
      as [Hsynced _].
    destruct (Hsynced eq_refl tt bundles eq_refl eq_refl) as [-> _].
    rewrite Hders. vm_compute. reflexivity.
  - split; [reflexivity|].
    destruct (trust_anchors_by_signer unsyncedFailingCache "s1" tt "s1:one") as [_ Hnot].
    exact (Hnot eq_refl).
Defined.

(** [GetTrustAnchorsBySigner] always comes to a result. *)
Lemma GetTrustAnchorsBySigner_total env signerName labelSelector :
  exists r, GetTrustAnchorsBySigner env signerName labelSelector = Some r.
Proof.
  unfold GetTrustAnchorsBySigner.
  destruct (negb (HasSynced env)); [eauto|].
  destruct (LabelSelectorAsSelector env labelSelector); [|eauto].
  destruct (List env _); [|eauto].
  rewrite collectBundles_spec. eauto.
Qed.
End TrustBundles.

(** ** The signing controller: what a reconcile writes *)

Section Reconcile.
Import metav1 certs workloadcertificatesigner statements samples.

Lemma clearFailedAndPending_app conds conds' :
  clearFailedAndPending (conds ++ conds')%list
  = (clearFailedAndPending conds ++ clearFailedAndPending conds')%list.
Proof.
  induction conds as [|cond rest IH]; [reflexivity|]. simpl.
  destruct (String.eqb (Type_ cond) WorkloadCertificateFailed); [exact IH|].
  destruct (String.eqb (Type_ cond) WorkloadCertificatePending); [exact IH|].
  simpl. rewrite IH. reflexivity.
Qed.

Lemma clearFailedAndPending_idem conds :
  clearFailedAndPending (clearFailedAndPending conds) = clearFailedAndPending conds.
Proof.
  induction conds as [|cond rest IH]; [reflexivity|]. simpl.
  destruct (String.eqb (Type_ cond) WorkloadCertificateFailed) eqn:HF; [exact IH|].
  destruct (String.eqb (Type_ cond) WorkloadCertificatePending) eqn:HP; [exact IH|].
  simpl. rewrite HF, HP, IH. reflexivity.
Qed.

Lemma markFailed_again wc reason message reason' message' :
  markFailed (markFailed wc reason message) reason' message' = markFailed wc reason' message'.
Proof.
  unfold markFailed, withStatus, withConditions. simpl.
  rewrite clearFailedAndPending_app, clearFailedAndPending_idem. simpl.
  rewrite List.app_nil_r. reflexivity.
Qed.

Lemma markIssued_again wc issuedPEM notBefore notAfter beginRefreshAt :
  markIssued (markIssued wc issuedPEM notBefore notAfter beginRefreshAt)
    issuedPEM notBefore notAfter beginRefreshAt
  = markIssued wc issuedPEM notBefore notAfter beginRefreshAt.
Proof.
  unfold markIssued, withStatus, withConditions. simpl.
  rewrite clearFailedAndPending_idem. reflexivity.
Qed.

(** X1. The later status write wins: a failure replaces an earlier failure,
    an issuance erases a failure, and writing the same outcome twice
    changes nothing. *)
Theorem later_status_write_wins wc reason message reason' message'
    issuedPEM notBefore notAfter beginRefreshAt :
  markFailed (markFailed wc reason message) reason' message' = markFailed wc reason' message'
  /\ markIssued (markFailed wc reason message) issuedPEM notBefore notAfter beginRefreshAt
     = markIssued wc issuedPEM notBefore notAfter beginRefreshAt
  /\ markIssued (markIssued wc issuedPEM notBefore notAfter beginRefreshAt)
       issuedPEM notBefore notAfter beginRefreshAt
     = markIssued wc issuedPEM notBefore notAfter beginRefreshAt.
Proof.
  split; [apply markFailed_again|]. split; [|apply markIssued_again].
  unfold markFailed, markIssued, withStatus, withConditions. simpl.
  rewrite clearFailedAndPending_app, clearFailedAndPending_idem. simpl.
  rewrite List.app_nil_r. reflexivity.
Qed.

Lemma issued_test wc :
  negb (String.eqb (Certificate (Status wc)) "")
  && (CertificateObservedGeneration (Status wc) =? Generation (ObjectMeta_ wc)) = true
  <-> issuedAtCurrentGeneration wc.
Proof.
  unfold issuedAtCurrentGeneration.
  rewrite andb_true_iff, negb_true_iff, Z.eqb_eq, String.eqb_neq. reflexivity.
Qed.

Lemma not_issued_test wc :
  ~ issuedAtCurrentGeneration wc ->
  negb (String.eqb (Certificate (Status wc)) "")
  && (CertificateObservedGeneration (Status wc) =? Generation (ObjectMeta_ wc)) = false.
Proof.
  intros H. apply not_true_is_false. intros Ht. apply H, issued_test, Ht.
Qed.

(** A reconcile that gets as far as a signer: the request is in the cache
    and is not issued at its current generation. *)
Lemma handleWorkloadCertificate_issue env key namespace name wc :
  SplitMetaNamespaceKey env key = Ok (namespace, name) ->
  wcLister env namespace name = Found wc ->
  ~ issuedAtCurrentGeneration wc ->
  builtinSigner (SignerName (Spec wc)) ->
  handleWorkloadCertificate env key
  = wrapOutcome ("while issuing certificate for " +:+ SignerName (Spec wc))
      (issue env (caKeyPair env (SignerName (Spec wc)))
         (signerTemplate (SignerName (Spec wc))) wc).
Proof.
  intros Hkey Hget Hnew Hsigner. unfold handleWorkloadCertificate.
  rewrite Hkey, Hget, (not_issued_test wc Hnew).
  unfold caKeyPair, signerTemplate. destruct Hsigner as [->| ->]; reflexivity.
Qed.

Lemma issue_submitted env keyPair template wc :
  submitted (issue env keyPair template wc) = []
  \/ exists wc', submitted (issue env keyPair template wc) = [wc']
                 /\ ObjectMeta_ wc' = ObjectMeta_ wc /\ Spec wc' = Spec wc.
Proof.
  unfold issue. destruct keyPair as [certPEM keyPEM].
  destruct (ParseCertsPEM env certPEM) as [[|caCert [|? ?]]|]; simpl; auto.
  destruct (ParsePrivateKeyPEM env keyPEM) as [caPrivKey|]; simpl; auto.
  destruct (ParsePublicKeysPEM env (PublicKey (Spec wc))) as [pubKeyObjs [perr|]].
  { right. eexists. simpl. repeat split. }
  destruct pubKeyObjs as [|requestPubKey [|? ?]].
  - right. eexists. simpl. repeat split.
  - destruct (template env wc _ _) as [tmpl|]; simpl; auto.
    destruct (CreateCertificate env tmpl caCert requestPubKey caPrivKey);
      right; eexists; simpl; repeat split.
  - right. eexists. simpl. repeat split.
Qed.

Lemma handleWorkloadCertificate_one_write env key :
  (length (submitted (handleWorkloadCertificate env key)) <= 1)%nat.
Proof.
  unfold handleWorkloadCertificate.
  destruct (SplitMetaNamespaceKey env key) as [[namespace name]|]; [|simpl; lia].
  destruct (wcLister env namespace name) as [wc| |]; try (simpl; lia).
  destruct (_ && _); [simpl; lia|].
  destruct (String.eqb _ KubeAPIServerClientSignerName).
  { simpl. unfold issueKubeAPIServerClientCert.
    destruct (issue_submitted env (kubeAPIServerClientKeyPair env)
                apiserverClientCertificateTemplate wc) as [->|(w & -> & _)]; simpl; lia. }
  destruct (String.eqb _ DefaultWorkloadCertificateSignerName); [|simpl; lia].
  simpl. unfold issueDefaultWorkloadCertificate.
  destruct (issue_submitted env (defaultWorkloadCertificateKeyPair env)
              defaultWorkloadCertificateTemplate wc) as [->|(w & -> & _)]; simpl; lia.
Qed.

(** X2. A reconcile makes at most one status write. It writes only for a
    request that is in the cache, names a built-in signer and is not
    issued at its current generation, and the object written has the
    metadata and the spec of the cached request. *)
Theorem reconcile_writes_status_once env key :
  (length (submitted (handleWorkloadCertificate env key)) <= 1)%nat
  /\ forall wc',
       In wc' (submitted (handleWorkloadCertificate env key)) ->
       exists namespace name wc,
         SplitMetaNamespaceKey env key = Ok (namespace, name)
         /\ wcLister env namespace name = Found wc
         /\ builtinSigner (SignerName (Spec wc))
         /\ ~ issuedAtCurrentGeneration wc
         /\ ObjectMeta_ wc' = ObjectMeta_ wc
         /\ Spec wc' = Spec wc.
Proof.
  unfold handleWorkloadCertificate.
  destruct (SplitMetaNamespaceKey env key) as [[namespace name]|];
    [|split; [simpl; lia|intros ? []]].
  destruct (wcLister env namespace name) as [wc| |] eqn:Hget;
    try (split; [simpl; lia|intros ? []]).
  destruct (_ && _) eqn:Htest; [split; [simpl; lia|intros ? []]|].
  assert (Hnew : ~ issuedAtCurrentGeneration wc).
  { intros H. apply issued_test in H. congruence. }
  assert (Hcase : forall keyPair template,
             builtinSigner (SignerName (Spec wc)) ->
             let o := wrapOutcome ("while issuing certificate for " +:+ SignerName (Spec wc))
                        (issue env keyPair template wc) in
             (length (submitted o) <= 1)%nat
             /\ forall wc', In wc' (submitted o) ->
                  exists namespace0 name0 wc0,
                    Ok (namespace, name) = Ok (namespace0, name0)
                    /\ wcLister env namespace0 name0 = Found wc0
                    /\ builtinSigner (SignerName (Spec wc0))
                    /\ ~ issuedAtCurrentGeneration wc0
                    /\ ObjectMeta_ wc' = ObjectMeta_ wc0
                    /\ Spec wc' = Spec wc0).
  { intros keyPair template Hsigner. simpl.
    destruct (issue_submitted env keyPair template wc) as [->|(w & -> & Hm & Hs)].
    - split; [simpl; lia|intros ? []].
    - split; [simpl; lia|]. intros wc' [<-|[]].
      exists namespace, name, wc. auto 10. }
  destruct (String.eqb_spec (SignerName (Spec wc)) KubeAPIServerClientSignerName) as [H1|H1].
  { pose proof (Hcase (kubeAPIServerClientKeyPair env) apiserverClientCertificateTemplate
                  (or_introl H1)) as Hc.
    rewrite H1 in Hc. exact Hc. }
  destruct (String.eqb_spec (SignerName (Spec wc)) DefaultWorkloadCertificateSignerName)
    as [H2|H2].
  { pose proof (Hcase (defaultWorkloadCertificateKeyPair env)
                  defaultWorkloadCertificateTemplate (or_intror H2)) as Hc.
    rewrite H2 in Hc. exact Hc. }
  split; [simpl; lia|intros ? []].
Qed.

Lemma issue_one_key env keyPair template wc caCert caPrivKey requestPubKey :
  ParseCertsPEM env (fst keyPair) = Ok [caCert] ->
  ParsePrivateKeyPEM env (snd keyPair) = Ok caPrivKey ->
  ParsePublicKeysPEM env (PublicKey (Spec wc)) = ([requestPubKey], None) ->
  issue env keyPair template wc
  = let notBefore := time.Add (Now env) (-5 * time.Minute) in
    let notAfter := time.Add notBefore (24 * time.Hour) in
    let beginRenewAt := time.Add notBefore (18 * time.Hour) in
    match template env wc notBefore notAfter with
    | Err e => failWith (wrap "while creating certificate template" e)
    | Ok tmpl =>
        match CreateCertificate env tmpl caCert requestPubKey caPrivKey with
        | Err e =>
            wrapOutcome "while marking WorkloadCertificate failed"
              (setWCFailed env wc "SigningFailure" ("Failed to sign certificate: " +:+ e))
        | Ok issuedDER =>
            wrapOutcome "while setting WorkloadCertificate issued"
              (setWCIssued env wc (encodeCertificatePEM env issuedDER)
                 notBefore notAfter beginRenewAt)
        end
    end.
Proof.
  intros Hca Hkey Hpub. unfold issue. destruct keyPair as [certPEM keyPEM].
  simpl in Hca, Hkey. rewrite Hca, Hkey, Hpub. reflexivity.
Qed.

(** X3. The reconcile that issues. For a request in the cache that names a
    built-in signer and is not issued at its current generation, with CA
    material that loads, one public key in the request and a signature
    that succeeds, the controller submits one status write and, when the
    store takes it, returns nil. The status written holds the PEM of the
    signed certificate, observed at the current generation, and a validity
    that starts five minutes before the time of the reconcile, ends 24
    hours later and asks for a refresh after 18 hours; it holds no Failed
    and no Pending condition. Metadata and spec are those of the cached
    request. *)
Theorem issuance_records_certificate_and_validity
    env key namespace name wc caCert caPrivKey requestPubKey tmpl issuedDER :
  SplitMetaNamespaceKey env key = Ok (namespace, name) ->
  wcLister env namespace name = Found wc ->
  ~ issuedAtCurrentGeneration wc ->
  builtinSigner (SignerName (Spec wc)) ->
  ParseCertsPEM env (fst (caKeyPair env (SignerName (Spec wc)))) = Ok [caCert] ->
  ParsePrivateKeyPEM env (snd (caKeyPair env (SignerName (Spec wc)))) = Ok caPrivKey ->
  ParsePublicKeysPEM env (PublicKey (Spec wc)) = ([requestPubKey], None) ->
  signerTemplate (SignerName (Spec wc)) env wc
    (time.Add (Now env) (-5 * time.Minute))
    (time.Add (time.Add (Now env) (-5 * time.Minute)) (24 * time.Hour)) = Ok tmpl ->
  CreateCertificate env tmpl caCert requestPubKey caPrivKey = Ok issuedDER ->
  forall wc',
    wc' = markIssued wc (encodeCertificatePEM env issuedDER)
            (time.Add (Now env) (-5 * time.Minute))
            (time.Add (time.Add (Now env) (-5 * time.Minute)) (24 * time.Hour))
            (time.Add (time.Add (Now env) (-5 * time.Minute)) (18 * time.Hour)) ->
    UpdateStatus env wc' = None ->
    handleWorkloadCertificate env key = {| submitted := [wc']; ret := None |}
    /\ Certificate (Status wc') = encodeCertificatePEM env issuedDER
    /\ CertificateObservedGeneration (Status wc') = Generation (ObjectMeta_ wc)
    /\ NotBefore (Status wc') = Now env - 5 * time.Minute
    /\ NotAfter (Status wc') = NotBefore (Status wc') + 24 * time.Hour
    /\ BeginRefreshAt (Status wc') = NotBefore (Status wc') + 18 * time.Hour
    /\ countConditions WorkloadCertificateFailed wc' = 0%nat
    /\ countConditions WorkloadCertificatePending wc' = 0%nat
    /\ ObjectMeta_ wc' = ObjectMeta_ wc
    /\ Spec wc' = Spec wc.
Proof.
  intros Hkey Hget Hnew Hsigner Hca Hpriv Hpub Htmpl Hsign wc' -> Hwrite.
  split.
  - rewrite (handleWorkloadCertificate_issue env key namespace name wc) by assumption.
    rewrite (issue_one_key env _ _ wc caCert caPrivKey requestPubKey) by assumption.
    cbv zeta. rewrite Htmpl, Hsign.
    unfold setWCIssued, wrapOutcome. simpl. rewrite Hwrite. reflexivity.
  - destruct (markIssued_counts wc (encodeCertificatePEM env issuedDER)
                (time.Add (Now env) (-5 * time.Minute))
                (time.Add (time.Add (Now env) (-5 * time.Minute)) (24 * time.Hour))
                (time.Add (time.Add (Now env) (-5 * time.Minute)) (18 * time.Hour)))
      as [HP HF].
    rewrite HP, HF. unfold markIssued, time.Add. simpl.
    repeat split; try reflexivity; lia.
Qed.

(** A request for the default signer with one key, reconciled one hour
    after the zero time. *)
Lemma issuance_records_certificate_and_validity_witness :
  let wc := request DefaultWorkloadCertificateSignerName "system:node:node-a" "K" ∅
              pendingStatus in
  let env := signerEnv wc time.Hour in
  let wc' := markIssued wc (encodeCertificatePEM env "system:serviceaccount:n1:sa1")
               (55 * time.Minute) (55 * time.Minute + 24 * time.Hour)
               (55 * time.Minute + 18 * time.Hour) in
  handleWorkloadCertificate env "n1/kubelet-p1-v1-0" = {| submitted := [wc']; ret := None |}
  /\ Certificate (Status wc') = encodeCertificatePEM env "system:serviceaccount:n1:sa1"
  /\ CertificateObservedGeneration (Status wc') = 1
  /\ NotBefore (Status wc') = time.Hour - 5 * time.Minute
  /\ NotAfter (Status wc') = NotBefore (Status wc') + 24 * time.Hour
  /\ BeginRefreshAt (Status wc') = NotBefore (Status wc') + 18 * time.Hour
  /\ countConditions WorkloadCertificateFailed wc' = 0%nat
  /\ countConditions WorkloadCertificatePending wc' = 0%nat
  /\ ObjectMeta_ wc' = ObjectMeta_ wc
  /\ Spec wc' = Spec wc.
Proof.
  intros wc env wc'.
  refine (issuance_records_certificate_and_validity env "n1/kubelet-p1-v1-0" "n1"
            "kubelet-p1-v1-0" wc "wc-ca" "wc-ca-key" "K"
            {| x509.SerialNumber := 7;
               x509.SubjectCommonName := "system:serviceaccount:n1:sa1";
               x509.KeyUsage := templateKeyUsage;
               x509.ExtKeyUsage_ := [x509.ExtKeyUsageClientAuth; x509.ExtKeyUsageServerAuth];
               x509.BasicConstraintsValid := true;
               x509.NotBefore := 55 * time.Minute;
               x509.NotAfter := 55 * time.Minute + 24 * time.Hour |}
            "system:serviceaccount:n1:sa1" _ _ _ _ _ _ _ _ _ wc' _ _).
  - reflexivity.
  - reflexivity.
  - intros [H _]. apply H. reflexivity.
  - right; reflexivity.
  - reflexivity.
  - reflexivity.
  - reflexivity.
  - reflexivity.
  - reflexivity.
  - reflexivity.
  - reflexivity.
Defined.

(** X4. The reconcile whose signature fails. Under the same conditions, when
    [x509.CreateCertificate] returns an error, the controller submits one
    status write that marks the request Failed with reason SigningFailure,
    at the current generation, the message carrying the error; it sets no
    certificate, and returns nil when the store takes the write. *)
Theorem signing_failure_marks_failed
    env key namespace name wc caCert caPrivKey requestPubKey tmpl e :
  SplitMetaNamespaceKey env key = Ok (namespace, name) ->
  wcLister env namespace name = Found wc ->
  ~ issuedAtCurrentGeneration wc ->
  builtinSigner (SignerName (Spec wc)) ->
  ParseCertsPEM env (fst (caKeyPair env (SignerName (Spec wc)))) = Ok [caCert] ->
  ParsePrivateKeyPEM env (snd (caKeyPair env (SignerName (Spec wc)))) = Ok caPrivKey ->
  ParsePublicKeysPEM env (PublicKey (Spec wc)) = ([requestPubKey], None) ->
  signerTemplate (SignerName (Spec wc)) env wc
    (time.Add (Now env) (-5 * time.Minute))
    (time.Add (time.Add (Now env) (-5 * time.Minute)) (24 * time.Hour)) = Ok tmpl ->
  CreateCertificate env tmpl caCert requestPubKey caPrivKey = Err e ->
  forall wc',
    wc' = markFailed wc "SigningFailure" ("Failed to sign certificate: " +:+ e) ->
    UpdateStatus env wc' = None ->
    handleWorkloadCertificate env key = {| submitted := [wc']; ret := None |}
    /\ (exists cond,
          last (Conditions (Status wc')) = Some cond
          /\ Type_ cond = WorkloadCertificateFailed
          /\ Status_ cond = ConditionTrue
          /\ Reason cond = "SigningFailure"
          /\ Message cond = "Failed to sign certificate: " +:+ e
          /\ ObservedGeneration cond = Generation (ObjectMeta_ wc))
    /\ countConditions WorkloadCertificateFailed wc' = 1%nat
    /\ Certificate (Status wc') = Certificate (Status wc)
    /\ CertificateObservedGeneration (Status wc') = CertificateObservedGeneration (Status wc).
Proof.
  intros Hkey Hget Hnew Hsigner Hca Hpriv Hpub Htmpl Hsign wc' -> Hwrite.
  split; [|split; [|split; [|split; reflexivity]]].
  - rewrite (handleWorkloadCertificate_issue env key namespace name wc) by assumption.
    rewrite (issue_one_key env _ _ wc caCert caPrivKey requestPubKey) by assumption.
    cbv zeta. rewrite Htmpl, Hsign.
    unfold setWCFailed, wrapOutcome. simpl. rewrite Hwrite. reflexivity.
  - eexists. split; [unfold markFailed; simpl; apply last_snoc|].
    simpl. repeat split; reflexivity.
  - apply markFailed_counts.
Qed.

(** A signer that refuses every template. *)
Lemma signing_failure_marks_failed_witness :
  let wc := request DefaultWorkloadCertificateSignerName "system:node:node-a" "K" ∅
              pendingStatus in
  let env := refusingSignerEnv wc time.Hour in
  let wc' := markFailed wc "SigningFailure" "Failed to sign certificate: x509: unsupported public key type" in
  handleWorkloadCertificate env "n1/kubelet-p1-v1-0" = {| submitted := [wc']; ret := None |}
  /\ (exists cond,
        last (Conditions (Status wc')) = Some cond
        /\ Type_ cond = WorkloadCertificateFailed
        /\ Status_ cond = ConditionTrue
        /\ Reason cond = "SigningFailure"
        /\ Message cond = "Failed to sign certificate: x509: unsupported public key type"
        /\ ObservedGeneration cond = 1)
  /\ countConditions WorkloadCertificateFailed wc' = 1%nat
  /\ Certificate (Status wc') = ""
  /\ CertificateObservedGeneration (Status wc') = 0.
Proof.
  intros wc env wc'.
  refine (signing_failure_marks_failed env "n1/kubelet-p1-v1-0" "n1"
            "kubelet-p1-v1-0" wc "wc-ca" "wc-ca-key" "K"
            {| x509.SerialNumber := 7;
               x509.SubjectCommonName := "system:serviceaccount:n1:sa1";
               x509.KeyUsage := templateKeyUsage;
               x509.ExtKeyUsage_ := [x509.ExtKeyUsageClientAuth; x509.ExtKeyUsageServerAuth];
               x509.BasicConstraintsValid := true;
               x509.NotBefore := 55 * time.Minute;
               x509.NotAfter := 55 * time.Minute + 24 * time.Hour |}
            "x509: unsupported public key type" _ _ _ _ _ _ _ _ _ wc' _ _).
  - reflexivity.
  - reflexivity.
  - intros [H _]. apply H. reflexivity.
  - right; reflexivity.
  - reflexivity.
  - reflexivity.
  - reflexivity.
  - reflexivity.
  - reflexivity.
  - reflexivity.
  - reflexivity.
Defined.

(** X5. CA material that does not load. When the certificate file of the
    signer does not parse to exactly one certificate, or its key file does
    not parse, the reconcile writes nothing: the request is not marked
    Failed. It returns an error that names the signer, so that the queue
    brings the key back. *)
Theorem unusable_ca_is_an_error_without_write env key namespace name wc :
  SplitMetaNamespaceKey env key = Ok (namespace, name) ->
  wcLister env namespace name = Found wc ->
  ~ issuedAtCurrentGeneration wc ->
  builtinSigner (SignerName (Spec wc)) ->
  (forall caCert,
     ParseCertsPEM env (fst (caKeyPair env (SignerName (Spec wc)))) <> Ok [caCert])
  \/ (exists e,
        ParsePrivateKeyPEM env (snd (caKeyPair env (SignerName (Spec wc)))) = Err e) ->
  submitted (handleWorkloadCertificate env key) = []
  /\ exists e,
       ret (handleWorkloadCertificate env key)
       = Some (wrap ("while issuing certificate for " +:+ SignerName (Spec wc)) e).
Proof.
  intros Hkey Hget Hnew Hsigner Hbad.
  rewrite (handleWorkloadCertificate_issue env key namespace name wc) by assumption.
  unfold issue. destruct (caKeyPair env (SignerName (Spec wc))) as [certPEM keyPEM].
  simpl in Hbad.
  destruct (ParseCertsPEM env certPEM) as [[|caCert [|? ?]]|];
    try (split; [reflexivity|eexists; reflexivity]).
  destruct Hbad as [Hbad|[e He]]; [exfalso; exact (Hbad caCert eq_refl)|].
  rewrite He. split; [reflexivity|eexists; reflexivity].
Qed.

(** A CA bundle of two certificates. *)
Lemma unusable_ca_is_an_error_without_write_witness :
  let wc := request DefaultWorkloadCertificateSignerName "system:node:node-a" "K" ∅
              pendingStatus in
  let env := twoCertificateCAEnv wc time.Hour in
  submitted (handleWorkloadCertificate env "n1/kubelet-p1-v1-0") = []
  /\ exists e,
       ret (handleWorkloadCertificate env "n1/kubelet-p1-v1-0")
       = Some (wrap ("while issuing certificate for " +:+ DefaultWorkloadCertificateSignerName) e).
Proof.
  intros wc env.
  apply (unusable_ca_is_an_error_without_write env "n1/kubelet-p1-v1-0" "n1"
           "kubelet-p1-v1-0" wc).
  - reflexivity.
  - reflexivity.
  - intros [H _]. apply H. reflexivity.
  - right; reflexivity.
  - left. intros caCert. discriminate.
Defined.

End Reconcile.

(** ** Reconciling what a reconcile wrote *)

Section ReconcileAgain.
Import metav1 certs workloadcertificatesigner statements samples.

Lemma template_again signerName env wc wc' notBefore notAfter :
  ObjectMeta_ wc' = ObjectMeta_ wc -> Spec wc' = Spec wc ->
  signerTemplate signerName env wc' notBefore notAfter
  = signerTemplate signerName env wc notBefore notAfter.
Proof.
  intros Hm Hs. unfold signerTemplate.
  destruct (String.eqb signerName KubeAPIServerClientSignerName);
    unfold apiserverClientCertificateTemplate, defaultWorkloadCertificateTemplate, commonName;
    rewrite Hm, Hs; reflexivity.
Qed.

(** The signer run on the object it has just written does what it did. *)
Lemma issue_again env keyPair signerName wc wc' :
  submitted (issue env keyPair (signerTemplate signerName) wc) = [wc'] ->
  issue env keyPair (signerTemplate signerName) wc'
  = issue env keyPair (signerTemplate signerName) wc.
Proof.
  unfold issue. destruct keyPair as [certPEM keyPEM].
  destruct (ParseCertsPEM env certPEM) as [[|caCert [|? ?]]|]; try discriminate.
  destruct (ParsePrivateKeyPEM env keyPEM) as [caPrivKey|]; try discriminate.
  destruct (ParsePublicKeysPEM env (PublicKey (Spec wc))) as [pubKeyObjs [perr|]] eqn:Hpub.
  { simpl. intros [= <-]. simpl. rewrite Hpub. unfold setWCFailed.
    rewrite markFailed_again. reflexivity. }
  destruct pubKeyObjs as [|requestPubKey [|? ?]].
  - simpl. intros [= <-]. simpl. rewrite Hpub. unfold setWCFailed.
    rewrite markFailed_again. reflexivity.
  - destruct (signerTemplate signerName env wc _ _) as [tmpl|] eqn:Htmpl; try discriminate.
    destruct (CreateCertificate env tmpl caCert requestPubKey caPrivKey) eqn:Hsign.
    + simpl. intros [= <-]. simpl. rewrite Hpub.
      rewrite (template_again signerName env wc) by reflexivity.
      rewrite Htmpl, Hsign. unfold setWCIssued. rewrite markIssued_again. reflexivity.
    + simpl. intros [= <-]. simpl. rewrite Hpub.
      rewrite (template_again signerName env wc) by reflexivity.
      rewrite Htmpl, Hsign. unfold setWCFailed. rewrite markFailed_again. reflexivity.
  - simpl. intros [= <-]. simpl. rewrite Hpub. unfold setWCFailed.
    rewrite markFailed_again. reflexivity.
Qed.

Lemma issue_withCachedRequest env cached keyPair signerName wc :
  issue (withCachedRequest env cached) keyPair (signerTemplate signerName) wc
  = issue env keyPair (signerTemplate signerName) wc.
Proof.
  unfold signerTemplate.
  destruct (String.eqb signerName KubeAPIServerClientSignerName); reflexivity.
Qed.

(** X6. Failed is not a final state for the controller. When a reconcile has
    written a request that does not read as issued, which is the case of
    every request it marks Failed, and the cache then shows the request
    as written, the next reconcile of the key takes the same steps with
    the same collaborators: it submits the same object again and returns
    the same value. *)
Theorem failed_request_is_reconciled_again env key namespace name wc wc' :
  SplitMetaNamespaceKey env key = Ok (namespace, name) ->
  wcLister env namespace name = Found wc ->
  Namespace (ObjectMeta_ wc) = namespace ->
  Name (ObjectMeta_ wc) = name ->
  submitted (handleWorkloadCertificate env key) = [wc'] ->
  ~ issuedAtCurrentGeneration wc' ->
  handleWorkloadCertificate (withCachedRequest env wc') key
  = handleWorkloadCertificate env key
  /\ submitted (handleWorkloadCertificate (withCachedRequest env wc') key) = [wc'].
Proof.
  intros Hkey Hget Hns Hname Hwrote Hnot.
  assert (Hin : In wc' (submitted (handleWorkloadCertificate env key)))
    by (rewrite Hwrote; left; reflexivity).
  assert (Hnew : ~ issuedAtCurrentGeneration wc /\ builtinSigner (SignerName (Spec wc))).
  { revert Hin. unfold handleWorkloadCertificate. rewrite Hkey, Hget.
    destruct (_ && _) eqn:Htest; [intros []|].
    split; [intros H; apply issued_test in H; congruence|].
    revert Hin.
    destruct (String.eqb_spec (SignerName (Spec wc)) KubeAPIServerClientSignerName);
      [left; assumption|].
    destruct (String.eqb_spec (SignerName (Spec wc)) DefaultWorkloadCertificateSignerName);
      [right; assumption|intros []]. }
  destruct Hnew as [Hnew Hsigner].
  assert (Hissue : submitted (issue env (caKeyPair env (SignerName (Spec wc)))
                                (signerTemplate (SignerName (Spec wc))) wc) = [wc']).
  { rewrite (handleWorkloadCertificate_issue env key namespace name wc) in Hwrote
      by assumption. exact Hwrote. }
  assert (Hframe : ObjectMeta_ wc' = ObjectMeta_ wc /\ Spec wc' = Spec wc).
  { destruct (issue_submitted env (caKeyPair env (SignerName (Spec wc)))
                (signerTemplate (SignerName (Spec wc))) wc) as [H|(w & H & Hm & Hs)];
      rewrite H in Hissue; [discriminate|]. injection Hissue as ->. auto. }
  destruct Hframe as [Hmeta Hspec].
  assert (Hagain : handleWorkloadCertificate (withCachedRequest env wc') key
                   = handleWorkloadCertificate env key).
  { rewrite (handleWorkloadCertificate_issue env key namespace name wc) by assumption.
    rewrite (handleWorkloadCertificate_issue (withCachedRequest env wc') key namespace name wc').
    - rewrite Hspec, issue_withCachedRequest.
      change (caKeyPair (withCachedRequest env wc') (SignerName (Spec wc)))
        with (caKeyPair env (SignerName (Spec wc))).
      rewrite (issue_again env _ _ wc wc' Hissue). reflexivity.
    - exact Hkey.
    - simpl. rewrite Hmeta, Hns, Hname, !String.eqb_refl. reflexivity.
    - exact Hnot.
    - rewrite Hspec. exact Hsigner. }
  split; [exact Hagain|]. rewrite Hagain. exact Hwrote.
Qed.

(** The request with two public keys, reconciled twice. *)
Lemma failed_request_is_reconciled_again_witness :
  let wc := request DefaultWorkloadCertificateSignerName "system:node:node-a" "K K" ∅
              pendingStatus in
  let env := signerEnv wc time.Hour in
  let wc' := markFailed wc "BadPublicKey" "Public key contained 2 keys, wanted 1" in
  handleWorkloadCertificate env "n1/kubelet-p1-v1-0" = {| submitted := [wc']; ret := None |}
  /\ handleWorkloadCertificate (withCachedRequest env wc') "n1/kubelet-p1-v1-0"
     = handleWorkloadCertificate env "n1/kubelet-p1-v1-0"
  /\ submitted (handleWorkloadCertificate (withCachedRequest env wc') "n1/kubelet-p1-v1-0")
     = [wc'].
Proof.
  intros wc env wc'. split; [vm_compute; reflexivity|].
  apply (failed_request_is_reconciled_again env "n1/kubelet-p1-v1-0" "n1" "kubelet-p1-v1-0"
           wc wc').
  - reflexivity.
  - reflexivity.
  - reflexivity.
  - reflexivity.
  - vm_compute. reflexivity.
  - intros [H _]. apply H. reflexivity.
Defined.
End ReconcileAgain.

(** ** The work loop *)

Section Worker.
Import certs workloadcertificatesigner signerworker statements.

(** X7. One run of a worker over the keys the queue hands out. Every key is
    marked done, once and in the order of delivery; the keys put back on
    the queue, rate limited, are those whose reconcile returned an error,
    and the others are forgotten; the run makes at most one status write
    for every key delivered. *)
Theorem worker_requeues_failed_keys (deliveries : list (Env * string)) :
  doneKeys (fst (worker deliveries)) = snd <$> deliveries
  /\ requeuedKeys (fst (worker deliveries)) = snd <$> List.filter reconcileFails deliveries
  /\ forgottenKeys (fst (worker deliveries))
     = snd <$> List.filter (fun d => negb (reconcileFails d)) deliveries
  /\ (length (snd (worker deliveries)) <= length deliveries)%nat.
Proof.
  induction deliveries as [|[env key] rest (IHd & IHr & IHf & IHw)].
  - repeat split; simpl; lia.
  - pose proof (handleWorkloadCertificate_one_write env key) as Hone.
    unfold worker; fold worker. unfold processNextWorkloadCertificate.
    cbn [List.filter].
    destruct (ret (handleWorkloadCertificate env key)) as [e|] eqn:Hret;
      cbn [continue queueCalls writes fst snd].
    + assert (reconcileFails (env, key) = true) as ->
        by (unfold reconcileFails; simpl; rewrite Hret; reflexivity).
      cbn [negb]. unfold doneKeys, requeuedKeys, forgottenKeys in *.
      repeat split.
      * simpl. f_equal. exact IHd.
      * simpl. f_equal. exact IHr.
      * simpl. exact IHf.
      * rewrite List.length_app. simpl length at 3. lia.
    + assert (reconcileFails (env, key) = false) as ->
        by (unfold reconcileFails; simpl; rewrite Hret; reflexivity).
      cbn [negb]. unfold doneKeys, requeuedKeys, forgottenKeys in *.
      repeat split.
      * simpl. f_equal. exact IHd.
      * simpl. exact IHr.
      * simpl. f_equal. exact IHf.
      * rewrite List.length_app. simpl length at 3. lia.
Qed.
End Worker.

(** ** The kubelet's manager: reading, re-keying, waiting *)

Section ManagerCalls.
Import metav1 certs kubeletworkloadcertificate statements samples.

Lemma currentCondition_spec wc type cond :
  currentCondition wc type cond = true <->
  Type_ cond = type /\ Status_ cond = ConditionTrue
  /\ ObservedGeneration cond = Generation (ObjectMeta_ wc).
Proof.
  unfold currentCondition.
  rewrite !andb_true_iff, !String.eqb_eq, Z.eqb_eq. tauto.
Qed.

Lemma find_currentCondition wc type :
  (exists cond, List.find (currentCondition wc type) (Conditions (Status wc)) = Some cond)
  <-> hasCurrentCondition wc type.
Proof.
  unfold hasCurrentCondition. split.
  - intros [cond [Hin Hc]%List.find_some]. exists cond.
    apply currentCondition_spec in Hc. tauto.
  - intros (cond & Hin & Hc).
    destruct (List.find _ _) as [c|] eqn:Hfind; [eauto|].
    eapply List.find_none in Hfind; [|exact Hin].
    assert (currentCondition wc type cond = true) by (apply currentCondition_spec; exact Hc).
    congruence.
Qed.

Lemma isWorkloadCertificateIssued_issued wc :
  fst (isWorkloadCertificateIssued wc) = issued <-> issuedAtCurrentGeneration wc.
Proof.
  unfold isWorkloadCertificateIssued, issuedAtCurrentGeneration.
  destruct (negb _ && _) eqn:Htest.
  - apply andb_true_iff in Htest as [Hc Hg].
    apply negb_true_iff, String.eqb_neq in Hc. apply Z.eqb_eq in Hg. simpl. tauto.
  - assert (~ (Certificate (Status wc) <> ""
               /\ CertificateObservedGeneration (Status wc) = Generation (ObjectMeta_ wc))).
    { intros [Hc Hg]. apply String.eqb_neq in Hc. apply Z.eqb_eq in Hg.
      rewrite Hc, Hg in Htest. discriminate. }
    destruct (List.find _ _); [simpl; split; [discriminate|tauto]|].
    destruct (List.find _ _); simpl; (split; [discriminate|tauto]).
Qed.

(** X8. How the kubelet reads the state of a request. It is issued exactly
    when it holds a certificate recorded at its current generation, and
    then a Failed condition does not count. Otherwise it is failed
    exactly when it holds a condition Failed with status True recorded at
    the current generation; a Failed condition of an older generation
    leaves it pending. *)
Theorem issuance_status_reads_current_generation wc :
  (fst (isWorkloadCertificateIssued wc) = issued <-> issuedAtCurrentGeneration wc)
  /\ (fst (isWorkloadCertificateIssued wc) = failed <->
      ~ issuedAtCurrentGeneration wc
      /\ hasCurrentCondition wc WorkloadCertificateFailed)
  /\ (fst (isWorkloadCertificateIssued wc) = pending <->
      ~ issuedAtCurrentGeneration wc
      /\ ~ hasCurrentCondition wc WorkloadCertificateFailed).
Proof.
  split; [apply isWorkloadCertificateIssued_issued|].
  pose proof (isWorkloadCertificateIssued_issued wc) as Hissued.
  pose proof (find_currentCondition wc WorkloadCertificateFailed) as Hfailed.
  unfold isWorkloadCertificateIssued in *.
  destruct (negb _ && _).
  - simpl in *.
    split; (split; [discriminate|]); intros [Hn _]; exfalso; apply Hn, Hissued; reflexivity.
  - destruct (List.find (currentCondition wc WorkloadCertificateFailed) _) as [cond|].
    + simpl in *. assert (hasCurrentCondition wc WorkloadCertificateFailed) by (apply Hfailed; eauto).
      split; split; try discriminate; try tauto.
      intros _. split; [|assumption]. intros Hi. apply Hissued in Hi. discriminate.
    + assert (~ hasCurrentCondition wc WorkloadCertificateFailed).
      { intros [c Hc]%Hfailed. discriminate. }
      assert (~ issuedAtCurrentGeneration wc).
      { intros Hi. apply Hissued in Hi.
        destruct (List.find _ _); simpl in Hi; discriminate. }
      destruct (List.find _ _); simpl; (split; split; try discriminate; tauto).
Qed.

Lemma pollIssuance_ok env namespace name ticks k wc :
  pollIssuance env namespace name ticks k = Some (Ok wc) ->
  issuedAtCurrentGeneration wc
  /\ exists j, (k <= j < k + ticks)%nat /\ wcLister env j namespace name = Found wc.
Proof.
  revert k. induction ticks as [|ticks IH]; intros k; [discriminate|]. simpl.
  destruct (ctxDone env k); [discriminate|].
  destruct (wcLister env k namespace name) as [wc0| |] eqn:Hget; try discriminate.
  pose proof (isWorkloadCertificateIssued_issued wc0) as Hissued.
  destruct (isWorkloadCertificateIssued wc0) as [[| |] msg]; simpl in Hissued.
  - intros [= <-]. split; [apply Hissued; reflexivity|]. exists k. split; [lia|exact Hget].
  - intros H. apply IH in H as [Hi (j & Hj & Hfound)]. split; [exact Hi|].
    exists j. split; [lia|exact Hfound].
  - discriminate.
Qed.

Lemma waitForWorkloadCertificateIssuance_ok env namespace name ticks k wc :
  waitForWorkloadCertificateIssuance env namespace name ticks k = Some (Ok wc) ->
  issuedAtCurrentGeneration wc
  /\ exists j, (k <= j <= k + ticks)%nat /\ wcLister env j namespace name = Found wc.
Proof.
  unfold waitForWorkloadCertificateIssuance.
  destruct (wcLister env k namespace name) as [wc0| |] eqn:Hget; try discriminate.
  pose proof (isWorkloadCertificateIssued_issued wc0) as Hissued.
  destruct (isWorkloadCertificateIssued wc0) as [[| |] msg]; simpl in Hissued.
  - intros [= <-]. split; [apply Hissued; reflexivity|]. exists k. split; [lia|exact Hget].
  - intros H. apply pollIssuance_ok in H as [Hi (j & Hj & Hfound)]. split; [exact Hi|].
    exists j. split; [lia|exact Hfound].
  - discriminate.
Qed.

Lemma waitForWorkloadCertificateIssuance_issued env namespace name ticks k wc :
  wcLister env k namespace name = Found wc ->
  issuedAtCurrentGeneration wc ->
  waitForWorkloadCertificateIssuance env namespace name ticks k = Some (Ok wc).
Proof.
  intros Hget Hi. unfold waitForWorkloadCertificateIssuance. rewrite Hget.
  apply isWorkloadCertificateIssued_issued in Hi.
  destruct (isWorkloadCertificateIssued wc) as [[| |] msg]; simpl in Hi;
    [reflexivity|discriminate|discriminate].
Qed.

Lemma awaitAndReturn_ok env namespace wcName ticks privKeyPEM key cert :
  awaitAndReturn env namespace wcName ticks privKeyPEM = Some (Ok (key, cert)) ->
  key = privKeyPEM
  /\ exists j wc,
       (1 <= j <= S ticks)%nat
       /\ wcLister env j namespace wcName = Found wc
       /\ issuedAtCurrentGeneration wc
       /\ cert = Certificate (Status wc).
Proof.
  unfold awaitAndReturn.
  destruct (waitForWorkloadCertificateIssuance env namespace wcName ticks 1)
    as [[wc|e]|] eqn:Hwait; try discriminate.
  intros [= <- <-]. split; [reflexivity|].
  apply waitForWorkloadCertificateIssuance_ok in Hwait as [Hi (j & Hj & Hfound)].
  exists j, wc. split; [lia|]. split; [exact Hfound|]. split; [exact Hi|reflexivity].
Qed.

(** X9. What a successful call returns. The certificate is the certificate
    of the request as one of the cache reads of the wait showed it, issued
    at the generation the request then had; it is never empty. *)
Theorem returned_certificate_is_issued
    env ticks signerName namespace podName podUID volumeName sourceIndex keyFileHash
    key cert :
  result (GetWorkloadCertificate env ticks signerName namespace podName podUID volumeName
            sourceIndex keyFileHash) = Some (Ok (key, cert)) ->
  cert <> ""
  /\ exists j wc,
       (1 <= j <= S ticks)%nat
       /\ wcLister env j namespace (requestName podName volumeName sourceIndex) = Found wc
       /\ issuedAtCurrentGeneration wc
       /\ cert = Certificate (Status wc).
Proof.
  intros H.
  assert (exists privKeyPEM,
            awaitAndReturn env namespace (requestName podName volumeName sourceIndex)
              ticks privKeyPEM = Some (Ok (key, cert))) as [privKeyPEM Hawait].
  { revert H. unfold GetWorkloadCertificate. fold (requestName podName volumeName sourceIndex).
    cbv zeta.
    destruct (wcLister env 0 namespace _) as [wc| |].
    - destruct (time.After _ _).
      + destruct (rekeyWorkloadCertificate env wc) as [[privKeyPEM newWC]|]; [|discriminate].
        destruct (Update env newWC); [discriminate|]. simpl. eauto.
      + simpl. eauto.
    - destruct (rekeyWorkloadCertificate env _) as [[privKeyPEM newWC]|]; [|discriminate].
      destruct (Create env newWC); [discriminate|]. simpl. eauto.
    - discriminate. }
  apply awaitAndReturn_ok in Hawait as [_ (j & wc & Hj & Hfound & Hi & ->)].
  split; [exact (proj1 Hi)|]. exists j, wc. auto.
Qed.

(** The cache holds the issued request, and the refresh time is ahead. *)
Lemma returned_certificate_is_issued_witness :
  let wc := request DefaultWorkloadCertificateSignerName "system:node:node-a" "PK"
              {[ privateKeyFileHashAnnotation := "h1" ]}
              (issuedStatus "CERT" (18 * time.Hour)) in
  let env := kubeletEnv wc time.Hour in
  result (GetWorkloadCertificate env 0 DefaultWorkloadCertificateSignerName
            "n1" "p1" "u1" "v1" 0 "h1") = Some (Ok ("", "CERT"))
  /\ "CERT" <> ""
  /\ exists j wc',
       (1 <= j <= 1)%nat
       /\ wcLister env j "n1" (requestName "p1" "v1" 0) = Found wc'
       /\ issuedAtCurrentGeneration wc'
       /\ "CERT" = Certificate (Status wc').
Proof.
  intros wc env.
  assert (H : result (GetWorkloadCertificate env 0 DefaultWorkloadCertificateSignerName
                        "n1" "p1" "u1" "v1" 0 "h1") = Some (Ok ("", "CERT")))
    by (vm_compute; reflexivity).
  split; [exact H|].
  exact (returned_certificate_is_issued env 0 DefaultWorkloadCertificateSignerName
           "n1" "p1" "u1" "v1" 0 "h1" "" "CERT" H).
Defined.

Lemma rekeyWorkloadCertificate_ok env wc privKeyPEM wc' :
  rekeyWorkloadCertificate env wc = Ok (privKeyPEM, wc') ->
  exists privKey privKeyBytes pubKeyBytes,
    GenerateKey (crypto env) = Ok privKey
    /\ MarshalPKCS8PrivateKey (crypto env) privKey = Ok privKeyBytes
    /\ MarshalPKIXPublicKey (crypto env) privKey = Ok pubKeyBytes
    /\ privKeyPEM = pemEncodeToMemory (crypto env) "PRIVATE KEY" privKeyBytes
    /\ wc' = {| ObjectMeta_ :=
                  {| Name := Name (ObjectMeta_ wc);
                     Namespace := Namespace (ObjectMeta_ wc);
                     Generation := Generation (ObjectMeta_ wc);
                     Annotations :=
                       <[privateKeyFileHashAnnotation :=
                           EncodeToString (crypto env) (Sum512_256 (crypto env) privKeyPEM)]>
                         (Annotations (ObjectMeta_ wc)) |};
                Spec :=
                  {| SignerName := SignerName (Spec wc);
                     ServiceAccount := ServiceAccount (Spec wc);
                     Pod := Pod (Spec wc);
                     PodUID := PodUID (Spec wc);
                     Node := Node (Spec wc);
                     Requester := Requester (Spec wc);
                     PublicKey := pemEncodeToMemory (crypto env) "PUBLIC KEY" pubKeyBytes |};
                Status := Status wc |}.
Proof.
  unfold rekeyWorkloadCertificate. cbv zeta.
  destruct (GenerateKey (crypto env)) as [privKey|] eqn:Hgen; [|discriminate].
  destruct (MarshalPKCS8PrivateKey (crypto env) privKey) as [privKeyBytes|] eqn:Hpriv;
    [|discriminate].
  destruct (MarshalPKIXPublicKey (crypto env) privKey) as [pubKeyBytes|] eqn:Hpub;
    [|discriminate].
  intros [= <- <-]. exists privKey, privKeyBytes, pubKeyBytes.
  repeat split; solve [reflexivity|assumption].
Qed.

(** X10. What re-keying does to a request. The annotation of the key-file hash
    becomes the base64 text of the SHA-512/256 sum of the private-key PEM
    that is returned, and the public key of the spec is the PEM of the
    public half of the same generated key. Every other annotation, the
    name, the namespace, the generation, the other fields of the spec and
    the status stay as they were. *)
Theorem rekey_records_hash_of_returned_key env wc privKeyPEM wc' :
  rekeyWorkloadCertificate env wc = Ok (privKeyPEM, wc') ->
  Annotations (ObjectMeta_ wc') !! privateKeyFileHashAnnotation
  = Some (EncodeToString (crypto env) (Sum512_256 (crypto env) privKeyPEM))
  /\ (forall k, k <> privateKeyFileHashAnnotation ->
        Annotations (ObjectMeta_ wc') !! k = Annotations (ObjectMeta_ wc) !! k)
  /\ (exists privKey privKeyBytes pubKeyBytes,
        GenerateKey (crypto env) = Ok privKey
        /\ MarshalPKCS8PrivateKey (crypto env) privKey = Ok privKeyBytes
        /\ privKeyPEM = pemEncodeToMemory (crypto env) "PRIVATE KEY" privKeyBytes
        /\ MarshalPKIXPublicKey (crypto env) privKey = Ok pubKeyBytes
        /\ PublicKey (Spec wc') = pemEncodeToMemory (crypto env) "PUBLIC KEY" pubKeyBytes)
  /\ Name (ObjectMeta_ wc') = Name (ObjectMeta_ wc)
  /\ Namespace (ObjectMeta_ wc') = Namespace (ObjectMeta_ wc)
  /\ Generation (ObjectMeta_ wc') = Generation (ObjectMeta_ wc)
  /\ Status wc' = Status wc
  /\ SignerName (Spec wc') = SignerName (Spec wc)
  /\ ServiceAccount (Spec wc') = ServiceAccount (Spec wc)
  /\ Pod (Spec wc') = Pod (Spec wc)
  /\ PodUID (Spec wc') = PodUID (Spec wc)
  /\ Node (Spec wc') = Node (Spec wc)
  /\ Requester (Spec wc') = Requester (Spec wc).
Proof.
  intros H. apply rekeyWorkloadCertificate_ok in H
    as (privKey & privKeyBytes & pubKeyBytes & Hgen & Hpriv & Hpub & -> & ->).
  cbn [ObjectMeta_ Annotations Spec Status Name Namespace Generation PublicKey
       SignerName ServiceAccount Pod PodUID Node Requester].
  split; [apply lookup_insert_eq|].
  split; [intros k Hk; apply lookup_insert_ne; congruence|].
  split; [exists privKey, privKeyBytes, pubKeyBytes; auto|].
  repeat split.
Qed.

(** Re-keying the issued request of pod [p1]. *)
Lemma rekey_records_hash_of_returned_key_witness :
  let wc := request DefaultWorkloadCertificateSignerName "system:node:node-a" "PK"
              {[ privateKeyFileHashAnnotation := "h1"; "other" := "kept" ]}
              (issuedStatus "CERT" (18 * time.Hour)) in
  let env := kubeletEnv wc (19 * time.Hour) in
  exists privKeyPEM wc',
    rekeyWorkloadCertificate env wc = Ok (privKeyPEM, wc')
    /\ Annotations (ObjectMeta_ wc') !! privateKeyFileHashAnnotation
       = Some (base64.EncodeToString ("sum:" +:+ privKeyPEM))
    /\ Annotations (ObjectMeta_ wc') !! "other" = Some "kept"
    /\ Generation (ObjectMeta_ wc') = 1
    /\ Status wc' = Status wc.
Proof.
  intros wc env.
  destruct (rekeyWorkloadCertificate env wc) as [[privKeyPEM wc']|e] eqn:Hrekey;
    [|vm_compute in Hrekey; discriminate Hrekey].
  exists privKeyPEM, wc'. split; [reflexivity|].
  destruct (rekey_records_hash_of_returned_key env wc privKeyPEM wc' Hrekey)
    as (Hhash & Hother & _ & _ & _ & Hgen & Hstatus & _).
  split; [exact Hhash|]. split; [|split; [exact Hgen|exact Hstatus]].
  rewrite Hother by discriminate. reflexivity.
Defined.

(** X11. One call makes at most one write to the API. Without a write, a
    successful call returns no private key. A create is sent only when
    the first cache read finds no request; the object sent carries the
    stable name, the signer, the pod and its UID, and leaves service
    account, node and requester empty. An update is sent only for a
    request found in the cache whose refresh time is past, and sends that
    request with the same name, generation and status. *)
Theorem manager_writes_at_most_once
    env ticks signerName namespace podName podUID volumeName sourceIndex keyFileHash :
  match calls (GetWorkloadCertificate env ticks signerName namespace podName podUID
                 volumeName sourceIndex keyFileHash) with
  | [] =>
      forall key cert,
        result (GetWorkloadCertificate env ticks signerName namespace podName podUID
                  volumeName sourceIndex keyFileHash) = Some (Ok (key, cert)) ->
        key = ""
  | [CreateCall wc] =>
      wcLister env 0 namespace (requestName podName volumeName sourceIndex) = NotFound
      /\ Name (ObjectMeta_ wc) = requestName podName volumeName sourceIndex
      /\ Namespace (ObjectMeta_ wc) = namespace
      /\ SignerName (Spec wc) = signerName
      /\ Pod (Spec wc) = podName
      /\ PodUID (Spec wc) = podUID
      /\ ServiceAccount (Spec wc) = ""
      /\ Node (Spec wc) = ""
      /\ Requester (Spec wc) = ""
      /\ Status wc = emptyStatus
  | [UpdateCall newWC] =>
      exists wc,
        wcLister env 0 namespace (requestName podName volumeName sourceIndex) = Found wc
        /\ time.After (clockNow env) (BeginRefreshAt (Status wc)) = true
        /\ Name (ObjectMeta_ newWC) = Name (ObjectMeta_ wc)
        /\ Namespace (ObjectMeta_ newWC) = Namespace (ObjectMeta_ wc)
        /\ Generation (ObjectMeta_ newWC) = Generation (ObjectMeta_ wc)
        /\ Status newWC = Status wc
  | _ => False
  end.
Proof.
  unfold GetWorkloadCertificate. fold (requestName podName volumeName sourceIndex).
  cbv zeta.
  destruct (wcLister env 0 namespace _) as [wc| |] eqn:Hget.
  - destruct (time.After _ _) eqn:Hafter.
    + destruct (rekeyWorkloadCertificate env wc) as [[privKeyPEM newWC]|] eqn:Hrekey;
        [|simpl; discriminate].
      apply rekeyWorkloadCertificate_ok in Hrekey as (? & ? & ? & _ & _ & _ & _ & ->).
      destruct (Update env _); simpl; exists wc; repeat split; assumption.
    + simpl. intros key cert H. apply awaitAndReturn_ok in H as [-> _]. reflexivity.
  - destruct (rekeyWorkloadCertificate env _) as [[privKeyPEM newWC]|] eqn:Hrekey;
      [|simpl; discriminate].
    apply rekeyWorkloadCertificate_ok in Hrekey as (? & ? & ? & _ & _ & _ & _ & ->).
    destruct (Create env _); simpl; repeat split.
  - simpl. discriminate.
Qed.

Lemma rekeyWorkloadCertificate_issued env wc privKeyPEM newWC :
  rekeyWorkloadCertificate env wc = Ok (privKeyPEM, newWC) ->
  issuedAtCurrentGeneration wc ->
  issuedAtCurrentGeneration newWC /\ Status newWC = Status wc.
Proof.
  intros Hrekey Hi.
  apply rekeyWorkloadCertificate_ok in Hrekey as (? & ? & ? & _ & _ & _ & _ & ->).
  split; [exact Hi|reflexivity].
Qed.

(** X12. A refresh and the cache. When the refresh time of an issued request
    is past, the manager generates a key, sends the update and reads the
    cache again. Re-keying changes neither the generation nor the status,
    so that the request reads as issued both as it was and as it was sent:
    whichever of the two the cache shows at that read, the call returns at
    once, with the new private key and the certificate the request already
    held. *)
Theorem refresh_returns_certificate_on_file
    env ticks signerName namespace podName podUID volumeName sourceIndex keyFileHash
    wc privKeyPEM newWC :
  wcLister env 0 namespace (requestName podName volumeName sourceIndex) = Found wc ->
  issuedAtCurrentGeneration wc ->
  time.After (clockNow env) (BeginRefreshAt (Status wc)) = true ->
  rekeyWorkloadCertificate env wc = Ok (privKeyPEM, newWC) ->
  Update env newWC = None ->
  wcLister env 1 namespace (requestName podName volumeName sourceIndex) = Found wc
  \/ wcLister env 1 namespace (requestName podName volumeName sourceIndex) = Found newWC ->
  GetWorkloadCertificate env ticks signerName namespace podName podUID volumeName
    sourceIndex keyFileHash
  = {| calls := [UpdateCall newWC];
       result := Some (Ok (privKeyPEM, Certificate (Status wc))) |}.
Proof.
  intros Hget Hi Hafter Hrekey Hupdate Hnext.
  unfold GetWorkloadCertificate. fold (requestName podName volumeName sourceIndex).
  cbv zeta. rewrite Hget, Hafter, Hrekey, Hupdate. unfold awaitAndReturn.
  destruct (rekeyWorkloadCertificate_issued env wc privKeyPEM newWC Hrekey Hi)
    as [Hi' Hstatus].
  destruct Hnext as [Hnext|Hnext].
  - rewrite (waitForWorkloadCertificateIssuance_issued env namespace _ ticks 1 wc Hnext Hi).
    reflexivity.
  - rewrite (waitForWorkloadCertificateIssuance_issued env namespace _ ticks 1 newWC
               Hnext Hi').
    rewrite Hstatus. reflexivity.
Qed.

(** The request of pod [p1], one hour past its refresh time, in a cache
    that does not change. *)
Lemma refresh_returns_certificate_on_file_witness :
  let wc := request DefaultWorkloadCertificateSignerName "system:node:node-a" "PK"
              {[ privateKeyFileHashAnnotation := "h1" ]}
              (issuedStatus "CERT" (18 * time.Hour)) in
  let env := kubeletEnv wc (19 * time.Hour) in
  exists privKeyPEM newWC,
    rekeyWorkloadCertificate env wc = Ok (privKeyPEM, newWC)
    /\ PublicKey (Spec newWC) <> PublicKey (Spec wc)
    /\ forall ticks,
         GetWorkloadCertificate env ticks DefaultWorkloadCertificateSignerName
           "n1" "p1" "u1" "v1" 0 "h1"
         = {| calls := [UpdateCall newWC]; result := Some (Ok (privKeyPEM, "CERT")) |}.
Proof.
  intros wc env.
  destruct (rekeyWorkloadCertificate env wc) as [[privKeyPEM newWC]|e] eqn:Hrekey;
    [|vm_compute in Hrekey; discriminate Hrekey].
  exists privKeyPEM, newWC. split; [reflexivity|]. split.
  - vm_compute in Hrekey. injection Hrekey as _ <-. vm_compute. discriminate.
  - intros ticks.
    apply (refresh_returns_certificate_on_file env ticks DefaultWorkloadCertificateSignerName
             "n1" "p1" "u1" "v1" 0 "h1" wc privKeyPEM newWC).
    + reflexivity.
    + split; [discriminate|reflexivity].
    + reflexivity.
    + exact Hrekey.
    + reflexivity.
    + left; reflexivity.
Defined.

(** X13. When a request already stands under the name computed for a volume
    source, the call works on it as it is: the signer, the pod, the pod
    UID and the key-file hash the caller passes are not compared with it.
    Two calls whose arguments lead to the same name have the same outcome.
    The name joins pod name, volume name and index with dashes, so that
    the pod [p-x] with the volume [v] and the pod [p] with the volume
    [x-v] lead to the same name. *)
Theorem existing_request_is_used_unchecked
    env ticks namespace wc
    signerName podName podUID volumeName sourceIndex keyFileHash
    signerName' podName' podUID' volumeName' sourceIndex' keyFileHash' :
  requestName podName volumeName sourceIndex = requestName podName' volumeName' sourceIndex' ->
  wcLister env 0 namespace (requestName podName volumeName sourceIndex) = Found wc ->
  GetWorkloadCertificate env ticks signerName namespace podName podUID volumeName
    sourceIndex keyFileHash
  = GetWorkloadCertificate env ticks signerName' namespace podName' podUID' volumeName'
      sourceIndex' keyFileHash'
  /\ forall p x v i,
       requestName (p +:+ "-" +:+ x) v i = requestName p (x +:+ "-" +:+ v) i.
Proof.
  intros Hname Hget. split.
  - unfold GetWorkloadCertificate.
    fold (requestName podName volumeName sourceIndex).
    fold (requestName podName' volumeName' sourceIndex').
    rewrite <- Hname. cbv zeta. rewrite Hget. reflexivity.
  - intros p x v i. unfold requestName. rewrite !app_assoc. reflexivity.
Qed.

(** The request of pod [a-b], volume [c], read for pod [a], volume [b-c],
    with another signer and another pod UID. *)
Lemma existing_request_is_used_unchecked_witness :
  let env := kubeletEnv sharedRequest time.Hour in
  GetWorkloadCertificate env 0 DefaultWorkloadCertificateSignerName "n1" "a-b" "u1" "c" 0 "h1"
  = GetWorkloadCertificate env 0 "example.com/other" "n1" "a" "u2" "b-c" 0 "h2"
  /\ forall p x v i,
       requestName (p +:+ "-" +:+ x) v i = requestName p (x +:+ "-" +:+ v) i.
Proof.
  intros env.
  apply (existing_request_is_used_unchecked env 0 "n1" sharedRequest
           DefaultWorkloadCertificateSignerName "a-b" "u1" "c" 0 "h1"
           "example.com/other" "a" "u2" "b-c" 0 "h2").
  - reflexivity.
  - reflexivity.
Defined.
End ManagerCalls.

(** ** Re-keying and the controller *)

Section RekeyAndReconcile.
Import metav1 certs statements samples.

(** X14. The request a refresh sends, seen by the controller. Re-keying an
    issued request gives it a new public key and leaves its generation
    and its status alone. The reconcile of the request so sent therefore
    finds it issued at its current generation: it writes nothing and
    returns nil, and the kubelet reads it as issued, with the certificate
    it held before. *)
Theorem rekeyed_request_is_not_reissued
    (kenv : kubeletworkloadcertificate.Env) (cenv : workloadcertificatesigner.Env)
    wc privKeyPEM newWC key namespace name :
  issuedAtCurrentGeneration wc ->
  kubeletworkloadcertificate.rekeyWorkloadCertificate kenv wc = Ok (privKeyPEM, newWC) ->
  workloadcertificatesigner.SplitMetaNamespaceKey cenv key = Ok (namespace, name) ->
  workloadcertificatesigner.wcLister cenv namespace name = Found newWC ->
  workloadcertificatesigner.handleWorkloadCertificate cenv key
  = workloadcertificatesigner.succeed
  /\ kubeletworkloadcertificate.isWorkloadCertificateIssued newWC
     = (kubeletworkloadcertificate.issued, "")
  /\ Certificate (Status newWC) = Certificate (Status wc)
  /\ Generation (ObjectMeta_ newWC) = Generation (ObjectMeta_ wc).
Proof.
  intros Hi Hrekey Hkey Hget.
  destruct (rekeyWorkloadCertificate_issued kenv wc privKeyPEM newWC Hrekey Hi)
    as [Hi' Hstatus].
  split; [|split; [|split]].
  - unfold workloadcertificatesigner.handleWorkloadCertificate.
    rewrite Hkey, Hget. rewrite (proj2 (issued_test newWC) Hi'). reflexivity.
  - unfold kubeletworkloadcertificate.isWorkloadCertificateIssued.
    rewrite (proj2 (issued_test newWC) Hi'). reflexivity.
  - rewrite Hstatus. reflexivity.
  - apply rekeyWorkloadCertificate_ok in Hrekey as (? & ? & ? & _ & _ & _ & _ & ->).
    reflexivity.
Qed.

(** The request of pod [p1], re-keyed by the kubelet and then reconciled. *)
Lemma rekeyed_request_is_not_reissued_witness :
  let wc := request DefaultWorkloadCertificateSignerName "system:node:node-a" "PK"
              {[ kubeletworkloadcertificate.privateKeyFileHashAnnotation := "h1" ]}
              (issuedStatus "CERT" (18 * time.Hour)) in
  let kenv := kubeletEnv wc (19 * time.Hour) in
  exists privKeyPEM newWC,
    kubeletworkloadcertificate.rekeyWorkloadCertificate kenv wc = Ok (privKeyPEM, newWC)
    /\ PublicKey (Spec newWC) <> PublicKey (Spec wc)
    /\ workloadcertificatesigner.handleWorkloadCertificate
         (signerEnv newWC (19 * time.Hour)) "n1/kubelet-p1-v1-0"
       = workloadcertificatesigner.succeed
    /\ kubeletworkloadcertificate.isWorkloadCertificateIssued newWC
       = (kubeletworkloadcertificate.issued, "")
    /\ Certificate (Status newWC) = "CERT"
    /\ Generation (ObjectMeta_ newWC) = 1.
Proof.
  intros wc kenv.
  destruct (kubeletworkloadcertificate.rekeyWorkloadCertificate kenv wc)
    as [[privKeyPEM newWC]|e] eqn:Hrekey; [|vm_compute in Hrekey; discriminate Hrekey].
  exists privKeyPEM, newWC. split; [reflexivity|]. split.
  - vm_compute in Hrekey. injection Hrekey as _ <-. vm_compute. discriminate.
  - apply (rekeyed_request_is_not_reissued kenv (signerEnv newWC (19 * time.Hour))
             wc privKeyPEM newWC "n1/kubelet-p1-v1-0" "n1" "kubelet-p1-v1-0").
    + split; [discriminate|reflexivity].
    + exact Hrekey.
    + reflexivity.
    + vm_compute in Hrekey. injection Hrekey as _ <-. reflexivity.
Defined.
End RekeyAndReconcile.

(** ** Waiting for issuance *)

Section Waiting.
Import metav1 certs kubeletworkloadcertificate statements samples.

Lemma pollIssuance_settles env namespace name n :
  forall k ticks wc,
    (forall j, (k <= j < k + n)%nat ->
       exists wcj, wcLister env j namespace name = Found wcj
                   /\ fst (isWorkloadCertificateIssued wcj) = pending) ->
    (forall j, (k <= j <= k + n)%nat -> ctxDone env j = false) ->
    wcLister env (k + n) namespace name = Found wc ->
    (n < ticks)%nat ->
    pollIssuance env namespace name ticks k
    = match isWorkloadCertificateIssued wc with
      | (issued, _) => Some (Ok wc)
      | (failed, msg) => Some (Err msg)
      | (pending, _) => pollIssuance env namespace name (ticks - S n) (S (k + n))
      end.
Proof.
  induction n as [|n IH]; intros k ticks wc Hpending Hctx Hget Hticks;
    (destruct ticks as [|ticks]; [lia|]).
  - rewrite Nat.add_0_r in *. simpl. rewrite (Hctx k) by lia. rewrite Hget.
    rewrite Nat.sub_0_r. reflexivity.
  - simpl pollIssuance at 1. rewrite (Hctx k) by lia.
    destruct (Hpending k) as (wck & -> & Hk); [lia|].
    destruct (isWorkloadCertificateIssued wck) as [[| |] msg]; simpl in Hk; try discriminate.
    rewrite (IH (S k) ticks wc).
    + replace (S k + n)%nat with (k + S n)%nat by lia.
      replace (ticks - S n)%nat with (S ticks - S (S n))%nat by lia. reflexivity.
    + intros j Hj. apply Hpending. lia.
    + intros j Hj. apply Hctx. lia.
    + rewrite <- Hget. f_equal. lia.
    + lia.
Qed.

(** X15. The wait ends at the first read that shows the request settled. When
    the reads of the cache show the request pending [n] times, the context
    is not cancelled in between, and the next read shows it issued at its
    current generation, the wait returns that request after [n] ticks of
    the ticker; when the next read shows it failed, the wait returns the
    error that carries the reason and the message of the Failed
    condition. With [n = 0] it returns without waiting for a tick. *)
Theorem wait_ends_at_the_first_settled_read env namespace name k n wc :
  (forall j, (k <= j < k + n)%nat ->
     exists wcj, wcLister env j namespace name = Found wcj
                 /\ fst (isWorkloadCertificateIssued wcj) = pending) ->
  (forall j, (k < j <= k + n)%nat -> ctxDone env j = false) ->
  wcLister env (k + n) namespace name = Found wc ->
  forall ticks,
    (n <= ticks)%nat ->
    (issuedAtCurrentGeneration wc ->
     waitForWorkloadCertificateIssuance env namespace name ticks k = Some (Ok wc))
    /\ (fst (isWorkloadCertificateIssued wc) = failed ->
        waitForWorkloadCertificateIssuance env namespace name ticks k
        = Some (Err (snd (isWorkloadCertificateIssued wc)))).
Proof.
  intros Hpending Hctx Hget ticks Hticks.
  assert (Hwait :
            waitForWorkloadCertificateIssuance env namespace name ticks k
            = match isWorkloadCertificateIssued wc with
              | (issued, _) => Some (Ok wc)
              | (failed, msg) => Some (Err msg)
              | (pending, _) => pollIssuance env namespace name (ticks - n) (S (k + n))
              end).
  { unfold waitForWorkloadCertificateIssuance. destruct n as [|n].
    - rewrite Nat.add_0_r in *. rewrite Hget, Nat.sub_0_r. reflexivity.
    - destruct (Hpending k) as (wck & -> & Hk); [lia|].
      destruct (isWorkloadCertificateIssued wck) as [[| |] msg]; simpl in Hk;
        try discriminate.
      rewrite (pollIssuance_settles env namespace name n (S k) ticks wc).
      + replace (S k + n)%nat with (k + S n)%nat by lia. reflexivity.
      + intros j Hj. apply Hpending. lia.
      + intros j Hj. apply Hctx. lia.
      + rewrite <- Hget. f_equal. lia.
      + lia. }
  rewrite Hwait. split.
  - intros Hi. apply isWorkloadCertificateIssued_issued in Hi.
    destruct (isWorkloadCertificateIssued wc) as [[| |] msg]; simpl in Hi;
      [reflexivity|discriminate|discriminate].
  - intros Hf.
    destruct (isWorkloadCertificateIssued wc) as [[| |] msg]; simpl in Hf;
      [discriminate|discriminate|reflexivity].
Qed.

(** Two reads show the request pending, the third shows it issued. *)
Lemma wait_ends_at_the_first_settled_read_witness :
  let before := request DefaultWorkloadCertificateSignerName "system:node:node-a" "K" ∅
                  pendingStatus in
  let after := request DefaultWorkloadCertificateSignerName "system:node:node-a" "K" ∅
                 (issuedStatus "CERT" (18 * time.Hour)) in
  let env := changingKubeletEnv 2 before after time.Hour in
  waitForWorkloadCertificateIssuance env "n1" "kubelet-p1-v1-0" 1 0 = None
  /\ waitForWorkloadCertificateIssuance env "n1" "kubelet-p1-v1-0" 2 0 = Some (Ok after).
Proof.
  intros before after env. split; [reflexivity|].
  refine (proj1 (wait_ends_at_the_first_settled_read env "n1" "kubelet-p1-v1-0" 0 2 after
                   _ _ _ 2 _) _).
  - intros j Hj. exists before.
    assert (j = 0 \/ j = 1)%nat as [-> | ->] by lia; split; reflexivity.
  - intros j Hj. reflexivity.
  - reflexivity.
  - lia.
  - split; [discriminate|reflexivity].
Defined.
End Waiting.

(** ** Admission: what an accepted call guarantees *)

Section RestrictionGuarantees.
Import metav1 certs admission wcrestriction statements samples.

(** X16. What the validator of the restriction plugin guarantees about a
    request it accepts: the pod named by the request is in the pod cache,
    and its UID, its service account and its node are those the request
    states; a call on the main resource is made by the requester the
    request names; a call on the status subresource is made by a
    principal allowed to [sign] for the signer of the request. *)
Theorem accepted_request_matches_its_pod p a newWC :
  enabled p = true ->
  GetResource a = workloadCertificateGroupResource ->
  GetObject a = WorkloadCertificateObject newWC ->
  Validate p a = Allowed ->
  (exists pod,
     podLister p (Namespace (ObjectMeta_ newWC)) (Pod (Spec newWC)) = PodFound pod
     /\ corev1.UID pod = PodUID (Spec newWC)
     /\ corev1.ServiceAccountName pod = ServiceAccount (Spec newWC)
     /\ corev1.NodeName pod = Node (Spec newWC))
  /\ (GetSubresource a = "" -> GetName (GetUserInfo a) = Requester (Spec newWC))
  /\ (GetSubresource a = "status" ->
      IsAuthorizedForSignerName (authz p) (GetUserInfo a) "sign" (SignerName (Spec newWC))
      = true).
Proof.
  intros Hen Hres Hobj. unfold Validate. rewrite Hen, Hres, Hobj. simpl.
  destruct (String.eqb_spec (GetSubresource a) "") as [Hmain|Hmain].
  - destruct (String.eqb_spec (GetName (GetUserInfo a)) (Requester (Spec newWC)))
      as [Hreq|Hreq]; simpl; [|discriminate].
    rewrite Hmain. simpl.
    destruct (podLister p _ _) as [pod| |]; try discriminate.
    destruct (String.eqb_spec (corev1.UID pod) (PodUID (Spec newWC))); [|discriminate].
    destruct (String.eqb_spec (corev1.ServiceAccountName pod) (ServiceAccount (Spec newWC)));
      [|discriminate].
    destruct (String.eqb_spec (corev1.NodeName pod) (Node (Spec newWC))); [|discriminate].
    simpl. intros _. split; [eauto|]. split; [auto|discriminate].
  - simpl.
    destruct (String.eqb_spec (GetSubresource a) "status") as [Hstatus|Hstatus].
    + destruct (IsAuthorizedForSignerName _ _ _ _) eqn:Hauth; simpl; [|discriminate].
      destruct (podLister p _ _) as [pod| |]; try discriminate.
      destruct (String.eqb_spec (corev1.UID pod) (PodUID (Spec newWC))); [|discriminate].
      destruct (String.eqb_spec (corev1.ServiceAccountName pod) (ServiceAccount (Spec newWC)));
        [|discriminate].
      destruct (String.eqb_spec (corev1.NodeName pod) (Node (Spec newWC))); [|discriminate].
      simpl. intros _. split; [eauto|]. split; [contradiction|auto].
    + simpl.
      destruct (podLister p _ _) as [pod| |]; try discriminate.
      destruct (String.eqb_spec (corev1.UID pod) (PodUID (Spec newWC))); [|discriminate].
      destruct (String.eqb_spec (corev1.ServiceAccountName pod) (ServiceAccount (Spec newWC)));
        [|discriminate].
      destruct (String.eqb_spec (corev1.NodeName pod) (Node (Spec newWC))); [|discriminate].
      simpl. intros _. split; [eauto|]. split; contradiction.
Qed.

(** The node of pod [p1] updates its own request. *)
Lemma accepted_request_matches_its_pod_witness :
  let wc := request DefaultWorkloadCertificateSignerName "system:node:node-a" "K" ∅
              pendingStatus in
  let p := restriction (fun _ _ _ _ => false) in
  let a := updateRequest "system:node:node-a" "" wc in
  (exists pod,
     podLister p "n1" "p1" = PodFound pod
     /\ corev1.UID pod = "u1"
     /\ corev1.ServiceAccountName pod = "sa1"
     /\ corev1.NodeName pod = "node-a")
  /\ (GetSubresource a = "" -> GetName (GetUserInfo a) = "system:node:node-a")
  /\ (GetSubresource a = "status" ->
      IsAuthorizedForSignerName (authz p) (GetUserInfo a) "sign"
        DefaultWorkloadCertificateSignerName = true).
Proof.
  intros wc p a.
  apply (accepted_request_matches_its_pod p a wc); reflexivity.
Defined.

(** X17. The mutating and the validating entry point, one after the other, on
    the main resource. When the pod named by the request is in the cache
    under the UID the request states, the mutator writes the service
    account and the node of the pod and the name of the caller into the
    request, whatever the request carried in these three fields. The
    validator then accepts the request so completed exactly when the name
    of the caller, with a leading [system:node:] taken off, is the node
    of the pod. *)
Theorem admitted_request_validates_for_the_node_of_the_pod p a newWC obj' :
  enabled p = true ->
  GetResource a = workloadCertificateGroupResource ->
  GetObject a = WorkloadCertificateObject newWC ->
  GetSubresource a = "" ->
  Mutate p a = (Allowed, obj') ->
  exists pod,
    podLister p (Namespace (ObjectMeta_ newWC)) (Pod (Spec newWC)) = PodFound pod
    /\ corev1.UID pod = PodUID (Spec newWC)
    /\ obj' = WorkloadCertificateObject
                (withSpec newWC
                   {| SignerName := SignerName (Spec newWC);
                      ServiceAccount := corev1.ServiceAccountName pod;
                      Pod := Pod (Spec newWC);
                      PodUID := PodUID (Spec newWC);
                      Node := corev1.NodeName pod;
                      Requester := GetName (GetUserInfo a);
                      PublicKey := PublicKey (Spec newWC) |})
    /\ Validate p (withObject a obj')
       = if String.eqb (strings.TrimPrefix (GetName (GetUserInfo a)) "system:node:")
                       (corev1.NodeName pod)
         then Allowed
         else Forbidden (Errorf "the requester %s is not related to node %s"
                           [GetName (GetUserInfo a); corev1.NodeName pod]).
Proof.
  intros Hen Hres Hobj Hsub. unfold Mutate. rewrite Hen, Hres, Hobj. simpl.
  destruct (podLister p _ _) as [pod| |] eqn:Hpod; try discriminate.
  destruct (String.eqb_spec (corev1.UID pod) (PodUID (Spec newWC))) as [Huid|Huid];
    simpl; [|discriminate].
  intros [= <-]. exists pod. split; [reflexivity|]. split; [exact Huid|].
  split; [reflexivity|].
  unfold Validate, withObject. simpl. rewrite Hen, Hres, Hsub. simpl.
  rewrite String.eqb_refl. simpl. rewrite Hpod.
  rewrite (proj2 (String.eqb_eq _ _) Huid), !String.eqb_refl. simpl.
  destruct (String.eqb _ (corev1.NodeName pod)); reflexivity.
Qed.

(** The kubelet of [node-a] creates the request of pod [p1], with fields
    of another pod filled in. *)
Lemma admitted_request_validates_for_the_node_of_the_pod_witness :
  let wc := withSpec (request DefaultWorkloadCertificateSignerName "" "K" ∅ pendingStatus)
              {| SignerName := DefaultWorkloadCertificateSignerName;
                 ServiceAccount := "admin"; Pod := "p1"; PodUID := "u1";
                 Node := "node-b"; Requester := "system:node:node-b"; PublicKey := "K" |} in
  let p := restriction (fun _ _ _ _ => false) in
  let a := updateRequest "system:node:node-a" "" wc in
  let obj' := WorkloadCertificateObject
                (request DefaultWorkloadCertificateSignerName "system:node:node-a" "K" ∅
                   pendingStatus) in
  Mutate p a = (Allowed, obj')
  /\ exists pod,
       podLister p "n1" "p1" = PodFound pod
       /\ corev1.UID pod = "u1"
       /\ obj' = WorkloadCertificateObject
                   (withSpec wc
                      {| SignerName := DefaultWorkloadCertificateSignerName;
                         ServiceAccount := corev1.ServiceAccountName pod;
                         Pod := "p1";
                         PodUID := "u1";
                         Node := corev1.NodeName pod;
                         Requester := "system:node:node-a";
                         PublicKey := "K" |})
       /\ Validate p (withObject a obj')
          = if String.eqb (strings.TrimPrefix "system:node:node-a" "system:node:")
                          (corev1.NodeName pod)
            then Allowed
            else Forbidden (Errorf "the requester %s is not related to node %s"
                              ["system:node:node-a"; corev1.NodeName pod]).
Proof.
  intros wc p a obj'. split; [reflexivity|].
  apply (admitted_request_validates_for_the_node_of_the_pod p a wc obj'); reflexivity.
Defined.
End RestrictionGuarantees.

Section EntrustingUpdates.
Import metav1 certs admission entrusting statements samples.

(** X18. The entrusting stage on an update. It passes exactly when the signer
    name is the one of the stored bundle and either is empty or is one
    the caller may [entrust]: the authorizer cannot make up for a change
    of signer name. *)
Theorem entrusting_update_keeps_signer p a newBundle oldBundle :
  GetResource a = clusterTrustBundleGroupResource ->
  GetObject a = ClusterTrustBundleObject newBundle ->
  GetOperation a = Update ->
  GetOldObject a = ClusterTrustBundleObject oldBundle ->
  Validate p a = Allowed <->
  ctbSignerName (ctbSpec oldBundle) = ctbSignerName (ctbSpec newBundle)
  /\ (ctbSignerName (ctbSpec newBundle) = ""
      \/ IsAuthorizedForSignerName (authz p) (GetUserInfo a) "entrust"
           (ctbSignerName (ctbSpec newBundle)) = true).
Proof.
  intros Hres Hobj Hop Hold. unfold Validate. rewrite Hres, Hobj, Hop, Hold. simpl.
  destruct (String.eqb_spec (ctbSignerName (ctbSpec oldBundle))
              (ctbSignerName (ctbSpec newBundle))) as [Hsame|Hchange]; simpl.
  - destruct (String.eqb_spec (ctbSignerName (ctbSpec newBundle)) "") as [Hempty|Hne].
    + split; auto.
    + destruct (IsAuthorizedForSignerName _ _ _ _); simpl.
      * split; auto.
      * split; [discriminate|]. intros [_ [?|?]]; [contradiction|discriminate].
  - split; [discriminate|]. intros [? _]. contradiction.
Qed.

(** An update that keeps the signer [a.b/c], by a principal entrusted
    with it. *)
Lemma entrusting_update_keeps_signer_witness :
  let old := bundle "a.b:c:x" "a.b/c" "" in
  let new := bundle "a.b:c:x" "a.b/c" anchorsA in
  let p := {| authz := grants "root" "entrust" "a.b/c" |} in
  let a := {| GetResource := clusterTrustBundleGroupResource;
              GetSubresource := "";
              GetOperation := Update;
              GetObject := ClusterTrustBundleObject new;
              GetOldObject := ClusterTrustBundleObject old;
              GetUserInfo := user "root" |} in
  Validate p a = Allowed
  /\ (Validate p a = Allowed <->
      "a.b/c" = "a.b/c"
      /\ ("a.b/c" = ""
          \/ IsAuthorizedForSignerName (authz p) (GetUserInfo a) "entrust" "a.b/c" = true)).
Proof.
  intros old new p a. split; [reflexivity|].
  apply (entrusting_update_keeps_signer p a new old); reflexivity.
Defined.
End EntrustingUpdates.

(** ** Trust anchors: what normalization keeps *)

Section Anchors.
Import strings pem certs clustertrustbundle kubeletclustertrustbundle statements samples.

Lemma encodeCertificate_inj der der' :
  encodeCertificate der = encodeCertificate der' -> der = der'.
Proof.
  intros H.
  pose proof (proj1 (Decode_EncodeToMemory der "")) as H1.
  pose proof (proj1 (Decode_EncodeToMemory der' "")) as H2.
  unfold encodeCertificate in H. rewrite H in H1. rewrite H1 in H2.
  injection H2 as H2. exact H2.
Qed.

Lemma pemBlocks_following ders :
  pemBlocks (following ders) = certificateBlock <$> ders.
Proof.
  induction ders as [|d ds IH]; [reflexivity|].
  rewrite pemBlocks_unfold. unfold following at 1. rewrite joined_cons.
  unfold encodeCertificate. rewrite (proj2 (Decode_EncodeToMemory d (following ds))).
  rewrite IH. reflexivity.
Qed.

(** The blocks of a normalized text. *)
Lemma pemBlocks_joined ders : pemBlocks (joined ders) = certificateBlock <$> ders.
Proof.
  destruct ders as [|d ds]; [reflexivity|].
  rewrite pemBlocks_unfold, joined_cons.
  unfold encodeCertificate. rewrite (proj1 (Decode_EncodeToMemory d (following ds))).
  rewrite pemBlocks_following. reflexivity.
Qed.

(** The blocks of canonical blocks written one after the other. *)
Lemma pemBlocks_concat ders :
  pemBlocks (String.concat "" (encodeCertificate <$> ders)) = certificateBlock <$> ders.
Proof.
  induction ders as [|d ds IH]; [reflexivity|].
  rewrite fmap_cons, concat_cons, pemBlocks_unfold.
  unfold encodeCertificate at 1.
  rewrite (proj1 (Decode_EncodeToMemory d _)). rewrite IH. reflexivity.
Qed.

Lemma normalizeLoop_blocks fuel b0 rest blockSet :
  (String.length rest < fuel)%nat ->
  normalizeLoop fuel (Some b0) rest blockSet
  = Some (match List.find (fun b => negb (isCertificate b)) (b0 :: pemBlocks rest) with
          | Some b => Err ("bad block type " +:+ quote (pem.Type_ b))
          | None =>
              Ok (list_to_set ((fun b => encodeCertificate (Bytes b)) <$> (b0 :: pemBlocks rest))
                  ∪ blockSet)
          end).
Proof.
  revert b0 rest blockSet.
  induction fuel as [|fuel IH]; intros b0 rest blockSet Hfuel; [lia|].
  unfold normalizeLoop; fold normalizeLoop. cbn [List.find]. unfold isCertificate at 1.
  destruct (negb (String.eqb (pem.Type_ b0) "CERTIFICATE")); [reflexivity|].
  rewrite (pemBlocks_unfold rest).
  destruct (Decode rest) as [[b1|] rest'] eqn:Hd.
  - apply Decode_length in Hd. rewrite IH by lia.
    destruct (List.find _ (b1 :: pemBlocks rest')); [reflexivity|].
    f_equal. f_equal.
    rewrite (fmap_cons _ b0), (list_to_set_cons _ (_ <$> b1 :: pemBlocks rest')).
    change (EncodeToMemory (reblock b0)) with (encodeCertificate (Bytes b0)).
    rewrite (comm_L (∪) {[ encodeCertificate (Bytes b0) ]} (list_to_set _)).
    rewrite <- (assoc_L (∪)). reflexivity.
  - rewrite normalizeLoop_None. cbn [List.find]. f_equal. f_equal.
    rewrite fmap_cons, fmap_nil, list_to_set_cons, list_to_set_nil, (right_id_L ∅ (∪)).
    reflexivity.
Qed.

(** The normalizer computes what its doc comment says. *)
Lemma normalizePEMTrustAnchors_normalized in_ :
  normalizePEMTrustAnchors in_ = Some (normalized in_).
Proof.
  unfold normalizePEMTrustAnchors, normalized. cbv zeta. rewrite (pemBlocks_unfold in_).
  destruct (Decode in_) as [[b0|] rest] eqn:Hd.
  - apply Decode_length in Hd. rewrite normalizeLoop_blocks by exact Hd.
    destruct (List.find _ _); [reflexivity|].
    rewrite (right_id_L ∅ (∪)). reflexivity.
  - rewrite normalizeLoop_None. reflexivity.
Qed.

(** X19. The normalizer, block by block. Its result is decided by the PEM
    blocks that [pem.Decode] finds in the input, everything between them
    being skipped: with a block of another type than CERTIFICATE it is an
    error, whose text starts with [bad block type]; otherwise the output
    holds one canonical CERTIFICATE block for every distinct DER content,
    in the byte order of the encoded blocks, joined by line feeds. *)
Theorem normalizer_rewrites_the_blocks in_ :
  match List.find (fun b => negb (isCertificate b)) (pemBlocks in_) with
  | Some _ =>
      exists text, normalizePEMTrustAnchors in_ = Some (Err ("bad block type " +:+ text))
  | None =>
      normalizePEMTrustAnchors in_
      = Some (Ok (Join
                    (sortStrings
                       (elements
                          (list_to_set (C := gset string)
                             ((fun b => encodeCertificate (Bytes b)) <$> pemBlocks in_))))
                    (String nl "")))
  end.
Proof.
  rewrite normalizePEMTrustAnchors_normalized. unfold normalized. cbv zeta.
  destruct (List.find _ _) as [b|]; [|reflexivity].
  exists (quote (pem.Type_ b)). reflexivity.
Qed.

Lemma normalized_ok in_ out :
  normalizePEMTrustAnchors in_ = Some (Ok out) ->
  exists ders,
    out = joined ders
    /\ NoDup ders
    /\ StronglySorted String.le (encodeCertificate <$> ders)
    /\ (forall der, der ∈ ders <-> der ∈ anchorsOf in_)
    /\ (forall b, In b (pemBlocks in_) -> isCertificate b = true).
Proof.
  rewrite normalizePEMTrustAnchors_normalized. unfold normalized. cbv zeta.
  destruct (List.find _ _) eqn:Hfind; [discriminate|].
  intros [= <-].
  destruct (sortStrings_sorted
              (list_to_set ((fun b => encodeCertificate (Bytes b)) <$> pemBlocks in_)))
    as (Hsorted & Hnodup & Hin).
  destruct (canonical_list
              (sortStrings
                 (elements
                    (list_to_set (C := gset string)
                       ((fun b => encodeCertificate (Bytes b)) <$> pemBlocks in_)))))
    as [ders Hders].
  { apply Forall_forall. intros e He. apply Hin, elem_of_list_to_set in He.
    apply list_elem_of_fmap in He as (b & -> & _). exists (Bytes b). reflexivity. }
  rewrite Hders in *. exists ders. split; [reflexivity|].
  split; [eapply NoDup_fmap_1, Hnodup|]. split; [exact Hsorted|]. split.
  - intros der. unfold anchorsOf. rewrite elem_of_list_to_set. split.
    + intros Hd.
      assert (encodeCertificate der ∈ encodeCertificate <$> ders) as He
        by (apply list_elem_of_fmap; eauto).
      apply Hin, elem_of_list_to_set, list_elem_of_fmap in He as (b & He & Hb).
      apply encodeCertificate_inj in He as ->. apply list_elem_of_fmap. eauto.
    + intros (b & -> & Hb)%list_elem_of_fmap.
      assert (encodeCertificate (Bytes b) ∈ encodeCertificate <$> ders) as He.
      { apply Hin, elem_of_list_to_set, list_elem_of_fmap. eauto. }
      apply list_elem_of_fmap in He as (d & He & Hd).
      apply encodeCertificate_inj in He as ->. exact Hd.
  - intros b Hb. eapply List.find_none in Hfind; [|exact Hb].
    apply negb_false_iff, Hfind.
Qed.

Lemma anchorsOf_normalized in_ out :
  normalizePEMTrustAnchors in_ = Some (Ok out) -> anchorsOf out = anchorsOf in_.
Proof.
  intros H. apply normalized_ok in H as (ders & -> & _ & _ & Hin & _).
  unfold anchorsOf at 1. rewrite pemBlocks_joined, <- list_fmap_compose.
  apply set_eq. intros der. rewrite elem_of_list_to_set, <- Hin.
  rewrite list_elem_of_fmap. split.
  - intros (d & -> & Hd). exact Hd.
  - intros Hd. exists der. split; [reflexivity|exact Hd].
Qed.

(** X20. Normalization keeps the trust anchors. When the normalizer accepts
    a text, the blocks of its output are CERTIFICATE blocks without
    headers, no two with the same DER bytes, in the byte order of their
    encoded form; their DER bytes are those of the blocks of the input,
    none lost and none added. *)
Theorem normalization_keeps_the_anchors in_ out :
  normalizePEMTrustAnchors in_ = Some (Ok out) ->
  anchorsOf out = anchorsOf in_
  /\ Forall (fun b => b = certificateBlock (Bytes b)) (pemBlocks out)
  /\ NoDup (Bytes <$> pemBlocks out)
  /\ StronglySorted String.le ((fun b => encodeCertificate (Bytes b)) <$> pemBlocks out).
Proof.
  intros H. apply normalized_ok in H as (ders & -> & Hnodup & Hsorted & Hin & _).
  rewrite pemBlocks_joined, <- !list_fmap_compose.
  assert (Hid : Bytes ∘ certificateBlock <$> ders = ders).
  { clear. induction ders as [|d ds IH]; [reflexivity|]. rewrite fmap_cons, IH. reflexivity. }
  split; [|split; [|split]].
  - unfold anchorsOf at 1. rewrite pemBlocks_joined, <- list_fmap_compose, Hid.
    apply set_eq. intros der. rewrite elem_of_list_to_set. apply Hin.
  - apply Forall_fmap, Forall_forall. intros d _. reflexivity.
  - rewrite Hid. exact Hnodup.
  - exact Hsorted.
Qed.

(** Scenario E3 once more: duplicates, a header, text between blocks. *)
Lemma normalization_keeps_the_anchors_witness :
  let out := unlines ["-----BEGIN CERTIFICATE-----"; "Yg=="; "-----END CERTIFICATE-----";
                      "";
                      "-----BEGIN CERTIFICATE-----"; "Yw=="; "-----END CERTIFICATE-----"] in
  normalizePEMTrustAnchors anchorsCBA = Some (Ok out)
  /\ anchorsOf anchorsCBA = {[ "b"; "c" ]}
  /\ anchorsOf out = anchorsOf anchorsCBA
  /\ Forall (fun b => b = certificateBlock (Bytes b)) (pemBlocks out)
  /\ NoDup (Bytes <$> pemBlocks out)
  /\ StronglySorted String.le ((fun b => encodeCertificate (Bytes b)) <$> pemBlocks out).
Proof.
  intros out.
  assert (H : normalizePEMTrustAnchors anchorsCBA = Some (Ok out))
    by (vm_compute; reflexivity).
  split; [exact H|]. split; [vm_compute; reflexivity|].
  exact (normalization_keeps_the_anchors anchorsCBA out H).
Defined.
End Anchors.

(** ** Validation and storage of trust bundles *)

Section BundleValidation.
Import strings pem metav1 certs clustertrustbundle kubeletclustertrustbundle statements samples.

Lemma joined_nonempty der ders : String.eqb (joined (der :: ders)) "" = false.
Proof.
  apply String.eqb_neq. intros H.
  pose proof (joined_length (der :: ders)) as Hlen. rewrite H in Hlen.
  simpl in Hlen. lia.
Qed.

(** A text the normalizer returns is returned unchanged when normalized
    again. *)
Lemma normalizePEMTrustAnchors_fixed in_ out :
  normalizePEMTrustAnchors in_ = Some (Ok out) ->
  normalizePEMTrustAnchors out = Some (Ok out).
Proof.
  unfold normalizePEMTrustAnchors at 1.
  destruct (Decode in_) as [b rest].
  destruct (normalizeLoop _ b rest ∅) as [[blockSet|]|] eqn:Hloop; try discriminate.
  intros [= <-].
  apply normalizeLoop_canonical in Hloop; [|intros e He; apply elem_of_empty in He as []].
  destruct (canonical_list (sortStrings (elements blockSet))) as [ders Hders].
  { apply Forall_forall. intros e He. apply Hloop.
    unfold sortStrings in He. rewrite merge_sort_Permutation in He.
    apply elem_of_elements, He. }
  rewrite Hders. change (Join (encodeCertificate <$> ders) (String nl "")) with (joined ders).
  rewrite normalizePEMTrustAnchors_joined. unfold joined. rewrite <- Hders.
  unfold sortStrings at 2. rewrite merge_sort_Permutation, list_to_set_elements_L.
  reflexivity.
Qed.

Lemma Validate_unfold v bundle :
  Validate v bundle
  = match normalizePEMTrustAnchors (TrustBundle (ctbSpec bundle)) with
    | None => None
    | Some (Err _) =>
        Some ((genericErrors v bundle
               ++ [invalidTrustAnchors "contains an invalid block"])%list, bundle)
    | Some (Ok out) =>
        if String.eqb out ""
        then Some ((genericErrors v bundle
                    ++ [invalidTrustAnchors "at least one trust anchor must be provided"])%list,
                   withPEMTrustAnchors bundle out)
        else Some (genericErrors v bundle, withPEMTrustAnchors bundle out)
    end.
Proof. reflexivity. Qed.

(** X21. The verdict of [Validate] on the trust anchors is decided by the PEM
    blocks of the field. Without any block, whatever else the text holds,
    the error is that at least one trust anchor must be provided, and the
    field is emptied. With a block of another type than CERTIFICATE, the
    error is that the field contains an invalid block, and the object is
    left as it is. With blocks that are all of type CERTIFICATE, the
    strategy adds no error to those of the generic checks, and the field
    is replaced by its normalized form, which is not empty. *)
Theorem validation_is_decided_by_the_blocks v bundle :
  (pemBlocks (TrustBundle (ctbSpec bundle)) = [] ->
   Validate v bundle
   = Some ((genericErrors v bundle
            ++ [invalidTrustAnchors "at least one trust anchor must be provided"])%list,
           withPEMTrustAnchors bundle ""))
  /\ ((exists b, In b (pemBlocks (TrustBundle (ctbSpec bundle))) /\ isCertificate b = false) ->
      Validate v bundle
      = Some ((genericErrors v bundle
               ++ [invalidTrustAnchors "contains an invalid block"])%list, bundle))
  /\ (pemBlocks (TrustBundle (ctbSpec bundle)) <> [] ->
      (forall b, In b (pemBlocks (TrustBundle (ctbSpec bundle))) -> isCertificate b = true) ->
      exists out,
        normalizePEMTrustAnchors (TrustBundle (ctbSpec bundle)) = Some (Ok out)
        /\ out <> ""
        /\ Validate v bundle = Some (genericErrors v bundle, withPEMTrustAnchors bundle out)).
Proof.
  rewrite Validate_unfold.
  split; [|split].
  - intros Hnone. rewrite normalizePEMTrustAnchors_normalized. unfold normalized.
    rewrite Hnone. reflexivity.
  - intros (b & Hin & Hbad). rewrite normalizePEMTrustAnchors_normalized. unfold normalized.
    cbv zeta.
    destruct (List.find _ _) eqn:Hfind; [reflexivity|].
    eapply List.find_none in Hfind; [|exact Hin]. rewrite Hbad in Hfind. discriminate.
  - intros Hsome Hall.
    destruct (normalizePEMTrustAnchors (TrustBundle (ctbSpec bundle))) as [[out|e]|] eqn:Hn.
    + pose proof (normalized_ok _ _ Hn) as (ders & -> & _ & _ & Hin & _).
      destruct ders as [|d ds].
      * exfalso. destruct (pemBlocks (TrustBundle (ctbSpec bundle))) as [|b l] eqn:Hb;
          [contradiction|].
        assert (Bytes b ∈ anchorsOf (TrustBundle (ctbSpec bundle))) as Hd.
        { unfold anchorsOf. rewrite Hb. apply elem_of_list_to_set. left. }
        apply Hin in Hd. inversion Hd.
      * exists (joined (d :: ds)). split; [reflexivity|].
        pose proof (joined_nonempty d ds) as Hne. rewrite Hne.
        split; [apply String.eqb_neq, Hne|reflexivity].
    + exfalso. rewrite normalizePEMTrustAnchors_normalized in Hn. unfold normalized in Hn.
      cbv zeta in Hn. destruct (List.find _ _) as [b|] eqn:Hfind; [|discriminate].
      apply List.find_some in Hfind as [Hin Hbad]. rewrite (Hall b Hin) in Hbad. discriminate.
    + exfalso. destruct (normalizePEMTrustAnchors_total (TrustBundle (ctbSpec bundle)))
        as [r Hr]. congruence.
Qed.

(** X22. Validation is stable. Whatever [Validate] answers for a bundle, it
    answers the same for the bundle as it leaves it, and leaves that one
    unchanged: a second pass neither adds an error nor rewrites the trust
    anchors again. *)
Theorem validation_is_stable v bundle errs bundle' :
  Validate v bundle = Some (errs, bundle') ->
  Validate v bundle' = Some (errs, bundle').
Proof.
  rewrite Validate_unfold.
  destruct (normalizePEMTrustAnchors (TrustBundle (ctbSpec bundle))) as [[out|e]|] eqn:Hn;
    [| |discriminate].
  - apply normalizePEMTrustAnchors_fixed in Hn.
    destruct (String.eqb out "") eqn:Hempty; intros [= <- <-];
      rewrite Validate_unfold; cbn [withPEMTrustAnchors ctbSpec TrustBundle];
      rewrite Hn, Hempty; reflexivity.
  - intros [= <- <-]. rewrite Validate_unfold, Hn. reflexivity.
Qed.

(** The bundle of scenario E3 under a validation of names alone. *)
Lemma validation_is_stable_witness :
  let stored := bundle "foo" "k8s.io/foo"
                  (unlines ["-----BEGIN CERTIFICATE-----"; "Yg=="; "-----END CERTIFICATE-----";
                            "";
                            "-----BEGIN CERTIFICATE-----"; "Yw=="; "-----END CERTIFICATE-----"]) in
  Validate nameOnlyValidation (bundle "foo" "k8s.io/foo" anchorsCBA) = Some ([], stored)
  /\ Validate nameOnlyValidation stored = Some ([], stored).
Proof.
  intros stored.
  assert (H : Validate nameOnlyValidation (bundle "foo" "k8s.io/foo" anchorsCBA)
              = Some ([], stored)) by (vm_compute; reflexivity).
  split; [exact H|].
  exact (validation_is_stable nameOnlyValidation (bundle "foo" "k8s.io/foo" anchorsCBA)
           [] stored H).
Defined.

Lemma Validate_total v bundle : exists errs bundle',
  Validate v bundle = Some (errs, bundle')
  /\ ctbObjectMeta bundle' = ctbObjectMeta bundle
  /\ ctbSignerName (ctbSpec bundle') = ctbSignerName (ctbSpec bundle).
Proof.
  rewrite Validate_unfold.
  destruct (normalizePEMTrustAnchors_total (TrustBundle (ctbSpec bundle))) as [[out|e] ->].
  - destruct (String.eqb out ""); eauto.
  - eauto.
Qed.

Lemma Validate_accepts v bundle stored :
  Validate v bundle = Some ([], stored) ->
  ctbObjectMeta stored = ctbObjectMeta bundle
  /\ ctbSignerName (ctbSpec stored) = ctbSignerName (ctbSpec bundle)
  /\ normalizePEMTrustAnchors (TrustBundle (ctbSpec bundle))
     = Some (Ok (TrustBundle (ctbSpec stored)))
  /\ TrustBundle (ctbSpec stored) <> "".
Proof.
  rewrite Validate_unfold.
  destruct (normalizePEMTrustAnchors (TrustBundle (ctbSpec bundle))) as [[out|e]|];
    [| |discriminate].
  - destruct (String.eqb_spec out "") as [Hempty|Hne].
    + intros [= H _]. destruct (genericErrors v bundle); discriminate.
    + intros [= _ <-]. repeat split. exact Hne.
  - intros [= H _]. destruct (genericErrors v bundle); discriminate.
Qed.

(** X23. What the store keeps. A bundle that a create or an update stores has
    the signer name of the object sent, and as trust anchors the
    normalized form of those sent: not empty, with the same DER contents,
    and a text that the normalizer returns as it is. An update stores a
    bundle only under the signer name of the bundle it replaces, and with
    the generation of that bundle. *)
Theorem stored_trust_anchors_are_normalized v existing obj stored :
  clustertrustbundlestorage.Create v obj = Some (inr stored)
  \/ clustertrustbundlestorage.Update v existing obj = Some (inr stored) ->
  ctbSignerName (ctbSpec stored) = ctbSignerName (ctbSpec obj)
  /\ normalizePEMTrustAnchors (TrustBundle (ctbSpec obj))
     = Some (Ok (TrustBundle (ctbSpec stored)))
  /\ TrustBundle (ctbSpec stored) <> ""
  /\ anchorsOf (TrustBundle (ctbSpec stored)) = anchorsOf (TrustBundle (ctbSpec obj))
  /\ normalizePEMTrustAnchors (TrustBundle (ctbSpec stored))
     = Some (Ok (TrustBundle (ctbSpec stored)))
  /\ (clustertrustbundlestorage.Update v existing obj = Some (inr stored) ->
      ctbSignerName (ctbSpec stored) = ctbSignerName (ctbSpec existing)
      /\ Generation (ctbObjectMeta stored) = Generation (ctbObjectMeta existing)).
Proof.
  intros H.
  set (sent := clustertrustbundlestorage.withGeneration obj
                 (Generation (ctbObjectMeta existing))).
  assert (Hupdate : clustertrustbundlestorage.Update v existing obj = Some (inr stored) ->
                    Validate v sent = Some ([], stored)
                    /\ ctbSignerName (ctbSpec stored) = ctbSignerName (ctbSpec existing)).
  { clear H. intros H.
    unfold clustertrustbundlestorage.Update, clustertrustbundlestorage.PrepareForUpdate,
      clustertrustbundlestorage.PrepareForCreate, clustertrustbundlestorage.Canonicalize,
      ValidateUpdate in H. cbv zeta in H. fold sent in H.
    destruct (Validate v sent) as [[errs obj']|]; [|discriminate].
    destruct (String.eqb_spec (ctbSignerName (ctbSpec obj'))
                (ctbSignerName (ctbSpec existing))) as [Heq|Hneq]; cbn [negb] in H.
    - destruct (_ ++ _)%list eqn:Happ; [|discriminate].
      apply app_eq_nil in Happ as [-> _]. injection H as ->. split; [reflexivity|exact Heq].
    - destruct (_ ++ [_])%list eqn:Happ; [|discriminate].
      apply app_eq_nil in Happ as [_ ?]. discriminate. }
  assert (Hvalid : exists obj0, Validate v obj0 = Some ([], stored)
                                /\ ctbSpec obj0 = ctbSpec obj).
  { destruct H as [H|H].
    - exists obj. split; [|reflexivity].
      unfold clustertrustbundlestorage.Create, clustertrustbundlestorage.PrepareForCreate,
        clustertrustbundlestorage.Canonicalize in H. cbv zeta in H.
      destruct (Validate v obj) as [[[|err errs] obj']|]; simpl in H;
        [injection H as ->; reflexivity|discriminate H|discriminate H].
    - exists sent. split; [exact (proj1 (Hupdate H))|reflexivity]. }
  destruct Hvalid as (obj0 & Hvalid & Hspec).
  destruct (Validate_accepts v obj0 stored Hvalid) as (_ & Hsigner & Hn & Hne).
  rewrite Hspec in Hsigner, Hn.
  split; [exact Hsigner|]. split; [exact Hn|]. split; [exact Hne|].
  split; [apply (anchorsOf_normalized _ _ Hn)|].
  split; [apply (normalizePEMTrustAnchors_fixed _ _ Hn)|].
  intros Hu. destruct (Hupdate Hu) as [Hv Hsame]. split; [exact Hsame|].
  destruct (Validate_accepts v sent stored Hv) as (-> & _). reflexivity.
Qed.

(** A bundle with a duplicate, a header and text between the blocks. *)
Lemma stored_trust_anchors_are_normalized_witness :
  let obj := bundle "foo" "k8s.io/foo" anchorsCBA in
  let stored := bundle "foo" "k8s.io/foo"
                  (unlines ["-----BEGIN CERTIFICATE-----"; "Yg=="; "-----END CERTIFICATE-----";
                            "";
                            "-----BEGIN CERTIFICATE-----"; "Yw=="; "-----END CERTIFICATE-----"]) in
  clustertrustbundlestorage.Create nameOnlyValidation obj = Some (inr stored)
  /\ TrustBundle (ctbSpec stored) <> ""
  /\ anchorsOf (TrustBundle (ctbSpec stored)) = anchorsOf anchorsCBA
  /\ normalizePEMTrustAnchors (TrustBundle (ctbSpec stored))
     = Some (Ok (TrustBundle (ctbSpec stored))).
Proof.
  intros obj stored.
  assert (H : clustertrustbundlestorage.Create nameOnlyValidation obj = Some (inr stored))
    by (vm_compute; reflexivity).
  split; [exact H|].
  destruct (stored_trust_anchors_are_normalized nameOnlyValidation obj obj stored
              (or_introl H)) as (_ & _ & Hne & Hanchors & Hfixed & _).
  split; [exact Hne|]. split; [exact Hanchors|exact Hfixed].
Defined.
End BundleValidation.

Section SignerChange.
Import strings pem metav1 certs admission clustertrustbundle statements samples.

(** X24. A change of signer name is turned down twice, as the comment in the
    entrusting plugin has it ("for defense in depth"): the plugin forbids
    the update, whatever the caller is authorized for, and the store
    reports validation errors for it, the last of which is that updates
    may not change the signer name. *)
Theorem signer_change_is_rejected_twice p a v newBundle oldBundle :
  GetResource a = entrusting.clusterTrustBundleGroupResource ->
  GetObject a = ClusterTrustBundleObject newBundle ->
  GetOperation a = Update ->
  GetOldObject a = ClusterTrustBundleObject oldBundle ->
  ctbSignerName (ctbSpec oldBundle) <> ctbSignerName (ctbSpec newBundle) ->
  entrusting.Validate p a = Forbidden (Errorf "changing signerName is forbidden" [])
  /\ exists errs,
       clustertrustbundlestorage.Update v oldBundle newBundle = Some (inl errs)
       /\ last errs
          = Some (field.Forbidden "spec.signerName" "updates may not change the signer name").
Proof.
  intros Hres Hobj Hop Hold Hchange. split.
  - unfold entrusting.Validate. rewrite Hres, Hobj, Hop, Hold. simpl.
    destruct (String.eqb_spec (ctbSignerName (ctbSpec oldBundle))
                (ctbSignerName (ctbSpec newBundle))); [contradiction|reflexivity].
  - unfold clustertrustbundlestorage.Update, clustertrustbundlestorage.PrepareForUpdate,
      clustertrustbundlestorage.PrepareForCreate, ValidateUpdate. cbv zeta.
    destruct (Validate_total v (clustertrustbundlestorage.withGeneration newBundle
                                  (Generation (ctbObjectMeta oldBundle))))
      as (errs & newBundle' & -> & _ & Hsigner).
    cbn [clustertrustbundlestorage.withGeneration ctbSpec] in Hsigner.
    rewrite Hsigner.
    destruct (String.eqb_spec (ctbSignerName (ctbSpec newBundle))
                (ctbSignerName (ctbSpec oldBundle))) as [Heq|_]; [congruence|].
    cbn [negb].
    exists ((errs ++ ValidateObjectMetaUpdate v (ctbObjectMeta newBundle')
                      (ctbObjectMeta oldBundle) "metadata")
            ++ [field.Forbidden "spec.signerName" "updates may not change the signer name"])%list.
    split; [|apply last_snoc].
    destruct (_ ++ [_])%list eqn:Happ; [|reflexivity].
    apply app_eq_nil in Happ as [_ ?]. discriminate.
Qed.

(** Scenario E2, at the plugin and at the store. *)
Lemma signer_change_is_rejected_twice_witness :
  let old := bundle "a.b:d:x" "a.b/c" anchorsA in
  let new := bundle "a.b:d:x" "a.b/d" anchorsA in
  let a := {| GetResource := entrusting.clusterTrustBundleGroupResource;
              GetSubresource := "";
              GetOperation := Update;
              GetObject := ClusterTrustBundleObject new;
              GetOldObject := ClusterTrustBundleObject old;
              GetUserInfo := user "root" |} in
  entrusting.Validate {| entrusting.authz := fun _ _ _ _ => true |} a
  = Forbidden (Errorf "changing signerName is forbidden" [])
  /\ exists errs,
       clustertrustbundlestorage.Update nameOnlyValidation old new = Some (inl errs)
       /\ last errs
          = Some (field.Forbidden "spec.signerName" "updates may not change the signer name").
Proof.
  intros old new a.
  apply (signer_change_is_rejected_twice {| entrusting.authz := fun _ _ _ _ => true |} a
           nameOnlyValidation new old); try reflexivity.
  discriminate.
Defined.
End SignerChange.

(** ** The projection of trust anchors by signer *)

Section Projection.
Import strings pem certs clustertrustbundle kubeletclustertrustbundle statements samples.

Lemma GetTrustAnchorsBySigner_synced env signerName labelSelector selector ctbList :
  HasSynced env = true ->
  LabelSelectorAsSelector env labelSelector = Ok selector ->
  List env selector = Ok ctbList ->
  GetTrustAnchorsBySigner env signerName labelSelector
  = Some (Ok (String.concat ""
                (encodeCertificate
                   <$> sortStrings (elements (anchorsOfSigner ctbList signerName))))).
Proof.
  intros Hsynced Hsel Hlist. unfold GetTrustAnchorsBySigner.
  rewrite Hsynced, Hsel, Hlist. simpl.
  rewrite collectBundles_spec, (right_id_L ∅ (∪)), reserialize_concat. reflexivity.
Qed.

Lemma anchorsOfSigner_ext ctbList ctbList' signerName :
  (forall der,
     (exists ctb b, ctb ∈ ctbList /\ ctbSignerName (ctbSpec ctb) = signerName
                    /\ b ∈ pemBlocks (TrustBundle (ctbSpec ctb)) /\ Bytes b = der)
     <-> (exists ctb b, ctb ∈ ctbList' /\ ctbSignerName (ctbSpec ctb) = signerName
                        /\ b ∈ pemBlocks (TrustBundle (ctbSpec ctb)) /\ Bytes b = der)) ->
  anchorsOfSigner ctbList signerName = anchorsOfSigner ctbList' signerName.
Proof.
  intros H. apply set_eq. intros der. rewrite !elem_of_anchorsOfSigner. apply H.
Qed.

Lemma elem_of_anchorsOf text der :
  der ∈ anchorsOf text <-> exists b, b ∈ pemBlocks text /\ Bytes b = der.
Proof.
  unfold anchorsOf. rewrite elem_of_list_to_set, list_elem_of_fmap. split.
  - intros (b & -> & Hb). eauto.
  - intros (b & Hb & <-). eauto.
Qed.

(** X25. An empty projection is not an error. When no listed bundle of the
    signer holds a PEM block, and so when no bundle of the signer is
    listed at all, the projection succeeds with the empty text. *)
Theorem projection_without_anchors_is_empty env signerName labelSelector selector ctbList :
  HasSynced env = true ->
  LabelSelectorAsSelector env labelSelector = Ok selector ->
  List env selector = Ok ctbList ->
  Forall (fun ctb => ctbSignerName (ctbSpec ctb) <> signerName
                     \/ pemBlocks (TrustBundle (ctbSpec ctb)) = []) ctbList ->
  GetTrustAnchorsBySigner env signerName labelSelector = Some (Ok "").
Proof.
  intros Hsynced Hsel Hlist Hnone.
  rewrite (GetTrustAnchorsBySigner_synced env signerName labelSelector selector ctbList)
    by assumption.
  assert (anchorsOfSigner ctbList signerName = ∅) as ->.
  { apply set_eq. intros der. rewrite elem_of_anchorsOfSigner. split.
    - intros (ctb & b & Hin & Hs & Hb & _).
      rewrite Forall_forall in Hnone. destruct (Hnone ctb Hin) as [Hne|Hempty];
        [contradiction|]. rewrite Hempty in Hb. inversion Hb.
    - intros He. apply elem_of_empty in He as []. }
  rewrite elements_empty. reflexivity.
Qed.

(** Bundles of another signer, and a bundle of the signer without a
    block. *)
Lemma projection_without_anchors_is_empty_witness :
  let bundles := [bundle "s2:one" "s2" anchorsA; bundle "s1:one" "s1" "non block garbage"] in
  GetTrustAnchorsBySigner (bundleCache true bundles) "s1" tt = Some (Ok "").
Proof.
  intros bundles.
  apply (projection_without_anchors_is_empty (bundleCache true bundles) "s1" tt tt bundles).
  - reflexivity.
  - reflexivity.
  - reflexivity.
  - constructor; [left; discriminate|].
    constructor; [right; vm_compute; reflexivity|]. constructor.
Defined.

(** X26. The projection depends on the listed bundles as a set: the order in
    which the lister returns them, and a bundle listed twice, make no
    difference to the text returned. *)
Theorem projection_ignores_the_order_of_the_bundles
    env env' signerName labelSelector labelSelector' selector selector' ctbList ctbList' :
  HasSynced env = true ->
  LabelSelectorAsSelector env labelSelector = Ok selector ->
  List env selector = Ok ctbList ->
  HasSynced env' = true ->
  LabelSelectorAsSelector env' labelSelector' = Ok selector' ->
  List env' selector' = Ok ctbList' ->
  (forall ctb, ctb ∈ ctbList <-> ctb ∈ ctbList') ->
  GetTrustAnchorsBySigner env signerName labelSelector
  = GetTrustAnchorsBySigner env' signerName labelSelector'.
Proof.
  intros Hsynced Hsel Hlist Hsynced' Hsel' Hlist' Hsame.
  rewrite (GetTrustAnchorsBySigner_synced env signerName labelSelector selector ctbList),
    (GetTrustAnchorsBySigner_synced env' signerName labelSelector' selector' ctbList')
    by assumption.
  rewrite (anchorsOfSigner_ext ctbList ctbList' signerName); [reflexivity|].
  intros der. split; intros (ctb & b & Hin & H); exists ctb, b; (split; [apply Hsame, Hin|exact H]).
Qed.

(** Three bundles, listed in two orders, one of them twice. *)
Lemma projection_ignores_the_order_of_the_bundles_witness :
  let b1 := bundle "s1:one" "s1" anchorsCBA in
  let b2 := bundle "s2:one" "s2" notACertificate in
  let b3 := bundle "s1:two" "s1" anchorsA in
  GetTrustAnchorsBySigner (bundleCache true [b1; b2; b3]) "s1" tt
  = GetTrustAnchorsBySigner (bundleCache true [b3; b1; b3; b2]) "s1" tt.
Proof.
  intros b1 b2 b3.
  apply (projection_ignores_the_order_of_the_bundles
           (bundleCache true [b1; b2; b3]) (bundleCache true [b3; b1; b3; b2])
           "s1" tt tt tt tt [b1; b2; b3] [b3; b1; b3; b2]); try reflexivity.
  intros ctb. rewrite !elem_of_cons, !elem_of_nil. tauto.
Defined.

(** X27. Normalization by the registry does not change what the kubelet
    projects. When every listed bundle is replaced by a bundle of the same
    signer whose trust anchors are the normalized form of its own, the
    projection for a signer returns the same text. *)
Theorem projection_is_unchanged_by_normalization
    env env' signerName labelSelector labelSelector' selector selector' ctbList ctbList' :
  HasSynced env = true ->
  LabelSelectorAsSelector env labelSelector = Ok selector ->
  List env selector = Ok ctbList ->
  HasSynced env' = true ->
  LabelSelectorAsSelector env' labelSelector' = Ok selector' ->
  List env' selector' = Ok ctbList' ->
  Forall2 (fun ctb ctb' =>
             ctbSignerName (ctbSpec ctb') = ctbSignerName (ctbSpec ctb)
             /\ normalizePEMTrustAnchors (TrustBundle (ctbSpec ctb))
                = Some (Ok (TrustBundle (ctbSpec ctb'))))
          ctbList ctbList' ->
  GetTrustAnchorsBySigner env signerName labelSelector
  = GetTrustAnchorsBySigner env' signerName labelSelector'.
Proof.
  intros Hsynced Hsel Hlist Hsynced' Hsel' Hlist' Hnorm.
  rewrite (GetTrustAnchorsBySigner_synced env signerName labelSelector selector ctbList),
    (GetTrustAnchorsBySigner_synced env' signerName labelSelector' selector' ctbList')
    by assumption.
  rewrite (anchorsOfSigner_ext ctbList ctbList' signerName); [reflexivity|].
  clear -Hnorm. intros der. split.
  - intros (ctb & b & Hin & Hs & Hb & Hder).
    apply list_elem_of_lookup in Hin as [i Hi].
    destruct (Forall2_lookup_l _ _ _ _ _ Hnorm Hi) as (ctb' & Hi' & Hs' & Hn).
    assert (der ∈ anchorsOf (TrustBundle (ctbSpec ctb'))) as Hd.
    { rewrite (anchorsOf_normalized _ _ Hn). apply elem_of_anchorsOf. eauto. }
    apply elem_of_anchorsOf in Hd as (b' & Hb' & Hder').
    exists ctb', b'. split; [eapply list_elem_of_lookup_2, Hi'|]. split; [congruence|auto].
  - intros (ctb' & b' & Hin & Hs & Hb & Hder).
    apply list_elem_of_lookup in Hin as [i Hi].
    destruct (Forall2_lookup_r _ _ _ _ _ Hnorm Hi) as (ctb & Hi' & Hs' & Hn).
    assert (der ∈ anchorsOf (TrustBundle (ctbSpec ctb))) as Hd.
    { rewrite <- (anchorsOf_normalized _ _ Hn). apply elem_of_anchorsOf. eauto. }
    apply elem_of_anchorsOf in Hd as (b & Hb0 & Hder0).
    exists ctb, b. split; [eapply list_elem_of_lookup_2, Hi'|]. split; [congruence|auto].
Qed.

(** The bundle of scenario E3 as sent and as the registry stores it. *)
Lemma projection_is_unchanged_by_normalization_witness :
  let sent := bundle "s1:one" "s1" anchorsCBA in
  let stored := bundle "s1:one" "s1"
                  (unlines ["-----BEGIN CERTIFICATE-----"; "Yg=="; "-----END CERTIFICATE-----";
                            "";
                            "-----BEGIN CERTIFICATE-----"; "Yw=="; "-----END CERTIFICATE-----"]) in
  GetTrustAnchorsBySigner (bundleCache true [sent]) "s1" tt
  = GetTrustAnchorsBySigner (bundleCache true [stored]) "s1" tt.
Proof.
  intros sent stored.
  apply (projection_is_unchanged_by_normalization
           (bundleCache true [sent]) (bundleCache true [stored])
           "s1" tt tt tt tt [sent] [stored]); try reflexivity.
  constructor; [|constructor]. split; [reflexivity|vm_compute; reflexivity].
Defined.

Lemma sortStrings_elements_sorted (l : list string) :
  StronglySorted String.le l -> NoDup l ->
  sortStrings (elements (list_to_set (C := gset string) l)) = l.
Proof.
  intros Hsorted Hnodup.
  apply (StronglySorted_unique String.le); [| exact Hsorted |].
  - apply StronglySorted_merge_sort; apply _.
  - unfold sortStrings. rewrite merge_sort_Permutation.
    apply elements_list_to_set, Hnodup.
Qed.

(** X28. The text a projection returns reads back as itself: served as the
    trust bundle of the one listed bundle of the signer, it is projected
    unchanged. *)
Theorem projection_reads_back
    env env' signerName labelSelector labelSelector' selector selector' ctbList ctb out :
  HasSynced env = true ->
  LabelSelectorAsSelector env labelSelector = Ok selector ->
  List env selector = Ok ctbList ->
  GetTrustAnchorsBySigner env signerName labelSelector = Some (Ok out) ->
  HasSynced env' = true ->
  LabelSelectorAsSelector env' labelSelector' = Ok selector' ->
  List env' selector' = Ok [ctb] ->
  ctbSignerName (ctbSpec ctb) = signerName ->
  TrustBundle (ctbSpec ctb) = out ->
  GetTrustAnchorsBySigner env' signerName labelSelector' = Some (Ok out).
Proof.
  intros Hsynced Hsel Hlist Hout Hsynced' Hsel' Hlist' Hsigner Hbundle.
  rewrite (GetTrustAnchorsBySigner_synced env signerName labelSelector selector ctbList)
    in Hout by assumption.
  injection Hout as Hout.
  rewrite (GetTrustAnchorsBySigner_synced env' signerName labelSelector' selector' [ctb])
    by assumption.
  destruct (sortStrings_sorted (anchorsOfSigner ctbList signerName))
    as (Hsorted & Hnodup & _).
  assert (anchorsOfSigner [ctb] signerName
          = list_to_set (sortStrings (elements (anchorsOfSigner ctbList signerName)))) as ->.
  { unfold anchorsOfSigner at 1. cbn [List.filter].
    rewrite (proj2 (String.eqb_eq _ _) Hsigner).
    rewrite bind_singleton, Hbundle, <- Hout, pemBlocks_concat.
    rewrite <- list_fmap_compose. f_equal.
    generalize (sortStrings (elements (anchorsOfSigner ctbList signerName))).
    intros l. induction l as [|d ds IH]; [reflexivity|]. rewrite fmap_cons, IH. reflexivity. }
  rewrite sortStrings_elements_sorted by assumption. rewrite Hout. reflexivity.
Qed.

(** The projection of scenario E3, served again. *)
Lemma projection_reads_back_witness :
  let out := encodeCertificate "a" +:+ encodeCertificate "b" +:+ encodeCertificate "c" in
  GetTrustAnchorsBySigner
    (bundleCache true [bundle "s1:one" "s1" anchorsCBA; bundle "s1:two" "s1" anchorsA])
    "s1" tt = Some (Ok out)
  /\ GetTrustAnchorsBySigner (bundleCache true [bundle "s1:all" "s1" out]) "s1" tt
     = Some (Ok out).
Proof.
  intros out.
  assert (H : GetTrustAnchorsBySigner
                (bundleCache true [bundle "s1:one" "s1" anchorsCBA;
                                   bundle "s1:two" "s1" anchorsA])
                "s1" tt = Some (Ok out)) by (vm_compute; reflexivity).
  split; [exact H|].
  apply (projection_reads_back
           (bundleCache true [bundle "s1:one" "s1" anchorsCBA; bundle "s1:two" "s1" anchorsA])
           (bundleCache true [bundle "s1:all" "s1" out])
           "s1" tt tt tt tt
           [bundle "s1:one" "s1" anchorsCBA; bundle "s1:two" "s1" anchorsA]
           (bundle "s1:all" "s1" out) out); solve [reflexivity|exact H].
Defined.
End Projection.

(** ** The two update paths of a request *)

Section UpdatePaths.
Import metav1 certs admission workloadcertificate statements samples.



(** X30. The main resource carries the status too. The strategy of the
    main resource prepares nothing on update, so that an update the
    validation accepts is stored with the name, namespace, annotations,
    spec and status that were sent, under the generation of the stored
    request, also when the spec has changed. The restriction plugin asks
    the authorizer only on the status subresource: on the main resource
    its verdict is the same for every authorizer, and holding [sign] on
    the signer plays no part in it. *)
Theorem main_resource_update_stores_the_status_sent p a v existing newWC stored :
  GetSubresource a = "" ->
  GetObject a = WorkloadCertificateObject newWC ->
  wcrestriction.Validate p a = Allowed ->
  REST_Update v existing newWC = inr stored ->
  stored = withGeneration newWC (Generation (ObjectMeta_ existing))
  /\ Spec stored = Spec newWC
  /\ Status stored = Status newWC
  /\ forall authz',
       wcrestriction.Validate
         {| wcrestriction.authz := authz';
            wcrestriction.enabled := wcrestriction.enabled p;
            wcrestriction.podLister := wcrestriction.podLister p |} a = Allowed.
Proof.
  intros Hsub Hobj Hvalid Hupdate.
  assert (stored = withGeneration newWC (Generation (ObjectMeta_ existing))) as ->.
  { unfold REST_Update, BeforeUpdate, Strategy in Hupdate.
    cbn [PrepareForUpdate ValidateUpdate Canonicalize] in Hupdate. cbv zeta in Hupdate.
    destruct (ValidateWorkloadCertificateUpdate v _ existing); [|discriminate].
    injection Hupdate as <-. reflexivity. }
  split; [reflexivity|]. split; [reflexivity|]. split; [reflexivity|].
  intros authz'. revert Hvalid. unfold wcrestriction.Validate. simpl.
  rewrite Hsub, Hobj. simpl. intros H. exact H.
Qed.

(** The node of pod [p1] sends its request with another public key, a
    certificate of its own making and generation 7; no principal holds
    [sign]. *)
Lemma main_resource_update_stores_the_status_sent_witness :
  let existing := request DefaultWorkloadCertificateSignerName "system:node:node-a" "K"
                    ∅ pendingStatus in
  let newWC := withGeneration
                 (request DefaultWorkloadCertificateSignerName "system:node:node-a" "K2"
                    ∅ (issuedStatus "SELF-MADE" time.zero)) 7 in
  let stored := request DefaultWorkloadCertificateSignerName "system:node:node-a" "K2"
                  ∅ (issuedStatus "SELF-MADE" time.zero) in
  let p := restriction (fun _ _ _ _ => false) in
  let a := updateRequest "system:node:node-a" "" newWC in
  wcrestriction.Validate p a = Allowed
  /\ REST_Update noWorkloadCertificateValidation existing newWC = inr stored
  /\ Generation (ObjectMeta_ stored) = 1
  /\ Certificate (Status stored) = "SELF-MADE"
  /\ (stored = withGeneration newWC (Generation (ObjectMeta_ existing))
      /\ Spec stored = Spec newWC
      /\ Status stored = Status newWC
      /\ forall authz',
           wcrestriction.Validate
             {| wcrestriction.authz := authz';
                wcrestriction.enabled := wcrestriction.enabled p;
                wcrestriction.podLister := wcrestriction.podLister p |} a = Allowed).
Proof.
  intros existing newWC stored p a.
  split; [reflexivity|]. split; [reflexivity|]. split; [reflexivity|].
  split; [reflexivity|].
  apply (main_resource_update_stores_the_status_sent p a noWorkloadCertificateValidation
           existing newWC stored); reflexivity.
Defined.
End UpdatePaths.
